(** * Accessibility evaluator: rule engine, ARIA validator and WCAG
      compliance calculator

    A shallow embedding of the TypeScript sources
    [wcag-compliance-checker.ts], [accessibility-evaluator.ts] and
    [aria-validator.ts], together with the properties their specification
    states about them.

    Conventions of the embedding.
    - A JavaScript string is a [string]: a sequence of 8-bit code units.
      [toLowerCase] acts on the ASCII range, which covers every string
      constant of the sources; the whitespace class [\s] is the ASCII
      whitespace and the no-break space.
    - A [Map] is an association list in insertion order with unique keys,
      a [Set] a duplicate-free list in insertion order.
    - A function that may [throw] returns a [Completion]; an [async]
      function returns the completion its promise settles with.
    - The ARIA validator is embedded twice: as a function of its
      catalogues ([Aria]), and as a computation on a store that holds the
      validator instance and the objects a call creates ([AriaStore]); the
      second is shown to compute what the first does.
    - [number] values that the code computes with [/] and [Math.round] are
      binary64 floats ([PrimFloat]); counts and indices are [nat] or [Z].
    - The parsed document ([cheerio.load]) is a tree of [Node]s; a selector
      written as a constant in the source is translated by its CSS meaning,
      a selector assembled at run time from document data is handed to the
      selector engine, which is a parameter of the development. *)

From Stdlib Require Import List String Ascii ZArith Lia Bool Permutation.
From Stdlib Require Import Floats.PrimFloat Floats.FloatOps Floats.SpecFloat.
From Stdlib Require Import Numbers.Cyclic.Int63.Uint63.
Import ListNotations.

Set Warnings "-register-all".

Open Scope string_scope.
Open Scope list_scope.

(** ** Completions *)

Inductive Completion (A : Type) : Type :=
| Normal (value : A)
| Throw (error : string).

Arguments Normal {A} value.
Arguments Throw {A} error.

Definition bindC {A B : Type} (c : Completion A) (k : A -> Completion B)
  : Completion B :=
  match c with
  | Normal a => k a
  | Throw e => Throw e
  end.

Notation "x <- c ;; k" := (bindC c (fun x => k))
  (at level 61, c at next level, right associativity).

(** ** JavaScript strings *)

Module JS.

(** [s.startsWith(p)] *)
Definition startsWith (s p : string) : bool := String.prefix p s.

(** [s.includes(sub)] *)
Fixpoint includes (s sub : string) : bool :=
  String.prefix sub s ||
  match s with
  | EmptyString => false
  | String _ s' => includes s' sub
  end.

(** Drop the first [n] code units. *)
Fixpoint drop (n : nat) (s : string) : string :=
  match n, s with
  | O, _ => s
  | S n', String _ s' => drop n' s'
  | S _, EmptyString => EmptyString
  end.

(** [s.replace(pat, rep)] with a string pattern: the first occurrence only. *)
Fixpoint replace (s pat rep : string) : string :=
  if String.prefix pat s then (rep ++ drop (String.length pat) s)%string
  else match s with
       | EmptyString => EmptyString
       | String c s' => String c (replace s' pat rep)
       end.

Definition lowerChar (c : ascii) : ascii :=
  let n := nat_of_ascii c in
  if (65 <=? n)%nat && (n <=? 90)%nat then ascii_of_nat (n + 32) else c.

(** [s.toLowerCase()] *)
Fixpoint toLowerCase (s : string) : string :=
  match s with
  | EmptyString => EmptyString
  | String c s' => String (lowerChar c) (toLowerCase s')
  end.

(** The class [\s], which is also what [trim] strips: tab, line feed,
    vertical tab, form feed, carriage return, space and, of the code
    units above 127, the no-break space (160). *)
Definition isSpace (c : ascii) : bool :=
  let n := nat_of_ascii c in
  ((9 <=? n)%nat && (n <=? 13)%nat) || (n =? 32)%nat || (n =? 160)%nat.

(** [s.replace(/\s+/g, rep)]: every maximal run of whitespace becomes one
    [rep].  [inRun] says that the previous code unit was whitespace. *)
Fixpoint replaceSpaceRuns (inRun : bool) (rep s : string) : string :=
  match s with
  | EmptyString => EmptyString
  | String c s' =>
      if isSpace c then
        if inRun then replaceSpaceRuns true rep s'
        else (rep ++ replaceSpaceRuns true rep s')%string
      else String c (replaceSpaceRuns false rep s')
  end.

(** [s.split(sep)] for a one-character separator. *)
Fixpoint splitOn (sep : ascii) (s : string) : list string :=
  match s with
  | EmptyString => [EmptyString]
  | String c s' =>
      if Ascii.eqb c sep then EmptyString :: splitOn sep s'
      else match splitOn sep s' with
           | [] => [String c EmptyString]
           | w :: ws => String c w :: ws
           end
  end.

(** Truthiness of [s.trim()]: some code unit is not whitespace. *)
Fixpoint trimTruthy (s : string) : bool :=
  match s with
  | EmptyString => false
  | String c s' => negb (isSpace c) || trimTruthy s'
  end.

(** Truthiness of a string: it is not empty. *)
Definition truthy (s : string) : bool :=
  match s with
  | EmptyString => false
  | String _ _ => true
  end.

(** [a.join(sep)] *)
Fixpoint join (sep : string) (a : list string) : string :=
  match a with
  | [] => EmptyString
  | [x] => x
  | x :: rest => (x ++ sep ++ join sep rest)%string
  end.

(** [s.substring(0, n)] *)
Definition substring0 (n : nat) (s : string) : string := String.substring 0 n s.

(** [a.indexOf(x)] on an array of strings: [-1] when absent. *)
Fixpoint indexOfFrom (i : Z) (a : list string) (x : string) : Z :=
  match a with
  | [] => (-1)%Z
  | y :: rest => if String.eqb y x then i else indexOfFrom (i + 1)%Z rest x
  end.

Definition indexOf (a : list string) (x : string) : Z := indexOfFrom 0%Z a x.

(** [a.includes(x)] on an array of strings. *)
Definition arrayIncludes (a : list string) (x : string) : bool :=
  existsb (String.eqb x) a.

(** [s1 >= s2] on strings: code-unit lexicographic order. *)
Definition stringGe (s1 s2 : string) : bool := String.leb s2 s1.

End JS.

(** ** [Map<string, V>] *)

Module JSMap.

Definition t (V : Type) : Type := list (string * V).

Definition empty {V : Type} : t V := [].

Fixpoint get {V : Type} (m : t V) (k : string) : option V :=
  match m with
  | [] => None
  | (k', v) :: m' => if String.eqb k' k then Some v else get m' k
  end.

Definition has {V : Type} (m : t V) (k : string) : bool :=
  match get m k with
  | Some _ => true
  | None => false
  end.

(** [m.set(k, v)]: an existing key keeps its position. *)
Fixpoint set {V : Type} (m : t V) (k : string) (v : V) : t V :=
  match m with
  | [] => [(k, v)]
  | (k', v') :: m' =>
      if String.eqb k' k then (k, v) :: m' else (k', v') :: set m' k v
  end.

Definition keys {V : Type} (m : t V) : list string := map fst m.
Definition values {V : Type} (m : t V) : list V := map snd m.

End JSMap.

(** ** [Set<string>] *)

Module JSSet.

Definition t : Type := list string.

Definition empty : t := [].

Definition has (s : t) (x : string) : bool := existsb (String.eqb x) s.

Definition add (s : t) (x : string) : t := if has s x then s else s ++ [x].

End JSSet.

(** ** [number]: binary64 arithmetic and [Math.round] *)

Module JSNumber.

Definition ofNat (n : nat) : float :=
  PrimFloat.of_uint63 (Uint63.of_Z (Z.of_nat n)).

(** The float that is the integer [n]; [negZero] chooses the sign of a
    zero result. *)
Definition ofInteger (negZero : bool) (n : Z) : float :=
  match n with
  | Z0 => if negZero then PrimFloat.opp PrimFloat.zero else PrimFloat.zero
  | Zpos _ => PrimFloat.of_uint63 (Uint63.of_Z n)
  | Zneg p => PrimFloat.opp (PrimFloat.of_uint63 (Uint63.of_Z (Zpos p)))
  end.

(** [Math.round(x)]: the integer nearest to [x], a tie going towards
    plus infinity; NaN, the infinities, the zeros and the floats with no
    fractional bits are returned as they are. *)
Definition Math_round (x : float) : float :=
  match Prim2SF x with
  | S754_finite s m e =>
      if (0 <=? e)%Z then x
      else
        let n := if s then Zneg m else Zpos m in
        let k := Z.opp e in
        ofInteger s ((2 * n + 2 ^ k) / 2 ^ (k + 1))%Z
  | _ => x
  end.

End JSNumber.

(** ** Data model ([types.ts]) *)

Module Types.

Inductive IssueType := error | warning | info.
Inductive Standard := WCAG | ARIA | MDN | AXE.
Inductive Impact := minor | moderate | serious | critical.

(** The entries of the explanation table [explanations.issues.rules].  The
    seven explanation fields of an issue are copied together from one
    entry, so an issue records the entry they came from. *)
Inductive Explanation :=
| Expl_WCAG_1_1_1
| Expl_WCAG_1_3_1_default
| Expl_WCAG_1_3_1_skip
| Expl_default.

Record AccessibilityIssue := mkIssue {
  type : IssueType;
  rule : string;
  message : string;
  element : option string;
  selector : option string;
  standard : Standard;
  level : option string;
  impact : option Impact;
  explanation : option Explanation
}.

Record Summary := mkSummary {
  totalIssues : nat;
  errors : nat;
  warnings : nat;
  infos : nat;
  byStandard : list (Standard * nat);
  byImpact : list (Impact * nat)
}.

Record EvaluationResult := mkEvaluationResult {
  issues : list AccessibilityIssue;
  summary : Summary;
  passedChecks : list string
}.

Record WCAGCriterion := mkCriterion {
  id : string;
  name : string;
  criterionLevel : string;
  principle : string;
  guideline : string;
  techniques : list string;
  commonFailures : list string
}.

Record DetailedScores := mkDetailedScores {
  perceivable : float;
  operable : float;
  understandable : float;
  robust : float
}.

Record WCAGComplianceReport := mkReport {
  reportLevel : string;
  passedCriteria : list WCAGCriterion;
  failedCriteria : list WCAGCriterion;
  notApplicableCriteria : list WCAGCriterion;
  overallScore : float;
  detailedScores : DetailedScores
}.

End Types.

(** ** The compliance calculator ([WCAGComplianceChecker]) *)

Module Checker.
Import Types.

Record WCAGComplianceChecker := mkChecker {
  criteria : JSMap.t WCAGCriterion
}.

Definition setCriterion (self : WCAGComplianceChecker) (c : WCAGCriterion)
  : WCAGComplianceChecker :=
  mkChecker (JSMap.set (criteria self) (id c) c).

(** The catalog, in the order [initializeCriteria] enters it. *)
Definition catalog : list WCAGCriterion :=
  [ mkCriterion "1.1.1" "Non-text Content" "A" "Perceivable"
      "1.1 Text Alternatives"
      ["H37"; "H36"; "H35"; "H53"; "ARIA6"; "ARIA10"]
      ["F3"; "F13"; "F20"; "F30"; "F38"; "F39"; "F65"];
    mkCriterion "1.2.1" "Audio-only and Video-only (Prerecorded)" "A"
      "Perceivable" "1.2 Time-based Media"
      ["G158"; "G159"; "G166"] [];
    mkCriterion "1.3.1" "Info and Relationships" "A" "Perceivable"
      "1.3 Adaptable"
      ["ARIA11"; "ARIA12"; "ARIA13"; "ARIA16"; "ARIA17"; "G115"; "H39";
       "H42"; "H43"; "H44"; "H48"]
      ["F2"; "F33"; "F34"; "F42"; "F43"; "F46"];
    mkCriterion "1.4.1" "Use of Color" "A" "Perceivable"
      "1.4 Distinguishable"
      ["G14"; "G111"; "G182"; "G183"] ["F13"; "F73"; "F81"];
    mkCriterion "2.1.1" "Keyboard" "A" "Operable"
      "2.1 Keyboard Accessible"
      ["G202"; "H91"; "SCR20"; "SCR35"] ["F10"; "F42"; "F54"; "F55"];
    mkCriterion "2.4.1" "Bypass Blocks" "A" "Operable" "2.4 Navigable"
      ["G1"; "G123"; "G124"; "H69"; "H70"; "H64"; "SCR28"] [];
    mkCriterion "3.1.1" "Language of Page" "A" "Understandable"
      "3.1 Readable" ["H57"] [];
    mkCriterion "4.1.1" "Parsing" "A" "Robust" "4.1 Compatible"
      ["G134"; "G192"; "H88"; "H74"; "H75"; "H93"; "H94"] ["F70"; "F77"];
    mkCriterion "1.4.3" "Contrast (Minimum)" "AA" "Perceivable"
      "1.4 Distinguishable"
      ["G18"; "G148"; "G174"; "G145"] ["F24"; "F83"];
    mkCriterion "1.4.5" "Images of Text" "AA" "Perceivable"
      "1.4 Distinguishable" ["C22"; "C30"; "G140"] [];
    mkCriterion "2.4.6" "Headings and Labels" "AA" "Operable"
      "2.4 Navigable" ["G130"; "G131"] [];
    mkCriterion "3.3.3" "Error Suggestion" "AA" "Understandable"
      "3.3 Input Assistance"
      ["G83"; "G84"; "G85"; "G177"; "SCR18"; "SCR32"] [];
    mkCriterion "1.4.6" "Contrast (Enhanced)" "AAA" "Perceivable"
      "1.4 Distinguishable"
      ["G17"; "G18"; "G148"; "G174"] ["F24"; "F83"];
    mkCriterion "2.4.9" "Link Purpose (Link Only)" "AAA" "Operable"
      "2.4 Navigable" ["ARIA7"; "ARIA8"; "H30"; "H24"] [];
    mkCriterion "3.1.5" "Reading Level" "AAA" "Understandable"
      "3.1 Readable" ["G86"; "G103"; "G79"; "G153"; "G160"] [] ].

Definition initializeCriteria (self : WCAGComplianceChecker)
  : WCAGComplianceChecker :=
  fold_left setCriterion catalog self.

(** [new WCAGComplianceChecker()] *)
Definition newChecker : WCAGComplianceChecker :=
  initializeCriteria (mkChecker JSMap.empty).

Definition levelOrder : list string := ["A"; "AA"; "AAA"].

Definition getApplicableCriteria (self : WCAGComplianceChecker)
    (targetLevel : string) : Completion (JSMap.t WCAGCriterion) :=
  let targetIndex := JS.indexOf levelOrder targetLevel in
  if (targetIndex =? -1)%Z then
    Throw ("Invalid target level: " ++ targetLevel)%string
  else
    Normal
      (fold_left
         (fun applicableCriteria (entry : string * WCAGCriterion) =>
            let (id, criterion) := entry in
            let criterionIndex :=
              JS.indexOf levelOrder (criterionLevel criterion) in
            if (criterionIndex <=? targetIndex)%Z
            then JSMap.set applicableCriteria id criterion
            else applicableCriteria)
         (criteria self) JSMap.empty).

Definition isCriterionApplicable (criterion : WCAGCriterion)
    (evaluationResult : EvaluationResult) : bool :=
  let relatedChecks :=
    filter
      (fun check =>
         JS.includes check (id criterion) ||
         JS.includes (JS.toLowerCase check)
           (JS.replaceSpaceRuns false "-" (JS.toLowerCase (name criterion))))
      (passedChecks evaluationResult) in
  (0 <? List.length relatedChecks)%nat.

(** The [return]s inside the loop over [levelOrder[0..targetIndex]];
    [None] when the loop runs to its end. *)
Fixpoint failureLoop (indices : list nat) (failed : list WCAGCriterion)
  : option string :=
  match indices with
  | [] => None
  | i :: rest =>
      let currentLevel := nth i levelOrder "undefined" in
      let failuresAtLevel :=
        filter (fun c => String.eqb (criterionLevel c) currentLevel) failed in
      if (0 <? List.length failuresAtLevel)%nat then
        if String.eqb currentLevel "A" then Some "None"
        else if String.eqb currentLevel "AA" then Some "A"
        else if String.eqb currentLevel "AAA" then Some "AA"
        else failureLoop rest failed
      else failureLoop rest failed
  end.

Definition countLevel (l : string) (cs : list WCAGCriterion) : nat :=
  List.length (filter (fun c => String.eqb (criterionLevel c) l) cs).

Definition calculateComplianceLevel (passed failed : list WCAGCriterion)
    (targetLevel : string) : string :=
  let targetIndex := JS.indexOf levelOrder targetLevel in
  match failureLoop (seq 0 (Z.to_nat (targetIndex + 1))) failed with
  | Some l => l
  | None =>
      let passedA := countLevel "A" passed in
      let passedAA := countLevel "AA" passed in
      let passedAAA := countLevel "AAA" passed in
      if String.eqb targetLevel "AAA" && (0 <? passedAAA)%nat
         && (0 <? passedAA)%nat && (0 <? passedA)%nat
      then "AAA"
      else if JS.stringGe targetLevel "AA" && (0 <? passedAA)%nat
              && (0 <? passedA)%nat
      then "AA"
      else if (0 <? passedA)%nat then "A"
      else "None"
  end.

(** [Math.round((part / total) * 100)], the expression both score
    functions compute. *)
Definition percentage (part total : nat) : float :=
  JSNumber.Math_round
    (PrimFloat.mul
       (PrimFloat.div (JSNumber.ofNat part) (JSNumber.ofNat total))
       (JSNumber.ofNat 100)).

Definition calculateOverallScore (passed failed : list WCAGCriterion)
  : float :=
  let total := (List.length passed + List.length failed)%nat in
  if (total =? 0)%nat then PrimFloat.zero
  else percentage (List.length passed) total.

Definition countPrinciple (p : string) (cs : list WCAGCriterion) : nat :=
  List.length (filter (fun c => String.eqb (principle c) p) cs).

Definition principleScore (p : string) (passed failed : list WCAGCriterion)
  : float :=
  let passedInPrinciple := countPrinciple p passed in
  let failedInPrinciple := countPrinciple p failed in
  let totalInPrinciple := (passedInPrinciple + failedInPrinciple)%nat in
  if (0 <? totalInPrinciple)%nat
  then percentage passedInPrinciple totalInPrinciple
  else PrimFloat.zero.

Definition calculateDetailedScores (passed failed : list WCAGCriterion)
  : DetailedScores :=
  mkDetailedScores
    (principleScore "Perceivable" passed failed)
    (principleScore "Operable" passed failed)
    (principleScore "Understandable" passed failed)
    (principleScore "Robust" passed failed).

(** The map from criterion id to the issues filed under it. *)
Definition mapIssue (criteriaIssues : JSMap.t (list AccessibilityIssue))
    (issue : AccessibilityIssue) : JSMap.t (list AccessibilityIssue) :=
  if JS.startsWith (rule issue) "WCAG" then
    let criterionId := JS.replace (rule issue) "WCAG " "" in
    let criteriaIssues :=
      if negb (JSMap.has criteriaIssues criterionId)
      then JSMap.set criteriaIssues criterionId []
      else criteriaIssues in
    match JSMap.get criteriaIssues criterionId with
    | Some found => JSMap.set criteriaIssues criterionId (found ++ [issue])
    | None => criteriaIssues
    end
  else criteriaIssues.

(** The three arrays the classification loop pushes to. *)
Record Classification := mkClassification {
  passedAcc : list WCAGCriterion;
  failedAcc : list WCAGCriterion;
  notApplicableAcc : list WCAGCriterion
}.

Definition classify (evaluationResult : EvaluationResult)
    (criteriaIssues : JSMap.t (list AccessibilityIssue))
    (acc : Classification) (entry : string * WCAGCriterion)
  : Classification :=
  let (id, criterion) := entry in
  let issues :=
    match JSMap.get criteriaIssues id with
    | Some found => found
    | None => []
    end in
  if (0 <? List.length issues)%nat then
    mkClassification (passedAcc acc) (failedAcc acc ++ [criterion])
      (notApplicableAcc acc)
  else if isCriterionApplicable criterion evaluationResult then
    mkClassification (passedAcc acc ++ [criterion]) (failedAcc acc)
      (notApplicableAcc acc)
  else
    mkClassification (passedAcc acc) (failedAcc acc)
      (notApplicableAcc acc ++ [criterion]).

(** The default parameter value [targetLevel = 'AA']. *)
Definition targetOrDefault (targetLevel : option string) : string :=
  match targetLevel with
  | Some l => l
  | None => "AA"
  end.

Definition evaluateCompliance (self : WCAGComplianceChecker)
    (evaluationResult : EvaluationResult) (targetLevel : option string)
  : Completion WCAGComplianceReport :=
  let targetLevel := targetOrDefault targetLevel in
  applicableCriteria <- getApplicableCriteria self targetLevel ;;
  let criteriaIssues :=
    fold_left mapIssue (issues evaluationResult) JSMap.empty in
  let classes :=
    fold_left (classify evaluationResult criteriaIssues) applicableCriteria
      (mkClassification [] [] []) in
  let passedCriteria := passedAcc classes in
  let failedCriteria := failedAcc classes in
  let notApplicableCriteria := notApplicableAcc classes in
  let level :=
    calculateComplianceLevel passedCriteria failedCriteria targetLevel in
  let overallScore := calculateOverallScore passedCriteria failedCriteria in
  let detailedScores :=
    calculateDetailedScores passedCriteria failedCriteria in
  Normal
    (mkReport level passedCriteria failedCriteria notApplicableCriteria
       overallScore detailedScores).

End Checker.

(** ** The document tree and the selector queries *)

Module Dom.

Record Tag := mkTag {
  tagName : string;
  attribs : list (string * string)
}.

Inductive Node :=
| Element (tag : Tag) (children : list Node)
| Text (data : string).

(** The children of the document root. *)
Definition Document : Type := list Node.

(** An element of a selection: the element, its children and its
    ancestors, the nearest first. *)
Record Selected := mkSelected {
  self : Tag;
  children : list Node;
  ancestors : list Tag
}.

Fixpoint attrIn (attrs : list (string * string)) (name : string)
  : option string :=
  match attrs with
  | [] => None
  | (n, v) :: rest => if String.eqb n name then Some v else attrIn rest name
  end.

(** [$el.attr(name)]: [None] is [undefined]. *)
Definition attr (el : Selected) (name : string) : option string :=
  attrIn (attribs (self el)) name.

(** The elements of a subtree in document order. *)
Fixpoint elementsOf (above : list Tag) (n : Node) : list Selected :=
  match n with
  | Text _ => []
  | Element tag kids =>
      mkSelected tag kids above :: flat_map (elementsOf (tag :: above)) kids
  end.

Definition elementsUnder (above : list Tag) (ns : list Node)
  : list Selected :=
  flat_map (elementsOf above) ns.

Definition elements (doc : Document) : list Selected := elementsUnder [] doc.

(** A compound selector, as the test it puts on one element. *)
Definition Selector : Type := Tag -> bool.

Definition isTag (name : string) : Selector :=
  fun t => String.eqb (tagName t) name.

Definition hasAttr (name : string) : Selector :=
  fun t => match attrIn (attribs t) name with Some _ => true | None => false end.

Definition attrEq (name value : string) : Selector :=
  fun t =>
    match attrIn (attribs t) name with
    | Some v => String.eqb v value
    | None => false
    end.

Definition andSel (a b : Selector) : Selector := fun t => a t && b t.
Definition notSel (a : Selector) : Selector := fun t => negb (a t).

(** A selector list [a, b, ...]. *)
Definition anyOf (sels : list Selector) : Selector :=
  fun t => existsb (fun s => s t) sels.

(** [$(selector)] *)
Definition query (doc : Document) (sel : Selector) : list Selected :=
  filter (fun el => sel (self el)) (elements doc).

(** [$el.is(selector)] *)
Definition matches (el : Selected) (sel : Selector) : bool := sel (self el).

(** [$el.find(selector)] *)
Definition find (el : Selected) (sel : Selector) : list Selected :=
  filter (fun d => sel (self d))
    (elementsUnder (self el :: ancestors el) (children el)).

(** [$el.closest(selector).length > 0] *)
Definition hasClosest (el : Selected) (sel : Selector) : bool :=
  existsb sel (self el :: ancestors el).

Fixpoint textOf (n : Node) : string :=
  match n with
  | Text d => d
  | Element _ kids => String.concat "" (map textOf kids)
  end.

(** [$el.text()] *)
Definition text (el : Selected) : string :=
  String.concat "" (map textOf (children el)).

(** The DOM access layer: the parser, the serializer behind
    [prop('outerHTML')], and the selector engine for selectors that the
    code assembles at run time; [select] gives the size of the selection
    or the syntax error the engine throws. *)
Class DomEngine := {
  cheerio_load : string -> Document;
  outerHTML : Selected -> string;
  select : Document -> string -> Completion nat
}.

End Dom.

(** The double quote, as a string. *)
Definition dq : string := String (ascii_of_nat 34) EmptyString.

(** Property names that every object inherits from [Object.prototype]: a
    lookup [table[key]] on an object literal finds them. *)
Definition objectPrototypeKeys : list string :=
  ["constructor"; "__proto__"; "hasOwnProperty"; "isPrototypeOf";
   "propertyIsEnumerable"; "toLocaleString"; "toString"; "valueOf";
   "__defineGetter__"; "__defineSetter__"; "__lookupGetter__";
   "__lookupSetter__"].

(** ** The rule engine ([AccessibilityEvaluator]) *)

Module Evaluator.
Import Types Dom.

(** What [axe.run] reports. *)
Record NodeResult := mkNodeResult {
  html : string;
  target : list string;
  nodeImpact : option Impact
}.

Record Violation := mkViolation {
  violationId : string;
  description : string;
  nodes : list NodeResult
}.

(** The automated rule engine and the DOM it runs on. *)
Class AxeEngine := {
  JSDocument : Type;
  newJSDOM : string -> Completion JSDocument;
  axe_run : JSDocument -> Completion (list Violation)
}.

(** [ExplanationGenerator.enhanceIssue]: the table lookup
    [explanationMap[issue.rule]], with the default entry when the lookup is
    falsy.  An inherited property is truthy and spreads no field. *)
Definition lookupExplanation (rule : string) : option Explanation :=
  if String.eqb rule "WCAG 1.1.1" then Some Expl_WCAG_1_1_1
  else if String.eqb rule "WCAG 1.3.1 - default"
  then Some Expl_WCAG_1_3_1_default
  else if String.eqb rule "WCAG 1.3.1 - skip" then Some Expl_WCAG_1_3_1_skip
  else if String.eqb rule "default" then Some Expl_default
  else if JS.arrayIncludes objectPrototypeKeys rule then None
  else Some Expl_default.

Definition enhanceIssue (issue : AccessibilityIssue) : AccessibilityIssue :=
  match lookupExplanation (rule issue) with
  | Some e =>
      mkIssue (type issue) (rule issue) (message issue) (element issue)
        (selector issue) (standard issue) (level issue) (impact issue)
        (Some e)
  | None => issue
  end.

Definition classList (classes : string) : list string :=
  filter JS.trimTruthy (JS.splitOn " "%char classes).

Definition getSelector (el : Selected) : string :=
  match attr el "id" with
  | Some (String c i) => ("#" ++ String c i)%string
  | _ =>
      match attr el "class" with
      | Some (String c cs) =>
          match classList (String c cs) with
          | [] => tagName (self el)
          | cl => (tagName (self el) ++ "." ++ JS.join "." cl)%string
          end
      | _ => tagName (self el)
      end
  end.

(** A registered rule: its [check] function. *)
Definition Rule : Type := Document -> Completion (list AccessibilityIssue).

Section Rules.
Context {engine : DomEngine}.

Definition excerpt (el : Selected) : option string :=
  Some (JS.substring0 100 (outerHTML el)).

(** [role?.includes("presentation")] is truthy. *)
Definition presentationRole (el : Selected) : bool :=
  match attr el "role" with
  | Some r => JS.includes r "presentation"
  | None => false
  end.

Definition imagesAltTextEach (issues : list AccessibilityIssue)
    (el : Selected) : list AccessibilityIssue :=
  match attr el "alt" with
  | None =>
      if negb (presentationRole el) then
        issues ++
        [mkIssue error "WCAG 1.1.1" "Images must have alternative text"
           (excerpt el) (Some (getSelector el)) WCAG (Some "A")
           (Some critical) None]
      else issues
  | Some _ => issues
  end.

Definition imagesAltText : Rule :=
  fun doc => Normal (fold_left imagesAltTextEach (query doc (isTag "img")) []).

(** [parseInt(tagName.charAt(1))]; [None] is NaN. *)
Definition headingLevel (tag : string) : option nat :=
  match tag with
  | String _ (String d _) =>
      let n := nat_of_ascii d in
      if (48 <=? n)%nat && (n <=? 57)%nat then Some (n - 48)%nat else None
  | _ => None
  end.

Definition showLevel (l : option nat) : string :=
  match l with
  | Some n => String (ascii_of_nat (48 + n)) EmptyString
  | None => "NaN"
  end.

(** [lastLevel !== 0 && level > lastLevel + 1] *)
Definition skipsLevel (lastLevel level : option nat) : bool :=
  match lastLevel, level with
  | Some 0%nat, _ => false
  | Some l, Some n => (l + 1 <? n)%nat
  | _, _ => false
  end.

Definition headingsEach
    (st : list AccessibilityIssue * option nat) (el : Selected)
  : list AccessibilityIssue * option nat :=
  let (issues, lastLevel) := st in
  let level := headingLevel (tagName (self el)) in
  let issues :=
    if skipsLevel lastLevel level then
      issues ++
      [mkIssue warning "WCAG 1.3.1"
         ("Heading levels should not skip (found h" ++ showLevel level
          ++ " after h" ++ showLevel lastLevel ++ ")")%string
         (Some (JS.substring0 50 (text el))) (Some (getSelector el)) WCAG
         (Some "A") (Some moderate) None]
    else issues in
  (issues, level).

Definition headingsStructure : Rule :=
  fun doc =>
    Normal
      (fst (fold_left headingsEach
              (query doc
                 (anyOf [isTag "h1"; isTag "h2"; isTag "h3"; isTag "h4";
                         isTag "h5"; isTag "h6"]))
              ([], Some 0%nat))).

Definition attrTruthy (el : Selected) (name : string) : bool :=
  match attr el name with
  | Some v => JS.truthy v
  | None => false
  end.

Definition attrIs (el : Selected) (name value : string) : bool :=
  match attr el name with
  | Some v => String.eqb v value
  | None => false
  end.

Definition formLabelsEach (doc : Document)
    (acc : Completion (list AccessibilityIssue)) (el : Selected)
  : Completion (list AccessibilityIssue) :=
  issues <- acc ;;
  if attrIs el "type" "submit" || attrIs el "type" "button"
     || attrIs el "type" "hidden"
  then Normal issues
  else
    hasLabel <-
      (if attrTruthy el "id" then
         match attr el "id" with
         | Some i =>
             n <- select doc ("label[for=" ++ dq ++ i ++ dq ++ "]")%string ;;
             Normal (0 <? n)%nat
         | None => Normal false
         end
       else Normal false) ;;
    if negb hasLabel && negb (attrTruthy el "aria-label")
       && negb (attrTruthy el "aria-labelledby")
    then
      Normal
        (issues ++
         [mkIssue error "WCAG 1.3.1"
            "Form controls must have associated labels" (excerpt el)
            (Some (getSelector el)) WCAG (Some "A") (Some critical) None])
    else Normal issues.

Definition formLabels : Rule :=
  fun doc =>
    fold_left (formLabelsEach doc)
      (query doc (anyOf [isTag "input"; isTag "select"; isTag "textarea"]))
      (Normal []).

(** The table [requiredAttributes] of the rule [aria-required-attr]. *)
Definition requiredAttributes : list (string * list string) :=
  [("checkbox", ["aria-checked"]);
   ("combobox", ["aria-expanded"]);
   ("scrollbar", ["aria-valuenow"; "aria-valuemin"; "aria-valuemax"]);
   ("slider", ["aria-valuenow"; "aria-valuemin"; "aria-valuemax"])].

Definition requiredAttrEach (acc : Completion (list AccessibilityIssue))
    (el : Selected) : Completion (list AccessibilityIssue) :=
  issues <- acc ;;
  match attr el "role" with
  | Some (String c r) =>
      let role := String c r in
      match JSMap.get requiredAttributes role with
      | Some attrs =>
          Normal
            (fold_left
               (fun issues a =>
                  match attr el a with
                  | None =>
                      issues ++
                      [mkIssue error "ARIA Required Attributes"
                         ("Elements with role=" ++ dq ++ role ++ dq
                          ++ " must have " ++ a ++ " attribute")%string
                         (excerpt el) (Some (getSelector el)) ARIA None
                         (Some serious) None]
                  | Some _ => issues
                  end)
               attrs issues)
      | None =>
          if JS.arrayIncludes objectPrototypeKeys role
          then Throw "TypeError: requiredAttributes[role].forEach is not a function"
          else Normal issues
      end
  | _ => Normal issues
  end.

Definition ariaRequiredAttr : Rule :=
  fun doc => fold_left requiredAttrEach (query doc (hasAttr "role")) (Normal []).

(** The table [validValues] of the rule [aria-valid-values]. *)
Definition validValues : list (string * list string) :=
  [("aria-checked", ["true"; "false"; "mixed"]);
   ("aria-disabled", ["true"; "false"]);
   ("aria-expanded", ["true"; "false"]);
   ("aria-hidden", ["true"; "false"]);
   ("aria-invalid", ["true"; "false"; "grammar"; "spelling"])].

Definition validValuesEach (attrName : string) (allowed : list string)
    (issues : list AccessibilityIssue) (el : Selected)
  : list AccessibilityIssue :=
  match attr el attrName with
  | Some (String c v) =>
      let value := String c v in
      if negb (JS.arrayIncludes allowed value) then
        issues ++
        [mkIssue error "ARIA Valid Values"
           ("Invalid value for " ++ attrName ++ ": " ++ dq ++ value ++ dq
            ++ ". Valid values are: " ++ JS.join ", " allowed)%string
           (excerpt el) (Some (getSelector el)) ARIA None (Some serious)
           None]
      else issues
  | _ => issues
  end.

Definition ariaValidValues : Rule :=
  fun doc =>
    Normal
      (fold_left
         (fun issues (entry : string * list string) =>
            let (attrName, allowed) := entry in
            fold_left (validValuesEach attrName allowed)
              (query doc (hasAttr attrName)) issues)
         validValues []).

(** The two registries, in the order [initializeRules] fills them. *)
Definition wcagRules : JSMap.t Rule :=
  [("images-alt-text", imagesAltText);
   ("headings-structure", headingsStructure);
   ("form-labels", formLabels)].

Definition ariaRules : JSMap.t Rule :=
  [("aria-required-attr", ariaRequiredAttr);
   ("aria-valid-values", ariaValidValues)].

(** The arrays [issues] and [passedChecks] of [evaluateHTML]. *)
Record Collected := mkCollected {
  collectedIssues : list AccessibilityIssue;
  collectedPassed : list string
}.

(** One turn of a loop over a registry. *)
Definition runRule (doc : Document) (prefix : string)
    (acc : Completion Collected) (entry : string * Rule)
  : Completion Collected :=
  st <- acc ;;
  let (ruleName, rule) := entry in
  ruleIssues <- rule doc ;;
  if (List.length ruleIssues =? 0)%nat then
    Normal
      (mkCollected (collectedIssues st)
         (collectedPassed st ++ [(prefix ++ ruleName)%string]))
  else
    Normal (mkCollected (collectedIssues st ++ ruleIssues) (collectedPassed st)).

Definition runRules (doc : Document) (prefix : string)
    (registry : JSMap.t Rule) (st : Completion Collected)
  : Completion Collected :=
  fold_left (runRule doc prefix) registry st.

End Rules.

Section Axe.
Context {axe : AxeEngine}.

(** The translation of one violation; [nodes[0]] of an empty array is
    [undefined] and reading a property of it throws. *)
Definition translateViolation (v : Violation)
  : Completion AccessibilityIssue :=
  match nodes v with
  | [] => Throw "TypeError: Cannot read properties of undefined"
  | n :: _ =>
      Normal
        (mkIssue error (violationId v) (description v) (Some (html n))
           (Some (JS.join " " (target n))) AXE None (nodeImpact n) None)
  end.

Fixpoint translateViolations (vs : list Violation)
  : Completion (list AccessibilityIssue) :=
  match vs with
  | [] => Normal []
  | v :: rest =>
      i <- translateViolation v ;;
      others <- translateViolations rest ;;
      Normal (i :: others)
  end.

(** [runAxeCore]: the issues, or the error of [new JSDOM], and the lines
    written with [console.error]. *)
Definition runAxeCore (htmlText : string)
  : Completion (list AccessibilityIssue) * list string :=
  match newJSDOM htmlText with
  | Throw e => (Throw e, [])
  | Normal document =>
      match (results <- axe_run document ;; translateViolations results) with
      | Normal found => (Normal found, [])
      | Throw e => (Normal [], [("Error running axe-core: " ++ e)%string])
      end
  end.

End Axe.

Definition countType (t : IssueType) (l : list AccessibilityIssue) : nat :=
  List.length
    (filter
       (fun i =>
          match type i, t with
          | error, error | warning, warning | info, info => true
          | _, _ => false
          end)
       l).

Definition standardEqb (a b : Standard) : bool :=
  match a, b with
  | WCAG, WCAG | ARIA, ARIA | MDN, MDN | AXE, AXE => true
  | _, _ => false
  end.

Definition impactEqb (a b : Impact) : bool :=
  match a, b with
  | minor, minor | moderate, moderate | serious, serious
  | critical, critical => true
  | _, _ => false
  end.

(** [counts[key] = (counts[key] || 0) + 1] *)
Fixpoint increment {K : Type} (eqb : K -> K -> bool)
    (counts : list (K * nat)) (key : K) : list (K * nat) :=
  match counts with
  | [] => [(key, 1%nat)]
  | (k, n) :: rest =>
      if eqb k key then (k, S n) :: rest
      else (k, n) :: increment eqb rest key
  end.

Definition summarize (enhancedIssues : list AccessibilityIssue) : Summary :=
  let counts :=
    fold_left
      (fun (acc : list (Standard * nat) * list (Impact * nat)) issue =>
         let (byStandard, byImpact) := acc in
         (increment standardEqb byStandard (standard issue),
          match impact issue with
          | Some i => increment impactEqb byImpact i
          | None => byImpact
          end))
      enhancedIssues ([], []) in
  mkSummary (List.length enhancedIssues) (countType error enhancedIssues)
    (countType warning enhancedIssues) (countType info enhancedIssues)
    (fst counts) (snd counts).

Section Evaluate.
Context {engine : DomEngine} {axe : AxeEngine}.

(** [evaluateHTML]: what the promise settles with, and the lines written
    with [console.error]. *)
Definition evaluateHTML (htmlText : string)
  : Completion EvaluationResult * list string :=
  let doc := cheerio_load htmlText in
  match
    runRules doc "ARIA: " ariaRules
      (runRules doc "WCAG: " wcagRules (Normal (mkCollected [] [])))
  with
  | Throw e => (Throw e, [])
  | Normal st =>
      let (axeResults, axeLog) := runAxeCore htmlText in
      let (issues, log) :=
        match axeResults with
        | Normal found => (collectedIssues st ++ found, axeLog)
        | Throw e =>
            (collectedIssues st,
             axeLog ++ [("Failed to run axe-core: " ++ e)%string])
        end in
      let enhancedIssues := map enhanceIssue issues in
      (Normal
         (mkEvaluationResult enhancedIssues (summarize enhancedIssues)
            (collectedPassed st)),
       log)
  end.

End Evaluate.

End Evaluator.

(** ** The ARIA validator ([ARIAValidator]) *)

Module Aria.
Import Dom.

Inductive IssueType := error | warning.

Inductive Category := abstract | widget | document | landmark | window.

Record ARIARole := mkRole {
  name : string;
  category : Category;
  requiredProperties : list string;
  supportedProperties : list string;
  requiredParent : option (list string);
  requiredChildren : option (list string);
  implicitSemantics : option string
}.

(** The branch of [ARIAExplanationGenerator.enhanceIssue] that wrote the
    explanation fields of an issue, with the role and property names the
    second branch reads out of the message. *)
Inductive Explanation :=
| ExplInvalidRole
| ExplMissingProperty (role property : string)
| ExplLabelledbyReference
| ExplRedundantRole.

Record ARIAValidationIssue := mkIssue {
  type : IssueType;
  element : string;
  selector : string;
  message : string;
  recommendation : string;
  specification : string;
  explanation : option Explanation;
  relatedGuidelines : option (list string);
  documentationLinks : option (list string)
}.

Record Statistics := mkStatistics {
  totalARIAElements : nat;
  rolesUsed : JSSet.t;
  propertiesUsed : JSSet.t;
  statesUsed : JSSet.t
}.

Record ARIAValidationResult := mkResult {
  issues : list ARIAValidationIssue;
  validUsages : list string;
  statistics : Statistics
}.

(** The longest prefix without a double quote, and what follows it. *)
Fixpoint spanNonQuote (s : string) : string * string :=
  match s with
  | EmptyString => (EmptyString, EmptyString)
  | String c s' =>
      if Ascii.eqb c (ascii_of_nat 34) then (EmptyString, s)
      else let (run, rest) := spanNonQuote s' in (String c run, rest)
  end.

Definition matchHere (pre post s : string) : option string :=
  if String.prefix pre s then
    let (run, rest) := spanNonQuote (JS.drop (String.length pre) s) in
    if JS.truthy run && String.prefix post rest then Some run else None
  else None.

(** The capture of the leftmost match of the pattern [pre], then one or
    more characters other than a double quote (the capture), then [post],
    for a [post] that begins with a double quote. *)
Fixpoint matchBetween (pre post s : string) : option string :=
  match matchHere pre post s with
  | Some run => Some run
  | None =>
      match s with
      | EmptyString => None
      | String _ s' => matchBetween pre post s'
      end
  end.

Definition orUnknown (m : option string) : string :=
  match m with
  | Some s => s
  | None => "unknown"
  end.

Definition explain (msg : string) : option Explanation :=
  if JS.includes msg "Invalid ARIA role" then Some ExplInvalidRole
  else if JS.includes msg "Missing required property" then
    Some
      (ExplMissingProperty
         (orUnknown (matchBetween ("role=" ++ dq)%string dq msg))
         (orUnknown (matchBetween dq (dq ++ " for role")%string msg)))
  else if JS.includes msg "aria-labelledby references non-existent ID"
  then Some ExplLabelledbyReference
  else if JS.includes msg "Redundant ARIA role" then Some ExplRedundantRole
  else None.

(** [ARIAExplanationGenerator.enhanceIssue] *)
Definition enhanceIssue (issue : ARIAValidationIssue) : ARIAValidationIssue :=
  mkIssue (type issue) (element issue) (selector issue) (message issue)
    (recommendation issue) (specification issue)
    (match explain (message issue) with
     | Some e => Some e
     | None => explanation issue
     end)
    (Some ["WAI-ARIA 1.2 Specification";
           "WCAG 2.1 Success Criterion 4.1.2 Name, Role, Value"])
    (Some ["https://www.w3.org/TR/wai-aria-1.2/";
           "https://developer.mozilla.org/en-US/docs/Web/Accessibility/ARIA";
           "https://www.w3.org/WAI/ARIA/apg/"]).

(** The validator object: its three catalogs. *)
Record ARIAValidator := mkValidator {
  roles : JSMap.t ARIARole;
  properties : JSSet.t;
  states : JSSet.t
}.

Definition roleCatalog : list ARIARole :=
  [ mkRole "button" widget []
      ["aria-expanded"; "aria-pressed"; "aria-disabled"] None None
      (Some "button");
    mkRole "checkbox" widget ["aria-checked"]
      ["aria-required"; "aria-readonly"; "aria-disabled"] None None None;
    mkRole "navigation" landmark [] ["aria-label"; "aria-labelledby"]
      None None None;
    mkRole "main" landmark [] ["aria-label"; "aria-labelledby"]
      None None None;
    mkRole "complementary" landmark [] ["aria-label"; "aria-labelledby"]
      None None None;
    mkRole "menu" widget [] ["aria-orientation"; "aria-activedescendant"]
      None (Some ["menuitem"; "menuitemcheckbox"; "menuitemradio"]) None;
    mkRole "menuitem" widget []
      ["aria-disabled"; "aria-expanded"; "aria-haspopup"]
      (Some ["menu"; "menubar"]) None None;
    mkRole "alert" widget [] ["aria-live"; "aria-atomic"] None None None;
    mkRole "dialog" window []
      ["aria-modal"; "aria-label"; "aria-labelledby"; "aria-describedby"]
      None None None;
    mkRole "tablist" widget [] ["aria-orientation"] None (Some ["tab"]) None;
    mkRole "tab" widget [] ["aria-selected"; "aria-controls"]
      (Some ["tablist"]) None None;
    mkRole "tabpanel" widget [] ["aria-labelledby"] None None None ].

Definition propertyCatalog : list string :=
  ["aria-label"; "aria-labelledby"; "aria-describedby"; "aria-controls";
   "aria-haspopup"; "aria-expanded"; "aria-hidden"; "aria-invalid";
   "aria-required"; "aria-readonly"; "aria-disabled"; "aria-checked";
   "aria-selected"; "aria-pressed"; "aria-level"; "aria-valuemin";
   "aria-valuemax"; "aria-valuenow"; "aria-valuetext"; "aria-orientation";
   "aria-live"; "aria-atomic"; "aria-relevant"; "aria-busy"; "aria-modal";
   "aria-activedescendant"; "aria-owns"; "aria-flowto"; "aria-posinset";
   "aria-setsize"; "aria-rowcount"; "aria-colcount"].

Definition stateCatalog : list string :=
  ["aria-busy"; "aria-checked"; "aria-disabled"; "aria-expanded";
   "aria-grabbed"; "aria-hidden"; "aria-invalid"; "aria-pressed";
   "aria-selected"].

Definition initializeARIASpec (self : ARIAValidator) : ARIAValidator :=
  mkValidator
    (fold_left (fun m r => JSMap.set m (name r) r) roleCatalog (roles self))
    (fold_left JSSet.add propertyCatalog JSSet.empty)
    (fold_left JSSet.add stateCatalog JSSet.empty).

(** [new ARIAValidator()] *)
Definition newValidator : ARIAValidator :=
  initializeARIASpec (mkValidator JSMap.empty JSSet.empty JSSet.empty).

Definition classList (classes : string) : list string :=
  filter JS.trimTruthy (JS.splitOn " "%char classes).

Definition getSelector (el : Selected) : string :=
  match attr el "id" with
  | Some (String c i) => ("#" ++ String c i)%string
  | _ =>
      match attr el "role" with
      | Some (String c r) => ("[role=" ++ dq ++ String c r ++ dq ++ "]")%string
      | _ =>
          match attr el "class" with
          | Some (String c cs) =>
              match classList (String c cs) with
              | [] => tagName (self el)
              | cl => (tagName (self el) ++ "." ++ JS.join "." cl)%string
              end
          | _ => tagName (self el)
          end
      end
  end.

(** The local variables [issues], [validUsages] and [statistics] of
    [validate]. *)
Record ValidationState := mkState {
  stIssues : list ARIAValidationIssue;
  stValidUsages : list string;
  stStatistics : Statistics
}.

Definition pushIssue (st : ValidationState) (i : ARIAValidationIssue)
  : ValidationState :=
  mkState (stIssues st ++ [i]) (stValidUsages st) (stStatistics st).

Definition pushValidUsage (st : ValidationState) (u : string)
  : ValidationState :=
  mkState (stIssues st) (stValidUsages st ++ [u]) (stStatistics st).

Definition addRoleUsed (st : ValidationState) (role : string)
  : ValidationState :=
  let s := stStatistics st in
  mkState (stIssues st) (stValidUsages st)
    (mkStatistics (totalARIAElements s) (JSSet.add (rolesUsed s) role)
       (propertiesUsed s) (statesUsed s)).

Definition countARIAElement (st : ValidationState) : ValidationState :=
  let s := stStatistics st in
  mkState (stIssues st) (stValidUsages st)
    (mkStatistics (S (totalARIAElements s)) (rolesUsed s)
       (propertiesUsed s) (statesUsed s)).

Definition addPropertyUsed (st : ValidationState) (prop : string)
  : ValidationState :=
  let s := stStatistics st in
  mkState (stIssues st) (stValidUsages st)
    (mkStatistics (totalARIAElements s) (rolesUsed s)
       (JSSet.add (propertiesUsed s) prop) (statesUsed s)).

Definition spec12 : string := "WAI-ARIA 1.2".

Section Validate.
Context {engine : DomEngine}.

(** [$el.prop('outerHTML')?.substring(0, 100) || ''] *)
Definition excerpt (el : Selected) : string :=
  JS.substring0 100 (outerHTML el).

Definition checkRequiredProperty (el : Selected) (role : string)
    (st : ValidationState) (prop : string) : ValidationState :=
  match attr el prop with
  | None =>
      pushIssue st
        (mkIssue error (excerpt el) (getSelector el)
           ("Missing required property " ++ dq ++ prop ++ dq
            ++ " for role=" ++ dq ++ role ++ dq)%string
           ("Add " ++ prop ++ " attribute to elements with role=" ++ dq
            ++ role ++ dq)%string
           spec12 None None None)
  | Some _ => st
  end.

Definition checkRequiredParent (el : Selected) (role : string)
    (roleSpec : ARIARole) (st : ValidationState) : ValidationState :=
  match requiredParent roleSpec with
  | Some parents =>
      let hasValidParent :=
        existsb (fun parentRole => hasClosest el (attrEq "role" parentRole))
          parents in
      if negb hasValidParent then
        pushIssue st
          (mkIssue error (excerpt el) (getSelector el)
             ("Role " ++ dq ++ role ++ dq
              ++ " must be contained within one of: "
              ++ JS.join ", " parents)%string
             ("Place this element inside an element with role=" ++ dq
              ++ nth 0 parents "undefined" ++ dq)%string
             spec12 None None None)
      else st
  | None => st
  end.

(** The body of the loop over [$('[role]')]. *)
Definition validateRole (self : ARIAValidator) (st : ValidationState)
    (el : Selected) : ValidationState :=
  let role :=
    match attr el "role" with
    | Some r => r
    | None => "undefined"
    end in
  let st := addRoleUsed st role in
  let st := countARIAElement st in
  match JSMap.get (roles self) role with
  | None =>
      pushIssue st
        (mkIssue error (excerpt el) (getSelector el)
           ("Invalid ARIA role: " ++ dq ++ role ++ dq)%string
           "Use a valid ARIA role from the WAI-ARIA specification"
           spec12 None None None)
  | Some roleSpec =>
      let st :=
        fold_left (checkRequiredProperty el role)
          (requiredProperties roleSpec) st in
      let st := checkRequiredParent el role roleSpec st in
      pushValidUsage st
        ("Correct use of role=" ++ dq ++ role ++ dq ++ " on "
         ++ getSelector el)%string
  end.

Definition validateRoles (self : ARIAValidator) (doc : Document)
    (st : ValidationState) : ValidationState :=
  fold_left (validateRole self) (query doc (hasAttr "role")) st.

(** One id of an [aria-labelledby] list. *)
Definition checkReference (doc : Document) (el : Selected)
    (acc : Completion ValidationState) (id : string)
  : Completion ValidationState :=
  st <- acc ;;
  n <- select doc ("#" ++ id)%string ;;
  if (n =? 0)%nat then
    Normal
      (pushIssue st
         (mkIssue error (excerpt el) (getSelector el)
            ("aria-labelledby references non-existent ID: " ++ dq ++ id
             ++ dq)%string
            ("Ensure element with id=" ++ dq ++ id ++ dq
             ++ " exists in the document")%string
            spec12 None None None))
  else Normal st.

(** The body of the loop over [$('[prop]')]. *)
Definition validateProperty (doc : Document) (prop : string)
    (acc : Completion ValidationState) (el : Selected)
  : Completion ValidationState :=
  st <- acc ;;
  let st := addPropertyUsed st prop in
  let value := attr el prop in
  let st :=
    match value with
    | Some EmptyString =>
        pushIssue st
          (mkIssue warning (excerpt el) (getSelector el)
             ("Empty value for " ++ prop)%string
             ("Provide a meaningful value for " ++ prop
              ++ " or remove the attribute")%string
             spec12 None None None)
    | _ => st
    end in
  match value with
  | Some (String c v) =>
      if String.eqb prop "aria-labelledby" then
        fold_left (checkReference doc el) (JS.splitOn " "%char (String c v))
          (Normal st)
      else Normal st
  | _ => Normal st
  end.

Definition validateProperties (self : ARIAValidator) (doc : Document)
    (st : ValidationState) : Completion ValidationState :=
  fold_left
    (fun acc prop =>
       fold_left (validateProperty doc prop) (query doc (hasAttr prop)) acc)
    (properties self) (Normal st).

Definition redundantSelector : Selector :=
  anyOf [andSel (isTag "button") (attrEq "role" "button");
         andSel (isTag "nav") (attrEq "role" "navigation");
         andSel (isTag "main") (attrEq "role" "main");
         andSel (isTag "aside") (attrEq "role" "complementary")].

Definition checkRedundant (doc : Document) (st : ValidationState)
  : ValidationState :=
  fold_left
    (fun st el =>
       pushIssue st
         (mkIssue warning (excerpt el) (getSelector el)
            ("Redundant ARIA role on " ++ tagName (self el) ++ " element")%string
            "Remove redundant role attribute as the element has implicit semantics"
            spec12 None None None))
    (query doc redundantSelector) st.

Definition focusableSelectors : Selector :=
  anyOf [andSel (isTag "a") (hasAttr "href");
         isTag "button"; isTag "input"; isTag "select"; isTag "textarea";
         andSel (hasAttr "tabindex") (notSel (attrEq "tabindex" "-1"))].

Definition checkHidden (doc : Document) (st : ValidationState)
  : ValidationState :=
  fold_left
    (fun st el =>
       if matches el focusableSelectors
          || (0 <? List.length (find el focusableSelectors))%nat
       then
         pushIssue st
           (mkIssue error (excerpt el) (getSelector el)
              ("aria-hidden=" ++ dq ++ "true" ++ dq
               ++ " on focusable element or container with focusable children")%string
              "Remove aria-hidden or make element and children non-focusable"
              spec12 None None None)
       else st)
    (query doc (attrEq "aria-hidden" "true")) st.

Definition landmarks : list string :=
  ["main"; "navigation"; "complementary"; "banner"; "contentinfo"].

Definition attrTruthy (el : Selected) (name : string) : bool :=
  match attr el name with
  | Some v => JS.truthy v
  | None => false
  end.

Definition landmarkSelector (landmark : string) : string :=
  ("[role=" ++ dq ++ landmark ++ dq ++ "]")%string.

(** The body of the loop over [landmarks]. *)
Definition checkLandmark (doc : Document) (st : ValidationState)
    (landmark : string) : ValidationState :=
  let count := List.length (query doc (attrEq "role" landmark)) in
  if (1 <? count)%nat && String.eqb landmark "main" then
    pushIssue st
      (mkIssue error "Multiple elements" (landmarkSelector landmark)
         "Multiple main landmarks found"
         "Use only one main landmark per page" spec12 None None None)
  else if (1 <? count)%nat then
    let unlabeled :=
      List.length
        (filter
           (fun el =>
              negb (attrTruthy el "aria-label")
              && negb (attrTruthy el "aria-labelledby"))
           (query doc (attrEq "role" landmark))) in
    if (0 <? unlabeled)%nat then
      pushIssue st
        (mkIssue warning "Multiple elements" (landmarkSelector landmark)
           ("Multiple " ++ landmark ++ " landmarks without unique labels")%string
           ("Add aria-label or aria-labelledby to distinguish between "
            ++ landmark ++ " landmarks")%string
           spec12 None None None)
    else st
  else st.

Definition checkLandmarks (doc : Document) (st : ValidationState)
  : ValidationState :=
  fold_left (checkLandmark doc) landmarks st.

Definition initialState : ValidationState :=
  mkState [] []
    (mkStatistics 0 JSSet.empty JSSet.empty JSSet.empty).

(** [validate] once the document is parsed. *)
Definition validateDocument (self : ARIAValidator) (doc : Document)
  : Completion ARIAValidationResult :=
  let st := validateRoles self doc initialState in
  st <- validateProperties self doc st ;;
  let st := checkRedundant doc st in
  let st := checkHidden doc st in
  let st := checkLandmarks doc st in
  let enhancedIssues := map enhanceIssue (stIssues st) in
  Normal (mkResult enhancedIssues (stValidUsages st) (stStatistics st)).

(** [validate], as a method: the completion of the call and the validator
    object after it. *)
Definition validate (self : ARIAValidator) (htmlText : string)
  : Completion ARIAValidationResult * ARIAValidator :=
  (validateDocument self (cheerio_load htmlText), self).

End Validate.

End Aria.

(** ** The ARIA validator over a store of objects

    [Aria.validate] reads the method as a function of the catalogues.  The
    model below keeps the objects of the program in a store instead: the
    validator instance and the [Map] and [Set]s its fields refer to, and the
    arrays, sets and objects that a call of [validate] creates and fills.
    A call is a computation on the store, so what it leaves behind for the
    next call is computed by its statements. *)

Module AriaStore.
Import Dom Aria.

(** A reference to an object: its position in the store. *)
Definition Loc : Type := nat.

Inductive Object :=
| RoleMap (entries : JSMap.t ARIARole)
| StringSet (members : JSSet.t)
| IssueArray (items : list ARIAValidationIssue)
| StringArray (lines : list string)
| StatisticsObject (total : nat) (rolesRef propertiesRef statesRef : Loc)
| ValidatorObject (rolesField propertiesField statesField : Loc)
| ResultObject (issuesRef validUsagesRef statisticsRef : Loc).

Definition Heap : Type := list Object.

(** A computation: it completes or throws, and leaves a store. *)
Definition M (A : Type) : Type := Heap -> Completion A * Heap.

Definition ret {A : Type} (a : A) : M A := fun h => (Normal a, h).

Definition throw {A : Type} (e : string) : M A := fun h => (Throw e, h).

Definition bind {A B : Type} (m : M A) (k : A -> M B) : M B :=
  fun h =>
    let (c, h') := m h in
    match c with
    | Normal a => k a h'
    | Throw e => (Throw e, h')
    end.

Notation "x <~ m ;; k" := (bind m (fun x => k))
  (at level 61, m at next level, right associativity).

Notation "m ;;; k" := (bind m (fun _ => k))
  (at level 61, right associativity).

(** A completion that does not touch the store. *)
Definition liftC {A : Type} (c : Completion A) : M A := fun h => (c, h).

Fixpoint update (l : Loc) (o : Object) (h : Heap) : Heap :=
  match h, l with
  | [], _ => []
  | _ :: rest, O => o :: rest
  | x :: rest, S l' => x :: update l' o rest
  end.

(** [new ...], [[]] and [{...}]: a fresh object. *)
Definition new (o : Object) : M Loc :=
  fun h => (Normal (List.length h), h ++ [o]).

Definition load (l : Loc) : M Object :=
  fun h =>
    match nth_error h l with
    | Some o => (Normal o, h)
    | None => (Throw "ReferenceError", h)
    end.

Definition store (l : Loc) (o : Object) : M unit :=
  fun h =>
    match nth_error h l with
    | Some _ => (Normal tt, update l o h)
    | None => (Throw "ReferenceError", h)
    end.

(** What a method does on an object of another kind. *)
Definition typeError : string := "TypeError".

(** [array.push(issue)] *)
Definition push (array : Loc) (i : ARIAValidationIssue) : M unit :=
  o <~ load array ;;
  match o with
  | IssueArray items => store array (IssueArray (items ++ [i]))
  | _ => throw typeError
  end.

(** [array.push(line)] *)
Definition pushLine (array : Loc) (line : string) : M unit :=
  o <~ load array ;;
  match o with
  | StringArray lines => store array (StringArray (lines ++ [line]))
  | _ => throw typeError
  end.

(** [set.add(x)] *)
Definition Set_add (set : Loc) (x : string) : M unit :=
  o <~ load set ;;
  match o with
  | StringSet members => store set (StringSet (JSSet.add members x))
  | _ => throw typeError
  end.

(** The members a [set.forEach] visits when its callback leaves the set
    alone, as the callback in [validate] does. *)
Definition Set_members (set : Loc) : M (list string) :=
  o <~ load set ;;
  match o with
  | StringSet members => ret members
  | _ => throw typeError
  end.

(** [map.has(k)] *)
Definition Map_has (map : Loc) (k : string) : M bool :=
  o <~ load map ;;
  match o with
  | RoleMap entries => ret (JSMap.has entries k)
  | _ => throw typeError
  end.

(** [map.get(k)] *)
Definition Map_get (map : Loc) (k : string) : M (option ARIARole) :=
  o <~ load map ;;
  match o with
  | RoleMap entries => ret (JSMap.get entries k)
  | _ => throw typeError
  end.

(** [this.roles] and [this.properties] *)
Definition this_roles (this : Loc) : M Loc :=
  o <~ load this ;;
  match o with
  | ValidatorObject r _ _ => ret r
  | _ => throw typeError
  end.

Definition this_properties (this : Loc) : M Loc :=
  o <~ load this ;;
  match o with
  | ValidatorObject _ p _ => ret p
  | _ => throw typeError
  end.

(** [statistics.rolesUsed] and [statistics.propertiesUsed] *)
Definition statistics_rolesUsed (statistics : Loc) : M Loc :=
  o <~ load statistics ;;
  match o with
  | StatisticsObject _ r _ _ => ret r
  | _ => throw typeError
  end.

Definition statistics_propertiesUsed (statistics : Loc) : M Loc :=
  o <~ load statistics ;;
  match o with
  | StatisticsObject _ _ p _ => ret p
  | _ => throw typeError
  end.

(** [statistics.totalARIAElements++] *)
Definition increment_totalARIAElements (statistics : Loc) : M unit :=
  o <~ load statistics ;;
  match o with
  | StatisticsObject n r p s =>
      store statistics (StatisticsObject (S n) r p s)
  | _ => throw typeError
  end.

(** [items.forEach(body)] and [$(...).each(body)] *)
Fixpoint forEachM {B : Type} (items : list B) (body : B -> M unit)
  : M unit :=
  match items with
  | [] => ret tt
  | b :: rest => body b ;;; forEachM rest body
  end.

Section Validate.
Context {engine : DomEngine}.

Definition checkRequiredProperty (issues : Loc) (el : Selected)
    (role prop : string) : M unit :=
  match attr el prop with
  | None =>
      push issues
        (mkIssue error (excerpt el) (getSelector el)
           ("Missing required property " ++ dq ++ prop ++ dq
            ++ " for role=" ++ dq ++ role ++ dq)%string
           ("Add " ++ prop ++ " attribute to elements with role=" ++ dq
            ++ role ++ dq)%string
           spec12 None None None)
  | Some _ => ret tt
  end.

Definition checkRequiredParent (issues : Loc) (el : Selected)
    (role : string) (roleSpec : ARIARole) : M unit :=
  match requiredParent roleSpec with
  | Some parents =>
      let hasValidParent :=
        existsb (fun parentRole => hasClosest el (attrEq "role" parentRole))
          parents in
      if negb hasValidParent then
        push issues
          (mkIssue error (excerpt el) (getSelector el)
             ("Role " ++ dq ++ role ++ dq
              ++ " must be contained within one of: "
              ++ JS.join ", " parents)%string
             ("Place this element inside an element with role=" ++ dq
              ++ nth 0 parents "undefined" ++ dq)%string
             spec12 None None None)
      else ret tt
  | None => ret tt
  end.

(** The body of the loop over [$('[role]')]. *)
Definition validateRole (this issues validUsages statistics : Loc)
    (el : Selected) : M unit :=
  let role :=
    match attr el "role" with
    | Some r => r
    | None => "undefined"
    end in
  rolesUsed <~ statistics_rolesUsed statistics ;;
  Set_add rolesUsed role ;;;
  increment_totalARIAElements statistics ;;;
  roles <~ this_roles this ;;
  known <~ Map_has roles role ;;
  if negb known then
    push issues
      (mkIssue error (excerpt el) (getSelector el)
         ("Invalid ARIA role: " ++ dq ++ role ++ dq)%string
         "Use a valid ARIA role from the WAI-ARIA specification"
         spec12 None None None)
  else
    roles <~ this_roles this ;;
    found <~ Map_get roles role ;;
    match found with
    | None => throw typeError
    | Some roleSpec =>
        forEachM (requiredProperties roleSpec)
          (checkRequiredProperty issues el role) ;;;
        checkRequiredParent issues el role roleSpec ;;;
        pushLine validUsages
          ("Correct use of role=" ++ dq ++ role ++ dq ++ " on "
           ++ getSelector el)%string
    end.

(** One id of an [aria-labelledby] list. *)
Definition checkReference (doc : Document) (issues : Loc) (el : Selected)
    (id : string) : M unit :=
  n <~ liftC (select doc ("#" ++ id)%string) ;;
  if (n =? 0)%nat then
    push issues
      (mkIssue error (excerpt el) (getSelector el)
         ("aria-labelledby references non-existent ID: " ++ dq ++ id
          ++ dq)%string
         ("Ensure element with id=" ++ dq ++ id ++ dq
          ++ " exists in the document")%string
         spec12 None None None)
  else ret tt.

(** The body of the loop over [$('[prop]')]. *)
Definition validateProperty (doc : Document) (issues statistics : Loc)
    (prop : string) (el : Selected) : M unit :=
  propertiesUsed <~ statistics_propertiesUsed statistics ;;
  Set_add propertiesUsed prop ;;;
  let value := attr el prop in
  match value with
  | Some EmptyString =>
      push issues
        (mkIssue warning (excerpt el) (getSelector el)
           ("Empty value for " ++ prop)%string
           ("Provide a meaningful value for " ++ prop
            ++ " or remove the attribute")%string
           spec12 None None None)
  | _ => ret tt
  end ;;;
  match value with
  | Some (String c v) =>
      if String.eqb prop "aria-labelledby" then
        forEachM (JS.splitOn " "%char (String c v))
          (checkReference doc issues el)
      else ret tt
  | _ => ret tt
  end.

Definition checkRedundant (issues : Loc) (el : Selected) : M unit :=
  push issues
    (mkIssue warning (excerpt el) (getSelector el)
       ("Redundant ARIA role on " ++ tagName (self el) ++ " element")%string
       "Remove redundant role attribute as the element has implicit semantics"
       spec12 None None None).

Definition checkHidden (issues : Loc) (el : Selected) : M unit :=
  if matches el focusableSelectors
     || (0 <? List.length (find el focusableSelectors))%nat
  then
    push issues
      (mkIssue error (excerpt el) (getSelector el)
         ("aria-hidden=" ++ dq ++ "true" ++ dq
          ++ " on focusable element or container with focusable children")%string
         "Remove aria-hidden or make element and children non-focusable"
         spec12 None None None)
  else ret tt.

(** The body of the loop over [landmarks]. *)
Definition checkLandmark (doc : Document) (issues : Loc)
    (landmark : string) : M unit :=
  let count := List.length (query doc (attrEq "role" landmark)) in
  if (1 <? count)%nat && String.eqb landmark "main" then
    push issues
      (mkIssue error "Multiple elements" (landmarkSelector landmark)
         "Multiple main landmarks found"
         "Use only one main landmark per page" spec12 None None None)
  else if (1 <? count)%nat then
    let unlabeled :=
      List.length
        (filter
           (fun el =>
              negb (attrTruthy el "aria-label")
              && negb (attrTruthy el "aria-labelledby"))
           (query doc (attrEq "role" landmark))) in
    if (0 <? unlabeled)%nat then
      push issues
        (mkIssue warning "Multiple elements" (landmarkSelector landmark)
           ("Multiple " ++ landmark ++ " landmarks without unique labels")%string
           ("Add aria-label or aria-labelledby to distinguish between "
            ++ landmark ++ " landmarks")%string
           spec12 None None None)
    else ret tt
  else ret tt.

(** The statements of [validate] that follow its declarations. *)
Definition runChecks (this : Loc) (doc : Document)
    (issues validUsages statistics : Loc) : M Loc :=
  forEachM (query doc (hasAttr "role"))
    (validateRole this issues validUsages statistics) ;;;
  properties <~ this_properties this ;;
  props <~ Set_members properties ;;
  forEachM props
    (fun prop =>
       forEachM (query doc (hasAttr prop))
         (validateProperty doc issues statistics prop)) ;;;
  forEachM (query doc redundantSelector) (checkRedundant issues) ;;;
  forEachM (query doc (attrEq "aria-hidden" "true")) (checkHidden issues) ;;;
  forEachM landmarks (checkLandmark doc issues) ;;;
  o <~ load issues ;;
  match o with
  | IssueArray items =>
      enhancedIssues <~ new (IssueArray (map enhanceIssue items)) ;;
      new (ResultObject enhancedIssues validUsages statistics)
  | _ => throw typeError
  end.

(** [validate], called on the validator at [this]: the reference to the
    result object it returns. *)
Definition validate (this : Loc) (htmlText : string) : M Loc :=
  let doc := cheerio_load htmlText in
  issues <~ new (IssueArray []) ;;
  validUsages <~ new (StringArray []) ;;
  rolesUsed <~ new (StringSet JSSet.empty) ;;
  propertiesUsed <~ new (StringSet JSSet.empty) ;;
  statesUsed <~ new (StringSet JSSet.empty) ;;
  statistics <~
    new (StatisticsObject 0 rolesUsed propertiesUsed statesUsed) ;;
  runChecks this doc issues validUsages statistics.

End Validate.

End AriaStore.

(** ** The compliance tool of the server ([check_wcag_compliance]) *)

Module Server.
Import Types Checker.

(** What the handler reads of the configuration loader:
    [this.config?.wcag.defaultLevel], [None] when no configuration is
    loaded. *)
Record ConfigLoader := mkLoader {
  defaultLevel : option string
}.

(** [a || b] for a string [a] that may be [undefined]. *)
Definition orElse (a : option string) (b : string) : string :=
  match a with
  | Some (String c s) => String c s
  | _ => b
  end.

Definition getWCAGLevel (self : ConfigLoader) (override : option string)
  : string :=
  orElse override (orElse (defaultLevel self) "AA").

(** The report of the handler: the compliance report with the fields
    [targetLevel] and [meetsTarget] added. *)
Record ComplianceAnswer := mkAnswer {
  complianceReport : WCAGComplianceReport;
  targetLevel : string;
  meetsTarget : bool
}.

(** The handler from the evaluation result on, with [argsTargetLevel] for
    [args.targetLevel].  The list of recommendations, which is computed
    from the failed criteria and read by no other field, and the rendering
    of the report as text are left out. *)
Definition check_wcag_compliance (configLoader : ConfigLoader)
    (wcagChecker : WCAGComplianceChecker)
    (evaluationResult : EvaluationResult) (argsTargetLevel : option string)
  : Completion ComplianceAnswer :=
  let targetLevel := getWCAGLevel configLoader argsTargetLevel in
  complianceReport <-
    evaluateCompliance wcagChecker evaluationResult (Some targetLevel) ;;
  Normal
    (mkAnswer complianceReport (orElse argsTargetLevel "AA")
       (JS.stringGe (reportLevel complianceReport)
          (orElse argsTargetLevel "AA"))).

End Server.

(** ** Reference notions used in the statements *)

(** The order [A < AA < AAA] on target levels. *)
Inductive LevelLe : string -> string -> Prop :=
| LevelLe_A_A : LevelLe "A" "A"
| LevelLe_A_AA : LevelLe "A" "AA"
| LevelLe_A_AAA : LevelLe "A" "AAA"
| LevelLe_AA_AA : LevelLe "AA" "AA"
| LevelLe_AA_AAA : LevelLe "AA" "AAA"
| LevelLe_AAA_AAA : LevelLe "AAA" "AAA".

(** The selection [getApplicableCriteria] makes for a target index: the
    entries whose level comes no later in [levelOrder]. *)
Definition withinLevel (targetIndex : Z)
    (entry : string * Types.WCAGCriterion) : bool :=
  (JS.indexOf Checker.levelOrder (Types.criterionLevel (snd entry))
   <=? targetIndex)%Z.

(** The integer nearest to [num / den], a tie going up. *)
Definition roundHalfUp (num den : Z) : Z := ((2 * num + den) / (2 * den))%Z.

(** [round(100 * passed / (passed + failed))], and 0 when nothing was
    tested. *)
Definition expectedScore (passed failed : nat) : float :=
  if (passed + failed =? 0)%nat then PrimFloat.zero
  else
    JSNumber.ofInteger false
      (roundHalfUp (100 * Z.of_nat passed) (Z.of_nat (passed + failed))).

(** An evaluation result with a failure at level AA and one at level A,
    and passed checks that match two criteria; used in examples. *)
Definition sampleResult : Types.EvaluationResult :=
  Types.mkEvaluationResult
    [Types.mkIssue Types.error "WCAG 1.4.3" "Test issue" None None
       Types.WCAG (Some "AA") (Some Types.serious) None;
     Types.mkIssue Types.error "WCAG 1.1.1" "Test issue" None None
       Types.WCAG (Some "A") (Some Types.serious) None]
    (Types.mkSummary 2 2 0 0 [(Types.WCAG, 2%nat)] [(Types.serious, 2%nat)])
    ["WCAG: keyboard"; "WCAG: 2.4.6"; "WCAG: form-labels"].

(** An [img] element the rule [images-alt-text] objects to: no [alt]
    attribute, and no [role] attribute that contains [presentation]. *)
Definition needsAltText (el : Dom.Selected) : bool :=
  Dom.isTag "img" (Dom.self el)
  && match Dom.attr el "alt" with Some _ => false | None => true end
  && negb
       match Dom.attr el "role" with
       | Some r => JS.includes r "presentation"
       | None => false
       end.

(** The issue [images-alt-text] files for an element. *)
Definition altTextIssue {engine : Dom.DomEngine} (el : Dom.Selected)
  : Types.AccessibilityIssue :=
  Types.mkIssue Types.error "WCAG 1.1.1" "Images must have alternative text"
    (Evaluator.excerpt el) (Some (Evaluator.getSelector el)) Types.WCAG
    (Some "A") (Some Types.critical) None.

(** The issues of the rules of a registry, in registration order, added
    to [acc]; the error of the first rule that throws. *)
Definition collect {engine : Dom.DomEngine} (doc : Dom.Document)
    (registry : JSMap.t Evaluator.Rule)
    (acc : Completion (list Types.AccessibilityIssue))
  : Completion (list Types.AccessibilityIssue) :=
  fold_left
    (fun acc (entry : string * Evaluator.Rule) =>
       found <- acc ;;
       ruleIssues <- snd entry doc ;;
       Normal (found ++ ruleIssues))
    registry acc.

(** The issues of all registered rules: the WCAG registry, then the ARIA
    registry. *)
Definition allRuleIssues {engine : Dom.DomEngine} (doc : Dom.Document)
  : Completion (list Types.AccessibilityIssue) :=
  collect doc (Evaluator.wcagRules ++ Evaluator.ariaRules) (Normal []).

(** The automated rule engine fails on a document: the DOM cannot be
    built, the run throws or rejects, or its report cannot be read. *)
Definition axeFails {axe : Evaluator.AxeEngine} (htmlText : string) : Prop :=
  (exists e, Evaluator.newJSDOM htmlText = Throw e) \/
  (exists d e,
      Evaluator.newJSDOM htmlText = Normal d /\
      Evaluator.axe_run d = Throw e) \/
  (exists d vs e,
      Evaluator.newJSDOM htmlText = Normal d /\
      Evaluator.axe_run d = Normal vs /\
      Evaluator.translateViolations vs = Throw e).

Definition notAxe (i : Types.AccessibilityIssue) : Prop :=
  Types.standard i <> Types.AXE.

(** A stand-in for the DOM access layer, used in examples: every text
    parses to [doc], an element is rendered by its tag name, and a
    run-time selector [#id] or [label[for=...]] is resolved by comparing
    the [id] or [for] attribute; the engine rejects the bare [#]. *)
Definition sampleSelect (doc : Dom.Document) (sel : string)
  : Completion nat :=
  if String.eqb sel "#" then Throw "Expected name, found end of input"
  else if String.prefix "#" sel then
    Normal
      (List.length (Dom.query doc (Dom.attrEq "id" (JS.drop 1 sel))))
  else
    Normal
      (List.length
         (Dom.query doc
            (fun t =>
               Dom.isTag "label" t
               && match Dom.attrIn (Dom.attribs t) "for" with
                  | Some v =>
                      String.eqb sel
                        ("label[for=" ++ dq ++ v ++ dq ++ "]")%string
                  | None => false
                  end))).

Definition sampleEngine (doc : Dom.Document) : Dom.DomEngine :=
  {| Dom.cheerio_load := fun _ => doc;
     Dom.outerHTML := fun el => ("<" ++ Dom.tagName (Dom.self el) ++ ">")%string;
     Dom.select := sampleSelect |}.

(** An automated rule engine whose run always throws. *)
Definition failingAxe : Evaluator.AxeEngine :=
  {| Evaluator.JSDocument := unit;
     Evaluator.newJSDOM := fun _ => Normal tt;
     Evaluator.axe_run := fun _ => Throw "axe-core failed" |}.

Definition leaf (tag : string) (attrs : list (string * string)) : Dom.Node :=
  Dom.Element (Dom.mkTag tag attrs) [].

(** [<img src="x.jpg"><img src="y.jpg" alt="">] and a presentational
    image. *)
Definition imagesDocument : Dom.Document :=
  [leaf "img" [("src", "x.jpg")];
   leaf "img" [("src", "y.jpg"); ("alt", "")];
   leaf "img" [("src", "z.jpg"); ("role", "presentation")]].

(** [<main role="main"><div role="main"><div role="tab">]: two main
    landmarks, one of them redundant, and a tab outside a tablist. *)
Definition twoMainsDocument : Dom.Document :=
  [leaf "main" [("role", "main")];
   leaf "div" [("role", "main")];
   leaf "div" [("role", "tab")]].

(** Two navigation landmarks whose [aria-label] is present and empty. *)
Definition emptyLabelsDocument : Dom.Document :=
  [leaf "div" [("role", "navigation"); ("aria-label", "")];
   leaf "div" [("role", "navigation"); ("aria-label", "")]].

(** Elements that carry the state attributes [aria-checked] and
    [aria-hidden]. *)
Definition statesDocument : Dom.Document :=
  [leaf "div" [("role", "checkbox"); ("aria-checked", "true")];
   leaf "div" [("aria-hidden", "true")]].

(** The number of elements that carry [role="r"]. *)
Definition countRole (doc : Dom.Document) (r : string) : nat :=
  List.length (Dom.query doc (Dom.attrEq "role" r)).

Definition isMainLandmarkError (i : Aria.ARIAValidationIssue) : bool :=
  String.eqb (Aria.message i) "Multiple main landmarks found".

(** The warning about unlabelled landmarks of one role. *)
Definition landmarkWarning (landmark : string)
    (i : Aria.ARIAValidationIssue) : Prop :=
  Aria.type i = Aria.warning /\
  Aria.message i
  = ("Multiple " ++ landmark ++ " landmarks without unique labels")%string.

(** The landmark roles other than [main]. *)
Definition labelledLandmarks : list string :=
  ["navigation"; "complementary"; "banner"; "contentinfo"].

(** An element has neither attribute. *)
Definition lacksLabelAttributes (el : Dom.Selected) : Prop :=
  Dom.attr el "aria-label" = None /\ Dom.attr el "aria-labelledby" = None.

(** An element has no label: each of the two attributes is absent or
    empty. *)
Definition lacksLabel (el : Dom.Selected) : Prop :=
  (Dom.attr el "aria-label" = None \/ Dom.attr el "aria-label" = Some "") /\
  (Dom.attr el "aria-labelledby" = None
   \/ Dom.attr el "aria-labelledby" = Some "").

(** The landmark rule as the specification words it: a second main
    landmark gives exactly one error, and several landmarks of another role
    give a warning exactly when one of them has neither [aria-label] nor
    [aria-labelledby]. *)
Definition landmarkRuleAsStated {engine : Dom.DomEngine}
    (self : Aria.ARIAValidator) (doc : Dom.Document) : Prop :=
  forall r,
    Aria.validateDocument self doc = Normal r ->
    ((1 < countRole doc "main")%nat ->
     exists i,
       filter isMainLandmarkError (Aria.issues r) = [i] /\
       Aria.type i = Aria.error) /\
    (forall landmark,
        In landmark labelledLandmarks ->
        (1 < countRole doc landmark)%nat ->
        ((exists i, In i (Aria.issues r) /\ landmarkWarning landmark i) <->
         (exists el,
             In el (Dom.query doc (Dom.attrEq "role" landmark)) /\
             lacksLabelAttributes el))).

(** The issues the landmark loop files. *)
Definition mainLandmarkError : Aria.ARIAValidationIssue :=
  Aria.mkIssue Aria.error "Multiple elements" (Aria.landmarkSelector "main")
    "Multiple main landmarks found" "Use only one main landmark per page"
    Aria.spec12 None None None.

Definition unlabelledLandmarkWarning (landmark : string)
  : Aria.ARIAValidationIssue :=
  Aria.mkIssue Aria.warning "Multiple elements"
    (Aria.landmarkSelector landmark)
    ("Multiple " ++ landmark ++ " landmarks without unique labels")%string
    ("Add aria-label or aria-labelledby to distinguish between "
     ++ landmark ++ " landmarks")%string
    Aria.spec12 None None None.

(** The test the landmark loop makes on an element. *)
Definition unlabeledB (el : Dom.Selected) : bool :=
  negb (Aria.attrTruthy el "aria-label")
  && negb (Aria.attrTruthy el "aria-labelledby").

(** What one turn of the landmark loop adds to [issues]. *)
Definition landmarkIssues (doc : Dom.Document) (landmark : string)
  : list Aria.ARIAValidationIssue :=
  if (1 <? countRole doc landmark)%nat then
    if String.eqb landmark "main" then [mainLandmarkError]
    else if (0 <? List.length
                    (filter unlabeledB
                       (Dom.query doc (Dom.attrEq "role" landmark))))%nat
    then [unlabelledLandmarkWarning landmark]
    else []
  else [].

(** No message of the checks that precede the landmark loop begins with
    the word the landmark messages begin with. *)
Definition notMultiple (i : Aria.ARIAValidationIssue) : Prop :=
  String.prefix "Multiple " (Aria.message i) = false.

(** An invariant of the state of [validate]: a property of every issue
    filed so far, and no state recorded in the statistics. *)
Definition Invariant (P : Aria.ARIAValidationIssue -> Prop)
    (st : Aria.ValidationState) : Prop :=
  Forall P (Aria.stIssues st) /\
  Aria.statesUsed (Aria.stStatistics st) = JSSet.empty.

Definition element (tag : string) (attrs : list (string * string))
    (kids : list Dom.Node) : Dom.Node :=
  Dom.Element (Dom.mkTag tag attrs) kids.

(** [<h1>T</h1><h3>S</h3>] *)
Definition headingsDocument : Dom.Document :=
  [element "h1" [] [Dom.Text "T"]; element "h3" [] [Dom.Text "S"]].

(** [<div role="checkbox">x</div>] *)
Definition checkboxDocument : Dom.Document :=
  [element "div" [("role", "checkbox")] [Dom.Text "x"]].

(** [<div role="tab">x</div>], alone and inside a tablist. *)
Definition tabDocument : Dom.Document :=
  [element "div" [("role", "tab")] [Dom.Text "x"]].

Definition tablistDocument : Dom.Document :=
  [element "div" [("role", "tablist")] tabDocument].

(** The messages of the issues of a validation. *)
Definition messagesOf (c : Completion Aria.ARIAValidationResult)
  : Completion (list string) :=
  r <- c ;; Normal (map Aria.message (Aria.issues r)).

(** An evaluation result with the given failing rules and the passed
    checks [keyboard] and [2.4.6]. *)
Definition resultWith (rules : list string) : Types.EvaluationResult :=
  Types.mkEvaluationResult
    (map
       (fun r =>
          Types.mkIssue Types.error r "Test issue" None None Types.WCAG
            None (Some Types.serious) None)
       rules)
    (Types.mkSummary (List.length rules) (List.length rules) 0 0
       [(Types.WCAG, List.length rules)]
       [(Types.serious, List.length rules)])
    ["WCAG: keyboard"; "WCAG: 2.4.6"].

Definition levelOf (c : Completion Types.WCAGComplianceReport) : string :=
  match c with
  | Normal r => Types.reportLevel r
  | Throw e => e
  end.

(** Some issue of the evaluation is filed under the criterion: its rule
    begins with [WCAG] and is the criterion id once the first [WCAG ] is
    removed. *)
Definition reportedUnder (er : Types.EvaluationResult) (key : string)
  : Prop :=
  exists i,
    In i (Types.issues er) /\
    JS.startsWith (Types.rule i) "WCAG" = true /\
    JS.replace (Types.rule i) "WCAG " "" = key.

(** The issues filed under a key, in the order of the evaluation. *)
Definition issuesFor (key : string) (l : list Types.AccessibilityIssue)
  : list Types.AccessibilityIssue :=
  filter
    (fun i =>
       JS.startsWith (Types.rule i) "WCAG"
       && String.eqb (JS.replace (Types.rule i) "WCAG " "") key)
    l.

(** Some passed check names the criterion: by its id, or in lower case by
    its name with every run of blanks turned into a hyphen. *)
Definition hasPassedCheck (er : Types.EvaluationResult)
    (c : Types.WCAGCriterion) : Prop :=
  exists check,
    In check (Types.passedChecks er) /\
    (JS.includes check (Types.id c) = true \/
     JS.includes (JS.toLowerCase check)
       (JS.replaceSpaceRuns false "-" (JS.toLowerCase (Types.name c)))
     = true).

(** The issues that bear on a compliance run: those filed under one of
    the given criterion ids. *)
Definition relevantIssue (ids : list string) (i : Types.AccessibilityIssue)
  : bool :=
  JS.startsWith (Types.rule i) "WCAG"
  && JS.arrayIncludes ids (JS.replace (Types.rule i) "WCAG " "").

(** The evaluation result with only the issues that satisfy [keep]. *)
Definition withIssues (keep : Types.AccessibilityIssue -> bool)
    (er : Types.EvaluationResult) : Types.EvaluationResult :=
  Types.mkEvaluationResult (filter keep (Types.issues er))
    (Types.summary er) (Types.passedChecks er).

(** A score is a whole percentage. *)
Definition isPercentage (x : float) : Prop :=
  exists n : Z, (0 <= n <= 100)%Z /\ x = JSNumber.ofInteger false n.

(** The three outcomes of the classification of a criterion. *)
Inductive Verdict := Failed | Passed | NotTested.

(** The array of a classification that holds the criteria of a verdict. *)
Definition classOf (v : Verdict) (acc : Checker.Classification)
  : list Types.WCAGCriterion :=
  match v with
  | Failed => Checker.failedAcc acc
  | Passed => Checker.passedAcc acc
  | NotTested => Checker.notApplicableAcc acc
  end.

(** [found || []] *)
Definition orEmpty {A : Type} (found : option (list A)) : list A :=
  match found with
  | Some l => l
  | None => []
  end.

(** The verdict the classification loop reaches for an entry of the
    applicable map. *)
Definition verdictOf (er : Types.EvaluationResult)
    (criteriaIssues : JSMap.t (list Types.AccessibilityIssue))
    (entry : string * Types.WCAGCriterion) : Verdict :=
  if (0 <? List.length (orEmpty (JSMap.get criteriaIssues (fst entry))))%nat
  then Failed
  else if Checker.isCriterionApplicable (snd entry) er then Passed
  else NotTested.

(** The overall score as a function of the two counts. *)
Definition scoreOf (passed failed : nat) : float :=
  if (passed + failed =? 0)%nat then PrimFloat.zero
  else Checker.percentage passed (passed + failed).

(** The pairs of counts whose sum is at most [n]. *)
Definition pairsUpTo (n : nat) : list (nat * nat) :=
  flat_map (fun p => map (pair p) (seq 0 (S n - p))) (seq 0 (S n)).

(** The checks behind the order properties of the score at one pair of
    counts: fewer failures never give a lower score, fewer passes never a
    higher one; the score is 100 only without failures and 0 only without
    passes. *)
Definition scoreCheck (pf : nat * nat) : bool :=
  let (p, f) := pf in
  forallb (fun f0 => PrimFloat.leb (scoreOf p f) (scoreOf p f0))
    (seq 0 (S f))
  && forallb (fun p0 => PrimFloat.leb (scoreOf p0 f) (scoreOf p f))
       (seq 0 (S p))
  && Bool.eqb (PrimFloat.eqb (scoreOf p f) 100%float)
       ((f =? 0)%nat && (0 <? p)%nat)
  && Bool.eqb (PrimFloat.eqb (scoreOf p f) 0%float) (p =? 0)%nat.

(** The passed-check entries of a registry: the rules that return no
    issue, in registration order, under the prefix of the registry. *)
Definition passedLabels {engine : Dom.DomEngine} (doc : Dom.Document)
    (prefix : string) (registry : JSMap.t Evaluator.Rule) : list string :=
  flat_map
    (fun entry : string * Evaluator.Rule =>
       match snd entry doc with
       | Normal [] => [(prefix ++ fst entry)%string]
       | _ => []
       end)
    registry.

(** What the automated rule engine contributes to a run: its issues, or
    nothing when it failed. *)
Definition axeContribution {axe : Evaluator.AxeEngine} (htmlText : string)
  : list Types.AccessibilityIssue :=
  match fst (Evaluator.runAxeCore htmlText) with
  | Normal found => found
  | Throw _ => []
  end.

Definition hasImpact (i : Types.AccessibilityIssue) : bool :=
  match Types.impact i with
  | Some _ => true
  | None => false
  end.

(** The issue [runAxeCore] makes of a violation: an error of standard
    [AXE] that takes its element, selector and impact from the first node
    of the violation. *)
Definition violationIssues (v : Evaluator.Violation)
  : list Types.AccessibilityIssue :=
  match Evaluator.nodes v with
  | n :: _ =>
      [Types.mkIssue Types.error (Evaluator.violationId v)
         (Evaluator.description v) (Some (Evaluator.html n))
         (Some (JS.join " " (Evaluator.target n))) Types.AXE None
         (Evaluator.nodeImpact n) None]
  | [] => []
  end.

(** An automated rule engine that reports one violation. *)
Definition reportingAxe : Evaluator.AxeEngine :=
  {| Evaluator.JSDocument := unit;
     Evaluator.newJSDOM := fun _ => Normal tt;
     Evaluator.axe_run :=
       fun _ =>
         Normal
           [Evaluator.mkViolation "html-has-lang"
              "Ensures every HTML document has a lang attribute"
              [Evaluator.mkNodeResult "<html>" ["html"]
                 (Some Types.serious)]] |}.

(** The headings of a document, in document order. *)
Definition headings (doc : Dom.Document) : list Dom.Selected :=
  Dom.query doc
    (Dom.anyOf
       [Dom.isTag "h1"; Dom.isTag "h2"; Dom.isTag "h3"; Dom.isTag "h4";
        Dom.isTag "h5"; Dom.isTag "h6"]).

(** The level of a heading element, as a number. *)
Definition headingNumber (el : Dom.Selected) : nat :=
  match Evaluator.headingLevel (Dom.tagName (Dom.self el)) with
  | Some n => n
  | None => 0
  end.

(** The pairs of consecutive headings in which the second is more than
    one level below the first. *)
Definition adjacentSkips (hs : list Dom.Selected)
  : list (Dom.Selected * Dom.Selected) :=
  filter
    (fun pc : Dom.Selected * Dom.Selected =>
       (headingNumber (fst pc) + 1 <? headingNumber (snd pc))%nat)
    (combine hs (tl hs)).

(** The warning [headings-structure] files for a skip. *)
Definition skipIssue (pc : Dom.Selected * Dom.Selected)
  : Types.AccessibilityIssue :=
  let (previous, current) := pc in
  Types.mkIssue Types.warning "WCAG 1.3.1"
    ("Heading levels should not skip (found h"
     ++ Evaluator.showLevel
          (Evaluator.headingLevel (Dom.tagName (Dom.self current)))
     ++ " after h"
     ++ Evaluator.showLevel
          (Evaluator.headingLevel (Dom.tagName (Dom.self previous)))
     ++ ")")%string
    (Some (JS.substring0 50 (Dom.text current)))
    (Some (Evaluator.getSelector current)) Types.WCAG (Some "A")
    (Some Types.moderate) None.

(** An element whose tag name carries a heading level of at least one. *)
Definition isHeading (el : Dom.Selected) : Prop :=
  exists n,
    (1 <= n)%nat /\
    Evaluator.headingLevel (Dom.tagName (Dom.self el)) = Some n.

(** The form controls of a document, in document order. *)
Definition controls (doc : Dom.Document) : list Dom.Selected :=
  Dom.query doc
    (Dom.anyOf [Dom.isTag "input"; Dom.isTag "select"; Dom.isTag "textarea"]).

(** Controls that need no label: submit buttons, buttons and hidden
    inputs. *)
Definition exemptControl (el : Dom.Selected) : bool :=
  Evaluator.attrIs el "type" "submit" || Evaluator.attrIs el "type" "button"
  || Evaluator.attrIs el "type" "hidden".

(** The selector the rule [form-labels] hands to the selector engine for
    a control, if it hands one. *)
Definition labelQuery (el : Dom.Selected) : option string :=
  if exemptControl el then None
  else
    match Dom.attr el "id" with
    | Some i =>
        if JS.truthy i
        then Some ("label[for=" ++ dq ++ i ++ dq ++ "]")%string
        else None
    | None => None
    end.

(** The selector engine rejects the label query of a control. *)
Definition labelQueryFails {engine : Dom.DomEngine} (doc : Dom.Document)
    (el : Dom.Selected) (e : string) : Prop :=
  exists q, labelQuery el = Some q /\ Dom.select doc q = Throw e.

(** Some [label] element points at the control. *)
Definition hasLabelFor {engine : Dom.DomEngine} (doc : Dom.Document)
    (el : Dom.Selected) : bool :=
  match labelQuery el with
  | Some q =>
      match Dom.select doc q with
      | Normal n => (0 <? n)%nat
      | Throw _ => false
      end
  | None => false
  end.

(** A control that is not exempt and has neither a [label], nor a
    non-empty [aria-label], nor a non-empty [aria-labelledby]. *)
Definition needsLabel {engine : Dom.DomEngine} (doc : Dom.Document)
    (el : Dom.Selected) : bool :=
  negb (exemptControl el) && negb (hasLabelFor doc el)
  && negb (Evaluator.attrTruthy el "aria-label")
  && negb (Evaluator.attrTruthy el "aria-labelledby").

(** The error [form-labels] files for a control. *)
Definition labelIssue {engine : Dom.DomEngine} (el : Dom.Selected)
  : Types.AccessibilityIssue :=
  Types.mkIssue Types.error "WCAG 1.3.1"
    "Form controls must have associated labels" (Evaluator.excerpt el)
    (Some (Evaluator.getSelector el)) Types.WCAG (Some "A")
    (Some Types.critical) None.

(** A form with an unlabelled input, a labelled one, an input named by
    [aria-label] and a submit button. *)
Definition formDocument : Dom.Document :=
  [leaf "input" [("id", "name")];
   leaf "label" [("for", "email")];
   leaf "input" [("id", "email")];
   leaf "input" [("aria-label", "Phone")];
   leaf "input" [("type", "submit")]].

(** The element's role names a property that every object inherits. *)
Definition inheritedRole (el : Dom.Selected) : bool :=
  match Dom.attr el "role" with
  | Some r => JS.arrayIncludes objectPrototypeKeys r
  | None => false
  end.

Definition attrMissing (el : Dom.Selected) (a : string) : bool :=
  match Dom.attr el a with
  | None => true
  | Some _ => false
  end.

(** The error [aria-required-attr] files for a missing attribute. *)
Definition missingAttrIssue {engine : Dom.DomEngine} (el : Dom.Selected)
    (role a : string) : Types.AccessibilityIssue :=
  Types.mkIssue Types.error "ARIA Required Attributes"
    ("Elements with role=" ++ dq ++ role ++ dq ++ " must have " ++ a
     ++ " attribute")%string
    (Evaluator.excerpt el) (Some (Evaluator.getSelector el)) Types.ARIA None
    (Some Types.serious) None.

(** The errors of one element: one for each attribute that the table
    requires for its role and that the element does not carry. *)
Definition missingRequired {engine : Dom.DomEngine} (el : Dom.Selected)
  : list Types.AccessibilityIssue :=
  match Dom.attr el "role" with
  | Some role =>
      match JSMap.get Evaluator.requiredAttributes role with
      | Some attrs =>
          map (missingAttrIssue el role) (filter (attrMissing el) attrs)
      | None => []
      end
  | None => []
  end.

(** A slider that lacks two of its three attributes, next to an element
    with an unknown role. *)
Definition sliderDocument : Dom.Document :=
  [leaf "div" [("role", "slider"); ("aria-valuemin", "")];
   leaf "div" [("role", "banner")]].

(** The error [aria-valid-values] files for a value outside the list. *)
Definition invalidValueIssue {engine : Dom.DomEngine}
    (attrName : string) (allowed : list string) (el : Dom.Selected)
  : Types.AccessibilityIssue :=
  Types.mkIssue Types.error "ARIA Valid Values"
    ("Invalid value for " ++ attrName ++ ": " ++ dq
     ++ match Dom.attr el attrName with Some v => v | None => "" end ++ dq
     ++ ". Valid values are: " ++ JS.join ", " allowed)%string
    (Evaluator.excerpt el) (Some (Evaluator.getSelector el)) Types.ARIA None
    (Some Types.serious) None.

(** The element carries the attribute with a non-empty value that is not
    in the list. *)
Definition invalidValue (attrName : string) (allowed : list string)
    (el : Dom.Selected) : bool :=
  match Dom.attr el attrName with
  | Some v => JS.truthy v && negb (JS.arrayIncludes allowed v)
  | None => false
  end.

(** The elements with a [role] attribute, in document order. *)
Definition roleElements (doc : Dom.Document) : list Dom.Selected :=
  Dom.query doc (Dom.hasAttr "role").

Definition roleOf (el : Dom.Selected) : string :=
  match Dom.attr el "role" with
  | Some r => r
  | None => "undefined"
  end.

(** The element's role is in the validator's catalogue. *)
Definition knownRole (self : Aria.ARIAValidator) (el : Dom.Selected) : bool :=
  JSMap.has (Aria.roles self) (roleOf el).

(** The line [validate] adds to [validUsages] for an element. *)
Definition usageLine (el : Dom.Selected) : string :=
  ("Correct use of role=" ++ dq ++ roleOf el ++ dq ++ " on "
   ++ Aria.getSelector el)%string.

(** Some element of the document carries the attribute. *)
Definition carries (doc : Dom.Document) (name : string) : Prop :=
  exists el, In el (Dom.elements doc) /\ Dom.attr el name <> None.

(** The statistics once a property was seen on an element. *)
Definition usedProperty (s : Aria.Statistics) (prop : string)
  : Aria.Statistics :=
  Aria.mkStatistics (Aria.totalARIAElements s) (Aria.rolesUsed s)
    (JSSet.add (Aria.propertiesUsed s) prop) (Aria.statesUsed s).

Definition usedIfCarried (doc : Dom.Document) (s : Aria.Statistics)
    (prop : string) : Aria.Statistics :=
  match Dom.query doc (Dom.hasAttr prop) with
  | [] => s
  | _ :: _ => usedProperty s prop
  end.

(** The selector engine rejects the query for an id. *)
Definition badId {engine : Dom.DomEngine} (doc : Dom.Document) (id : string)
  : bool :=
  match Dom.select doc ("#" ++ id)%string with
  | Throw _ => true
  | Normal _ => false
  end.

Definition badElement {engine : Dom.DomEngine} (doc : Dom.Document)
    (prop : string) (el : Dom.Selected) : bool :=
  match Dom.attr el prop with
  | Some (String c v) =>
      String.eqb prop "aria-labelledby"
      && existsb (badId doc) (JS.splitOn " "%char (String c v))
  | _ => false
  end.

Definition badProperty {engine : Dom.DomEngine} (doc : Dom.Document)
    (prop : string) : bool :=
  existsb (badElement doc prop) (Dom.query doc (Dom.hasAttr prop)).

(** Some element has a non-empty [aria-labelledby] one of whose
    space-separated parts gives a selector [#part] that the selector engine
    rejects. *)
Definition brokenReference {engine : Dom.DomEngine} (doc : Dom.Document)
  : Prop :=
  exists el v id e,
    In el (Dom.elements doc) /\
    Dom.attr el "aria-labelledby" = Some v /\
    v <> EmptyString /\
    In id (JS.splitOn " "%char v) /\
    Dom.select doc ("#" ++ id)%string = Throw e.

(** The issues [validate] files, check by check. *)
Definition invalidRoleIssue {engine : Dom.DomEngine} (el : Dom.Selected)
  : Aria.ARIAValidationIssue :=
  Aria.mkIssue Aria.error (Aria.excerpt el) (Aria.getSelector el)
    ("Invalid ARIA role: " ++ dq ++ roleOf el ++ dq)%string
    "Use a valid ARIA role from the WAI-ARIA specification"
    Aria.spec12 None None None.

Definition missingPropertyIssue {engine : Dom.DomEngine} (el : Dom.Selected)
    (prop : string) : Aria.ARIAValidationIssue :=
  Aria.mkIssue Aria.error (Aria.excerpt el) (Aria.getSelector el)
    ("Missing required property " ++ dq ++ prop ++ dq ++ " for role=" ++ dq
     ++ roleOf el ++ dq)%string
    ("Add " ++ prop ++ " attribute to elements with role=" ++ dq
     ++ roleOf el ++ dq)%string
    Aria.spec12 None None None.

Definition parentIssue {engine : Dom.DomEngine} (el : Dom.Selected)
    (parents : list string) : Aria.ARIAValidationIssue :=
  Aria.mkIssue Aria.error (Aria.excerpt el) (Aria.getSelector el)
    ("Role " ++ dq ++ roleOf el ++ dq ++ " must be contained within one of: "
     ++ JS.join ", " parents)%string
    ("Place this element inside an element with role=" ++ dq
     ++ nth 0 parents "undefined" ++ dq)%string
    Aria.spec12 None None None.

(** No ancestor of the element, nor the element itself, has one of the
    roles. *)
Definition outsideParents (el : Dom.Selected) (parents : list string)
  : bool :=
  negb
    (existsb
       (fun parentRole => Dom.hasClosest el (Dom.attrEq "role" parentRole))
       parents).

(** The issues of one element with a [role] attribute: for an unknown role
    the single error that says so; for a known role an error for each
    required property the element lacks, then an error when the role needs
    a parent role that no ancestor has. *)
Definition roleIssues {engine : Dom.DomEngine} (self : Aria.ARIAValidator)
    (el : Dom.Selected) : list Aria.ARIAValidationIssue :=
  match JSMap.get (Aria.roles self) (roleOf el) with
  | None => [invalidRoleIssue el]
  | Some roleSpec =>
      map (missingPropertyIssue el)
        (filter (attrMissing el) (Aria.requiredProperties roleSpec))
      ++ match Aria.requiredParent roleSpec with
         | Some parents =>
             if outsideParents el parents then [parentIssue el parents]
             else []
         | None => []
         end
  end.

Definition emptyValueIssue {engine : Dom.DomEngine} (el : Dom.Selected)
    (prop : string) : Aria.ARIAValidationIssue :=
  Aria.mkIssue Aria.warning (Aria.excerpt el) (Aria.getSelector el)
    ("Empty value for " ++ prop)%string
    ("Provide a meaningful value for " ++ prop
     ++ " or remove the attribute")%string
    Aria.spec12 None None None.

Definition referenceIssue {engine : Dom.DomEngine} (el : Dom.Selected)
    (id : string) : Aria.ARIAValidationIssue :=
  Aria.mkIssue Aria.error (Aria.excerpt el) (Aria.getSelector el)
    ("aria-labelledby references non-existent ID: " ++ dq ++ id
     ++ dq)%string
    ("Ensure element with id=" ++ dq ++ id ++ dq
     ++ " exists in the document")%string
    Aria.spec12 None None None.

(** The error for a part of [aria-labelledby] that selects nothing. *)
Definition referenceIssues {engine : Dom.DomEngine} (doc : Dom.Document)
    (el : Dom.Selected) (id : string) : list Aria.ARIAValidationIssue :=
  match Dom.select doc ("#" ++ id)%string with
  | Normal n => if (n =? 0)%nat then [referenceIssue el id] else []
  | Throw _ => []
  end.

(** The issues of one element for one property it carries: a warning for
    an empty value, and for a non-empty [aria-labelledby] an error for
    each part that selects nothing. *)
Definition propertyIssues {engine : Dom.DomEngine} (doc : Dom.Document)
    (prop : string) (el : Dom.Selected) : list Aria.ARIAValidationIssue :=
  match Dom.attr el prop with
  | Some EmptyString => [emptyValueIssue el prop]
  | Some (String c v) =>
      if String.eqb prop "aria-labelledby"
      then flat_map (referenceIssues doc el) (JS.splitOn " "%char (String c v))
      else []
  | None => []
  end.

Definition redundantIssue {engine : Dom.DomEngine} (el : Dom.Selected)
  : Aria.ARIAValidationIssue :=
  Aria.mkIssue Aria.warning (Aria.excerpt el) (Aria.getSelector el)
    ("Redundant ARIA role on " ++ Dom.tagName (Dom.self el)
     ++ " element")%string
    "Remove redundant role attribute as the element has implicit semantics"
    Aria.spec12 None None None.

Definition hiddenIssue {engine : Dom.DomEngine} (el : Dom.Selected)
  : Aria.ARIAValidationIssue :=
  Aria.mkIssue Aria.error (Aria.excerpt el) (Aria.getSelector el)
    ("aria-hidden=" ++ dq ++ "true" ++ dq
     ++ " on focusable element or container with focusable children")%string
    "Remove aria-hidden or make element and children non-focusable"
    Aria.spec12 None None None.

(** The element is focusable or has a focusable descendant. *)
Definition holdsFocus (el : Dom.Selected) : bool :=
  Dom.matches el Aria.focusableSelectors
  || (0 <? List.length (Dom.find el Aria.focusableSelectors))%nat.

(** All the issues of a document, in the order [validate] files them. *)
Definition allIssues {engine : Dom.DomEngine} (self : Aria.ARIAValidator)
    (doc : Dom.Document) : list Aria.ARIAValidationIssue :=
  flat_map (roleIssues self) (roleElements doc)
  ++ flat_map
       (fun prop =>
          flat_map (propertyIssues doc prop)
            (Dom.query doc (Dom.hasAttr prop)))
       (Aria.properties self)
  ++ map redundantIssue (Dom.query doc Aria.redundantSelector)
  ++ map hiddenIssue
       (filter holdsFocus (Dom.query doc (Dom.attrEq "aria-hidden" "true")))
  ++ flat_map (landmarkIssues doc) Aria.landmarks.

(** The first entry of the catalogue, criterion 1.1.1. *)
Definition firstCriterion : Types.WCAGCriterion :=
  hd (Types.mkCriterion "" "" "" "" "" [] []) Checker.catalog.

(** The validator that a store holds at a reference: the catalogues its
    fields refer to. *)
Definition validatorAt (h : AriaStore.Heap) (this : AriaStore.Loc)
  : option Aria.ARIAValidator :=
  match nth_error h this with
  | Some (AriaStore.ValidatorObject r p s) =>
      match nth_error h r, nth_error h p, nth_error h s with
      | Some (AriaStore.RoleMap entries), Some (AriaStore.StringSet props),
        Some (AriaStore.StringSet sts) =>
          Some (Aria.mkValidator entries props sts)
      | _, _, _ => None
      end
  | _ => None
  end.

(** The result that a store holds at a reference, read in full: the
    issues, the usage lines and the statistics with the members of its
    three sets. *)
Definition snapshot (h : AriaStore.Heap) (result : AriaStore.Loc)
  : option Aria.ARIAValidationResult :=
  match nth_error h result with
  | Some (AriaStore.ResultObject i u s) =>
      match nth_error h i, nth_error h u, nth_error h s with
      | Some (AriaStore.IssueArray items), Some (AriaStore.StringArray lines),
        Some (AriaStore.StatisticsObject n a b c) =>
          match nth_error h a, nth_error h b, nth_error h c with
          | Some (AriaStore.StringSet ra), Some (AriaStore.StringSet pb),
            Some (AriaStore.StringSet sc) =>
              Some
                (Aria.mkResult items lines (Aria.mkStatistics n ra pb sc))
          | _, _, _ => None
          end
      | _, _, _ => None
      end
  | _ => None
  end.

(** The objects a call of [validate] creates first, holding the local
    state [st]; [base] is the position of the first of them. *)
Definition locals (base : nat) (st : Aria.ValidationState)
  : AriaStore.Heap :=
  [AriaStore.IssueArray (Aria.stIssues st);
   AriaStore.StringArray (Aria.stValidUsages st);
   AriaStore.StringSet (Aria.rolesUsed (Aria.stStatistics st));
   AriaStore.StringSet (Aria.propertiesUsed (Aria.stStatistics st));
   AriaStore.StringSet (Aria.statesUsed (Aria.stStatistics st));
   AriaStore.StatisticsObject
     (Aria.totalARIAElements (Aria.stStatistics st))
     (base + 2) (base + 3) (base + 4)].

(** The store [h0] followed by the locals of a call. *)
Definition withLocals (h0 : AriaStore.Heap) (st : Aria.ValidationState)
  : AriaStore.Heap :=
  h0 ++ locals (List.length h0) st.

(** A store that holds a validator with the catalogues of
    [initializeARIASpec], at reference 3. *)
Definition validatorHeap : AriaStore.Heap :=
  [AriaStore.RoleMap (Aria.roles Aria.newValidator);
   AriaStore.StringSet (Aria.properties Aria.newValidator);
   AriaStore.StringSet (Aria.states Aria.newValidator);
   AriaStore.ValidatorObject 0 1 2].

(** * Properties of the compliance calculator *)

Section MapFacts.
Context {V : Type}.

Lemma set_fresh (m : JSMap.t V) (k : string) (v : V) :
  ~ In k (JSMap.keys m) -> JSMap.set m k v = m ++ [(k, v)].
Proof.
  induction m as [|[k' v'] m IH]; simpl; intros Hk; [reflexivity|].
  destruct (String.eqb_spec k' k) as [->|Hne].
  - exfalso. apply Hk. now left.
  - f_equal. apply IH. intros Hin. apply Hk. now right.
Qed.

Lemma keys_app (m1 m2 : JSMap.t V) :
  JSMap.keys (m1 ++ m2) = JSMap.keys m1 ++ JSMap.keys m2.
Proof. unfold JSMap.keys. apply map_app. Qed.

End MapFacts.

Lemma indexOfFrom_range (a : list string) (x : string) (i : Z) :
  (0 <= i)%Z ->
  JS.indexOfFrom i a x = (-1)%Z \/ (i <= JS.indexOfFrom i a x)%Z.
Proof.
  revert i. induction a as [|y a IH]; simpl; intros i Hi; [now left|].
  destruct (String.eqb y x); [right; lia|].
  destruct (IH (i + 1)%Z) as [H|H]; [lia|now left|right; lia].
Qed.

Lemma indexOf_absent (a : list string) (x : string) (i : Z) :
  (0 <= i)%Z -> ~ In x a -> JS.indexOfFrom i a x = (-1)%Z.
Proof.
  revert i. induction a as [|y a IH]; simpl; intros i Hi Hx; [reflexivity|].
  destruct (String.eqb_spec y x) as [->|Hne].
  - exfalso. apply Hx. now left.
  - apply IH; [lia|]. intros H. apply Hx. now right.
Qed.

Lemma indexOf_present (a : list string) (x : string) (i : Z) :
  (0 <= i)%Z -> In x a -> (i <= JS.indexOfFrom i a x)%Z.
Proof.
  revert i. induction a as [|y a IH]; simpl; intros i Hi Hx; [contradiction|].
  destruct (String.eqb_spec y x) as [->|Hne]; [lia|].
  destruct Hx as [->|Hx]; [congruence|].
  specialize (IH (i + 1)%Z ltac:(lia) Hx). lia.
Qed.

Section CheckerFacts.
Import Types Checker.

Lemma applicable_fold (targetIndex : Z) (m acc : JSMap.t WCAGCriterion) :
  NoDup (JSMap.keys acc ++ JSMap.keys m) ->
  fold_left
    (fun applicableCriteria (entry : string * WCAGCriterion) =>
       let (id, criterion) := entry in
       let criterionIndex :=
         JS.indexOf levelOrder (criterionLevel criterion) in
       if (criterionIndex <=? targetIndex)%Z
       then JSMap.set applicableCriteria id criterion
       else applicableCriteria)
    m acc
  = acc ++ filter (withinLevel targetIndex) m.
Proof.
  revert acc. induction m as [|[k c] m IH]; intros acc Hnd; simpl.
  - now rewrite app_nil_r.
  - unfold withinLevel at 1. simpl.
    assert (Hk : ~ In k (JSMap.keys acc)).
    { simpl in Hnd. apply NoDup_remove_2 in Hnd.
      intros H. apply Hnd. apply in_or_app. now left. }
    assert (Hnd' : NoDup (JSMap.keys (acc ++ [(k, c)]) ++ JSMap.keys m)).
    { rewrite keys_app. simpl. rewrite <- app_assoc. exact Hnd. }
    destruct (JS.indexOf levelOrder (criterionLevel c) <=? targetIndex)%Z.
    + rewrite set_fresh by exact Hk. rewrite IH by exact Hnd'.
      now rewrite <- app_assoc.
    + apply IH. simpl in Hnd. apply NoDup_remove_1 in Hnd. exact Hnd.
Qed.

Lemma newChecker_criteria :
  criteria newChecker = map (fun c => (id c, c)) catalog.
Proof. reflexivity. Qed.

Lemma catalog_ids_NoDup : NoDup (map id catalog).
Proof.
  unfold catalog. simpl.
  repeat (constructor; [simpl; intuition discriminate|]).
  constructor.
Qed.

Lemma newChecker_keys_NoDup : NoDup (JSMap.keys (criteria newChecker)).
Proof.
  rewrite newChecker_criteria. unfold JSMap.keys. rewrite map_map. simpl.
  exact catalog_ids_NoDup.
Qed.

Lemma getApplicable_filter (self : WCAGComplianceChecker)
    (targetLevel : string) (applicable : JSMap.t WCAGCriterion) :
  NoDup (JSMap.keys (criteria self)) ->
  getApplicableCriteria self targetLevel = Normal applicable ->
  In targetLevel levelOrder /\
  (0 <= JS.indexOf levelOrder targetLevel)%Z /\
  applicable
  = filter (withinLevel (JS.indexOf levelOrder targetLevel)) (criteria self).
Proof.
  intros Hnd. unfold getApplicableCriteria. cbv zeta.
  destruct (Z.eqb_spec (JS.indexOf levelOrder targetLevel) (-1)) as [E|E];
    [discriminate|].
  intros H. injection H as <-.
  assert (Hin : In targetLevel levelOrder).
  { destruct (in_dec string_dec targetLevel levelOrder) as [Hin|Hout];
      [exact Hin|].
    exfalso. apply E. apply indexOf_absent; [lia|exact Hout]. }
  split; [exact Hin|]. split.
  - apply (indexOf_present levelOrder targetLevel 0); [lia|exact Hin].
  - apply (applicable_fold (JS.indexOf levelOrder targetLevel)
             (criteria self) []).
    simpl. exact Hnd.
Qed.

Lemma getApplicable_Normal (targetLevel : string)
    (applicable : JSMap.t WCAGCriterion) :
  getApplicableCriteria newChecker targetLevel = Normal applicable ->
  In targetLevel levelOrder /\
  (0 <= JS.indexOf levelOrder targetLevel)%Z /\
  applicable
  = filter (withinLevel (JS.indexOf levelOrder targetLevel))
      (criteria newChecker).
Proof.
  apply getApplicable_filter. exact newChecker_keys_NoDup.
Qed.

Lemma getApplicable_valid (targetLevel : string) :
  In targetLevel levelOrder ->
  exists applicable,
    getApplicableCriteria newChecker targetLevel = Normal applicable.
Proof.
  intros Hin. unfold getApplicableCriteria. cbv zeta.
  destruct (Z.eqb_spec (JS.indexOf levelOrder targetLevel) (-1)) as [E|E].
  - pose proof (indexOf_present levelOrder targetLevel 0 ltac:(lia) Hin).
    unfold JS.indexOf in E. lia.
  - eexists. reflexivity.
Qed.

(** The classification loop distributes the criteria it visits over the
    three arrays and moves nothing that is already there. *)
Lemma classify_fold (er : EvaluationResult)
    (ci : JSMap.t (list AccessibilityIssue))
    (entries : JSMap.t WCAGCriterion) (acc : Classification) :
  Permutation
    (let r := fold_left (classify er ci) entries acc in
     passedAcc r ++ failedAcc r ++ notApplicableAcc r)
    ((passedAcc acc ++ failedAcc acc ++ notApplicableAcc acc)
     ++ JSMap.values entries).
Proof.
  revert acc. induction entries as [|[k c] entries IH]; intros acc; simpl.
  - now rewrite app_nil_r.
  - etransitivity; [apply IH|].
    apply Permutation_trans
      with ((c :: passedAcc acc ++ failedAcc acc ++ notApplicableAcc acc)
            ++ JSMap.values entries);
      [|simpl; apply Permutation_middle].
    apply Permutation_app_tail. symmetry. unfold classify.
    destruct (0 <? _)%nat; [|destruct (isCriterionApplicable c er)]; simpl.
    + rewrite <- (app_assoc (failedAcc acc) [c]). simpl.
      rewrite (app_assoc (passedAcc acc)), (app_assoc (passedAcc acc)).
      apply Permutation_middle.
    + rewrite <- (app_assoc (passedAcc acc) [c]). simpl.
      apply (Permutation_middle (passedAcc acc)).
    + rewrite !app_assoc. apply Permutation_cons_append.
Qed.

Lemma evaluateCompliance_Normal (er : EvaluationResult)
    (targetLevel : option string) (report : WCAGComplianceReport) :
  evaluateCompliance newChecker er targetLevel = Normal report ->
  exists applicable classes,
    getApplicableCriteria newChecker (targetOrDefault targetLevel)
    = Normal applicable /\
    classes
    = fold_left
        (classify er (fold_left mapIssue (issues er) JSMap.empty))
        applicable (mkClassification [] [] []) /\
    passedCriteria report = passedAcc classes /\
    failedCriteria report = failedAcc classes /\
    notApplicableCriteria report = notApplicableAcc classes /\
    reportLevel report
    = calculateComplianceLevel (passedAcc classes) (failedAcc classes)
        (targetOrDefault targetLevel) /\
    overallScore report
    = calculateOverallScore (passedAcc classes) (failedAcc classes).
Proof.
  unfold evaluateCompliance.
  destruct (getApplicableCriteria newChecker (targetOrDefault targetLevel))
    as [applicable|e] eqn:E; simpl; [|discriminate].
  intros H. injection H as <-. simpl.
  exists applicable. eexists. repeat split.
Qed.

Lemma values_filter_NoDup (p : string * WCAGCriterion -> bool) :
  NoDup (JSMap.values (filter p (criteria newChecker))).
Proof.
  apply (NoDup_map_inv id).
  unfold JSMap.values. rewrite map_map.
  assert (H : forall l : list WCAGCriterion,
             map (fun e => id (snd e))
               (filter p (map (fun c => (id c, c)) l))
             = map fst (filter p (map (fun c => (id c, c)) l))).
  { induction l as [|c l IH]; simpl; [reflexivity|].
    destruct (p (id c, c)); simpl; now rewrite ?IH. }
  rewrite newChecker_criteria, H.
  assert (G : forall l : list (string * WCAGCriterion),
             NoDup (map fst l) -> NoDup (map fst (filter p l))).
  { induction l as [|e l IH]; simpl; intros Hnd; [constructor|].
    inversion Hnd as [|? ? Hx Hl]; subst.
    destruct (p e); simpl; [|now apply IH].
    constructor; [|now apply IH].
    intros Hin. apply Hx. apply in_map_iff in Hin.
    destruct Hin as [e' [He' Hin]]. apply filter_In in Hin.
    apply in_map_iff. exists e'. tauto. }
  apply G. rewrite <- newChecker_criteria. exact newChecker_keys_NoDup.
Qed.

Lemma applicable_length (targetIndex : Z) :
  (List.length (filter (withinLevel targetIndex) (criteria newChecker))
   <= 15)%nat.
Proof.
  etransitivity; [apply filter_length_le|]. reflexivity.
Qed.

End CheckerFacts.

Lemma NoDup_app_disjoint {A : Type} (l1 l2 : list A) (x : A) :
  NoDup (l1 ++ l2) -> In x l1 -> In x l2 -> False.
Proof.
  induction l1 as [|a l1 IH]; simpl; intros Hnd H1 H2; [contradiction|].
  inversion Hnd as [|? ? Ha Hl]; subst.
  destruct H1 as [->|H1].
  - apply Ha. apply in_or_app. now right.
  - now apply IH.
Qed.

Lemma NoDup_app_right {A : Type} (l1 l2 : list A) :
  NoDup (l1 ++ l2) -> NoDup l2.
Proof.
  induction l1 as [|a l1 IH]; simpl; intros Hnd; [exact Hnd|].
  inversion Hnd; subst. now apply IH.
Qed.

(** [Math.round((part / total) * 100)] in binary64 arithmetic is the
    exactly rounded percentage for every pair of counts the catalog allows. *)
Lemma percentage_exact (p f : nat) :
  (p + f <= 15)%nat ->
  (p + f =? 0)%nat = false ->
  Checker.percentage p (p + f)
  = JSNumber.ofInteger false
      (roundHalfUp (100 * Z.of_nat p) (Z.of_nat (p + f))).
Proof.
  intros Hle Hz.
  do 16 (destruct p as [|p];
         [ do 16 (destruct f as [|f];
                  [ first [ discriminate Hz | vm_compute; reflexivity
                          | exfalso; lia ] | ]);
           exfalso; lia | ]).
  exfalso; lia.
Qed.

Section CheckerTheorems.
Import Types Checker.

(** C1: for every evaluation result and every valid target level, each
    criterion of the applicable set that [evaluateCompliance] computes is
    in exactly one of [passedCriteria], [failedCriteria] and
    [notApplicableCriteria]: the union of the three lists is the applicable
    set, no criterion occurs twice in their concatenation, and they are
    pairwise disjoint. *)
Theorem evaluateCompliance_partition (er : EvaluationResult)
    (targetLevel : option string) (applicable : JSMap.t WCAGCriterion)
    (report : WCAGComplianceReport) :
  getApplicableCriteria newChecker (targetOrDefault targetLevel)
  = Normal applicable ->
  evaluateCompliance newChecker er targetLevel = Normal report ->
  (forall c,
      In c (JSMap.values applicable) <->
      In c (passedCriteria report) \/ In c (failedCriteria report)
      \/ In c (notApplicableCriteria report)) /\
  NoDup (passedCriteria report ++ failedCriteria report
         ++ notApplicableCriteria report) /\
  (forall c, ~ (In c (passedCriteria report) /\ In c (failedCriteria report)))
  /\
  (forall c,
      ~ (In c (passedCriteria report) /\ In c (notApplicableCriteria report)))
  /\
  (forall c,
      ~ (In c (failedCriteria report) /\ In c (notApplicableCriteria report))).
Proof.
  intros Happ Hrun.
  destruct (evaluateCompliance_Normal er targetLevel report Hrun)
    as (applicable' & classes & Happ' & Hcl & Hp & Hf & Hn & _ & _).
  rewrite Happ in Happ'. injection Happ' as <-.
  pose proof (classify_fold er
                (fold_left mapIssue (issues er) JSMap.empty) applicable
                (mkClassification [] [] [])) as Hperm.
  cbv zeta in Hperm. rewrite <- Hcl in Hperm. simpl in Hperm.
  rewrite <- Hp, <- Hf, <- Hn in Hperm.
  assert (Hnd : NoDup (passedCriteria report ++ failedCriteria report
                       ++ notApplicableCriteria report)).
  { apply (Permutation_NoDup (Permutation_sym Hperm)).
    apply getApplicable_Normal in Happ. destruct Happ as (_ & _ & ->).
    apply values_filter_NoDup. }
  split; [|split; [exact Hnd|repeat split]].
  - intros c. split.
    + intros Hin. apply (Permutation_in c (Permutation_sym Hperm)) in Hin.
      apply in_app_or in Hin. destruct Hin as [H|H]; [now left|].
      apply in_app_or in H. tauto.
    + intros Hin. apply (Permutation_in c Hperm).
      apply in_or_app. destruct Hin as [H|[H|H]]; [now left|right..];
        apply in_or_app; tauto.
  - intros c [H1 H2].
    apply (NoDup_app_disjoint _ _ c Hnd H1). apply in_or_app. now left.
  - intros c [H1 H2].
    apply (NoDup_app_disjoint _ _ c Hnd H1). apply in_or_app. now right.
  - intros c [H1 H2].
    apply (NoDup_app_disjoint _ _ c (NoDup_app_right _ _ Hnd) H1 H2).
Qed.

(** C2: when an applicable criterion of level A is classified as failed,
    the level of the report is ["None"], whatever passes or fails at the
    levels AA and AAA. *)
Theorem level_A_failure_gives_None (er : EvaluationResult)
    (targetLevel : option string) (report : WCAGComplianceReport) :
  evaluateCompliance newChecker er targetLevel = Normal report ->
  (exists c, In c (failedCriteria report) /\ criterionLevel c = "A") ->
  reportLevel report = "None".
Proof.
  intros Hrun [c [Hin HA]].
  destruct (evaluateCompliance_Normal er targetLevel report Hrun)
    as (applicable & classes & Happ & _ & _ & Hf & _ & Hlevel & _).
  apply getApplicable_Normal in Happ. destruct Happ as (_ & Hidx & _).
  rewrite Hlevel. rewrite Hf in Hin. unfold calculateComplianceLevel.
  cbv zeta.
  replace (Z.to_nat (JS.indexOf levelOrder (targetOrDefault targetLevel) + 1))
    with (S (Z.to_nat (JS.indexOf levelOrder (targetOrDefault targetLevel))))
    by lia.
  simpl seq. cbn [failureLoop nth levelOrder].
  assert (Hlen : (0 <? List.length
                         (filter (fun c0 => String.eqb (criterionLevel c0) "A")
                            (failedAcc classes)))%nat = true).
  { apply Nat.ltb_lt.
    assert (Hc : In c (filter (fun c0 => String.eqb (criterionLevel c0) "A")
                         (failedAcc classes))).
    { apply filter_In. split; [exact Hin|]. rewrite HA. reflexivity. }
    destruct (filter _ (failedAcc classes)); [contradiction|simpl; lia]. }
  rewrite Hlen. reflexivity.
Qed.

(** C3: the overall score of the report is
    [round(100 * |passed| / (|passed| + |failed|))], and 0 when both lists
    are empty. *)
Theorem overallScore_formula (er : EvaluationResult)
    (targetLevel : option string) (report : WCAGComplianceReport) :
  evaluateCompliance newChecker er targetLevel = Normal report ->
  overallScore report
  = expectedScore (List.length (passedCriteria report))
      (List.length (failedCriteria report)) /\
  (passedCriteria report = [] -> failedCriteria report = [] ->
   overallScore report = PrimFloat.zero).
Proof.
  intros Hrun.
  destruct (evaluateCompliance_Normal er targetLevel report Hrun)
    as (applicable & classes & Happ & Hcl & Hp & Hf & Hn & _ & Hscore).
  assert (Hbound : (List.length (passedCriteria report)
                    + List.length (failedCriteria report) <= 15)%nat).
  { pose proof (classify_fold er
                  (fold_left mapIssue (issues er) JSMap.empty) applicable
                  (mkClassification [] [] [])) as Hperm.
    cbv zeta in Hperm. rewrite <- Hcl in Hperm. simpl in Hperm.
    apply Permutation_length in Hperm.
    rewrite !length_app in Hperm. unfold JSMap.values in Hperm.
    rewrite length_map in Hperm.
    apply getApplicable_Normal in Happ. destruct Happ as (_ & _ & Happ).
    pose proof (applicable_length
                  (JS.indexOf levelOrder (targetOrDefault targetLevel))) as Hle.
    rewrite <- Happ in Hle. rewrite Hp, Hf. lia. }
  assert (Hmain : overallScore report
                  = expectedScore (List.length (passedCriteria report))
                      (List.length (failedCriteria report))).
  { rewrite Hscore, <- Hp, <- Hf.
    unfold calculateOverallScore, expectedScore. cbv zeta.
    destruct (List.length (passedCriteria report)
              + List.length (failedCriteria report) =? 0)%nat eqn:Hz;
      [reflexivity|].
    apply percentage_exact; assumption. }
  split; [exact Hmain|].
  intros Hp0 Hf0. rewrite Hmain, Hp0, Hf0. reflexivity.
Qed.

(** C4: a target level other than ["A"], ["AA"] and ["AAA"] makes
    [evaluateCompliance] throw; no report is returned and no other level is
    substituted. *)
Theorem invalid_target_level_throws (self : WCAGComplianceChecker)
    (er : EvaluationResult) (targetLevel : string) :
  ~ In targetLevel ["A"; "AA"; "AAA"] ->
  evaluateCompliance self er (Some targetLevel)
  = Throw ("Invalid target level: " ++ targetLevel)%string.
Proof.
  intros Hout. unfold evaluateCompliance, getApplicableCriteria. simpl.
  unfold JS.indexOf.
  rewrite (indexOf_absent levelOrder targetLevel 0 ltac:(lia) Hout).
  reflexivity.
Qed.

(** C5: applicability is monotone in the target level: for [T1 <= T2]
    under [A < AA < AAA] both selections exist and every criterion selected
    for [T1] is selected for [T2]. *)
Theorem applicable_monotone (T1 T2 : string) :
  LevelLe T1 T2 ->
  exists a1 a2,
    getApplicableCriteria newChecker T1 = Normal a1 /\
    getApplicableCriteria newChecker T2 = Normal a2 /\
    (forall id c, In (id, c) a1 -> In (id, c) a2) /\
    (forall c, In c (JSMap.values a1) -> In c (JSMap.values a2)).
Proof.
  intros Hle.
  assert (H1 : In T1 levelOrder) by (destruct Hle; simpl; tauto).
  assert (H2 : In T2 levelOrder) by (destruct Hle; simpl; tauto).
  assert (Hidx : (JS.indexOf levelOrder T1 <= JS.indexOf levelOrder T2)%Z)
    by (destruct Hle; vm_compute; discriminate).
  destruct (getApplicable_valid T1 H1) as [a1 E1].
  destruct (getApplicable_valid T2 H2) as [a2 E2].
  exists a1, a2. split; [exact E1|]. split; [exact E2|].
  apply getApplicable_Normal in E1. destruct E1 as (_ & _ & ->).
  apply getApplicable_Normal in E2. destruct E2 as (_ & _ & ->).
  assert (Hincl : forall e,
             In e (filter (withinLevel (JS.indexOf levelOrder T1))
                     (criteria newChecker)) ->
             In e (filter (withinLevel (JS.indexOf levelOrder T2))
                     (criteria newChecker))).
  { intros e He. apply filter_In in He. destruct He as [He Hw].
    apply filter_In. split; [exact He|].
    unfold withinLevel in *. apply Z.leb_le. apply Z.leb_le in Hw. lia. }
  split.
  - intros id0 c. apply Hincl.
  - intros c Hc. unfold JSMap.values in *. apply in_map_iff in Hc.
    destruct Hc as [e [<- He]]. apply in_map. now apply Hincl.
Qed.

End CheckerTheorems.

Lemma evaluateCompliance_partition_witness :
  exists applicable report,
    Checker.getApplicableCriteria Checker.newChecker
      (Checker.targetOrDefault (Some "AA"))
    = Normal applicable /\
    Checker.evaluateCompliance Checker.newChecker sampleResult (Some "AA")
    = Normal report /\
    List.length (Types.failedCriteria report) = 2%nat /\
    List.length (Types.passedCriteria report) = 2%nat /\
    NoDup (Types.passedCriteria report ++ Types.failedCriteria report
           ++ Types.notApplicableCriteria report).
Proof.
  eexists. eexists.
  split; [vm_compute; reflexivity|].
  split; [vm_compute; reflexivity|].
  split; [reflexivity|]. split; [reflexivity|].
  apply (evaluateCompliance_partition sampleResult (Some "AA") _ _
           eq_refl eq_refl).
Defined.

Lemma level_A_failure_gives_None_witness :
  exists report,
    Checker.evaluateCompliance Checker.newChecker sampleResult (Some "AAA")
    = Normal report /\
    (exists c,
        In c (Types.failedCriteria report) /\ Types.criterionLevel c = "A") /\
    Types.reportLevel report = "None".
Proof.
  eexists.
  split; [vm_compute; reflexivity|].
  assert (H : exists c,
             In c [Types.mkCriterion "1.1.1" "Non-text Content" "A"
                     "Perceivable" "1.1 Text Alternatives"
                     ["H37"; "H36"; "H35"; "H53"; "ARIA6"; "ARIA10"]
                     ["F3"; "F13"; "F20"; "F30"; "F38"; "F39"; "F65"];
                   Types.mkCriterion "1.4.3" "Contrast (Minimum)" "AA"
                     "Perceivable" "1.4 Distinguishable"
                     ["G18"; "G148"; "G174"; "G145"] ["F24"; "F83"]]
             /\ Types.criterionLevel c = "A").
  { eexists. split; [left; reflexivity|reflexivity]. }
  split; [exact H|].
  exact (level_A_failure_gives_None sampleResult (Some "AAA") _ eq_refl H).
Defined.

Lemma overallScore_formula_witness :
  exists report,
    Checker.evaluateCompliance Checker.newChecker sampleResult None
    = Normal report /\
    Types.overallScore report = expectedScore 2 2 /\
    Types.overallScore report = 50%float.
Proof.
  eexists.
  split; [vm_compute; reflexivity|].
  split; [|reflexivity].
  exact (proj1 (overallScore_formula sampleResult None _ eq_refl)).
Defined.

Lemma invalid_target_level_throws_witness :
  ~ In "AAAA" ["A"; "AA"; "AAA"] /\
  Checker.evaluateCompliance Checker.newChecker sampleResult (Some "AAAA")
  = Throw "Invalid target level: AAAA".
Proof.
  assert (H : ~ In "AAAA" ["A"; "AA"; "AAA"])
    by (simpl; intuition discriminate).
  split; [exact H|].
  exact (invalid_target_level_throws Checker.newChecker sampleResult "AAAA" H).
Defined.

Lemma applicable_monotone_witness :
  LevelLe "A" "AA" /\
  exists a1 a2,
    Checker.getApplicableCriteria Checker.newChecker "A" = Normal a1 /\
    Checker.getApplicableCriteria Checker.newChecker "AA" = Normal a2 /\
    (forall id c, In (id, c) a1 -> In (id, c) a2) /\
    (forall c, In c (JSMap.values a1) -> In c (JSMap.values a2)).
Proof.
  split; [constructor|].
  apply (applicable_monotone "A" "AA"). constructor.
Defined.

(** * Properties of the rule engine *)

Section FoldFacts.
Context {A B : Type}.

Lemma fold_left_invariant (Inv : A -> Prop) (f : A -> B -> A) :
  (forall a b, Inv a -> Inv (f a b)) ->
  forall l a, Inv a -> Inv (fold_left f l a).
Proof.
  intros Hstep l. induction l as [|b l IH]; simpl; intros a Ha;
    [exact Ha|].
  apply IH. now apply Hstep.
Qed.

Lemma fold_left_Throw (f : Completion A -> B -> Completion A) :
  (forall e b, f (Throw e) b = Throw e) ->
  forall l e, fold_left f l (Throw e) = Throw e.
Proof.
  intros Hthrow l. induction l as [|b l IH]; simpl; intros e;
    [reflexivity|].
  rewrite Hthrow. apply IH.
Qed.

(** An invariant of a loop that can throw holds when the loop completes. *)
Lemma fold_left_Completion_invariant (Inv : A -> Prop)
    (f : Completion A -> B -> Completion A) (l : list B) :
  (forall e b, f (Throw e) b = Throw e) ->
  (forall a b a', In b l -> Inv a -> f (Normal a) b = Normal a' -> Inv a') ->
  forall a a', Inv a -> fold_left f l (Normal a) = Normal a' -> Inv a'.
Proof.
  intros Hthrow. induction l as [|b l IH]; simpl; intros Hstep a a' Ha H.
  - injection H as <-. exact Ha.
  - destruct (f (Normal a) b) as [a1|e] eqn:E.
    + apply (IH (fun x y z Hy => Hstep x y z (or_intror Hy)) a1 a');
        [|exact H].
      apply (Hstep a b a1); [now left|exact Ha|exact E].
    + rewrite (fold_left_Throw f Hthrow) in H. discriminate.
Qed.

End FoldFacts.

Section EvaluatorFacts.
Import Types Dom Evaluator.
Context {engine : DomEngine}.

Lemma imagesAltText_fold (els : list Selected)
    (acc : list AccessibilityIssue) :
  fold_left imagesAltTextEach (filter (fun el => isTag "img" (self el)) els)
    acc
  = acc ++ map altTextIssue (filter needsAltText els).
Proof.
  revert acc. induction els as [|el els IH]; intros acc; simpl.
  - now rewrite app_nil_r.
  - unfold needsAltText at 1.
    destruct (isTag "img" (self el)) eqn:Etag; simpl; [|apply IH].
    rewrite IH. unfold imagesAltTextEach, presentationRole.
    destruct (attr el "alt") as [a|]; simpl; [reflexivity|].
    destruct (match attr el "role" with
              | Some r => JS.includes r "presentation"
              | None => false
              end); simpl; [reflexivity|].
    now rewrite <- app_assoc.
Qed.

Lemma imagesAltText_run (doc : Document) :
  imagesAltText doc
  = Normal (map altTextIssue (filter needsAltText (elements doc))).
Proof.
  unfold imagesAltText, query. f_equal.
  apply (imagesAltText_fold (elements doc) []).
Qed.

(** C6: the rule [images-alt-text] emits, in document order, exactly one
    issue for each [img] element that has no [alt] attribute and no
    presentation-like role, each of them an error with rule ["WCAG 1.1.1"],
    level ["A"] and impact ["critical"]; an [img] whose [alt] attribute is
    present, empty or not, is not among these elements and the loop body
    files nothing for it. *)
Theorem imagesAltText_spec (doc : Document) :
  imagesAltText doc
  = Normal (map altTextIssue (filter needsAltText (elements doc))) /\
  (forall issues,
      imagesAltText doc = Normal issues ->
      List.length issues
      = List.length (filter needsAltText (elements doc)) /\
      Forall
        (fun i =>
           type i = error /\ rule i = "WCAG 1.1.1" /\ level i = Some "A"
           /\ impact i = Some critical /\ standard i = WCAG)
        issues) /\
  (forall el,
      needsAltText el = true <->
      tagName (self el) = "img" /\ attr el "alt" = None /\
      ~ (exists r,
            attr el "role" = Some r /\ JS.includes r "presentation" = true))
  /\
  (forall el issues,
      attr el "alt" = Some "" ->
      needsAltText el = false /\ imagesAltTextEach issues el = issues).
Proof.
  pose proof (imagesAltText_run doc) as Hrun.
  split; [exact Hrun|]. split; [|split].
  - intros issues H. rewrite Hrun in H. injection H as <-.
    split; [apply length_map|].
    apply Forall_forall. intros i Hi. apply in_map_iff in Hi.
    destruct Hi as [el [<- _]]. simpl. repeat split.
  - intros el. unfold needsAltText, isTag. split.
    + intros H. apply andb_prop in H. destruct H as [H Hrole].
      apply andb_prop in H. destruct H as [Htag Halt].
      apply String.eqb_eq in Htag. split; [exact Htag|]. split.
      * destruct (attr el "alt"); [discriminate|reflexivity].
      * intros [r [Hr Hinc]]. rewrite Hr, Hinc in Hrole. discriminate.
    + intros [Htag [Halt Hrole]]. rewrite Htag, Halt. simpl.
      destruct (attr el "role") as [r|]; [|reflexivity].
      destruct (JS.includes r "presentation") eqn:E; [|reflexivity].
      exfalso. apply Hrole. now exists r.
  - intros el issues Halt. unfold needsAltText, imagesAltTextEach.
    rewrite Halt. split; [|reflexivity].
    now rewrite andb_false_r.
Qed.

End EvaluatorFacts.

Lemma imagesAltText_spec_witness :
  @Evaluator.imagesAltText (sampleEngine imagesDocument) imagesDocument
  = Normal
      [Types.mkIssue Types.error "WCAG 1.1.1"
         "Images must have alternative text" (Some "<img>") (Some "img")
         Types.WCAG (Some "A") (Some Types.critical) None].
Proof.
  rewrite (proj1 (@imagesAltText_spec (sampleEngine imagesDocument)
                    imagesDocument)).
  reflexivity.
Defined.

Section IsolationFacts.
Import Types Dom Evaluator.
Context {engine : DomEngine}.

Lemma notAxe_push (l : list AccessibilityIssue) (i : AccessibilityIssue) :
  Forall notAxe l -> standard i <> AXE -> Forall notAxe (l ++ [i]).
Proof.
  intros Hl Hi. apply Forall_app. split; [exact Hl|].
  constructor; [exact Hi|constructor].
Qed.

Lemma headingsStructure_notAxe (doc : Document)
    (l : list AccessibilityIssue) :
  headingsStructure doc = Normal l -> Forall notAxe l.
Proof.
  unfold headingsStructure. intros H. injection H as <-.
  apply (fold_left_invariant (fun st => Forall notAxe (fst st)));
    [|constructor].
  intros [issues lastLevel] el Hinv. unfold headingsEach. simpl in *.
  destruct (skipsLevel lastLevel (headingLevel (tagName (self el)))); simpl;
    [|exact Hinv].
  apply notAxe_push; [exact Hinv|discriminate].
Qed.

Lemma formLabels_notAxe (doc : Document) (l : list AccessibilityIssue) :
  formLabels doc = Normal l -> Forall notAxe l.
Proof.
  unfold formLabels.
  apply (fold_left_Completion_invariant (Forall notAxe)); [reflexivity| |constructor].
  intros a el a' _ Hinv. unfold formLabelsEach. cbn [bindC].
  destruct (attrIs el "type" "submit" || attrIs el "type" "button"
            || attrIs el "type" "hidden").
  { intros H. injection H as <-. exact Hinv. }
  match goal with
  | |- bindC ?c _ = _ -> _ => destruct c as [hasLabel|e]
  end; cbn [bindC]; [|discriminate].
  destruct (negb hasLabel && negb (attrTruthy el "aria-label")
            && negb (attrTruthy el "aria-labelledby"));
    intros H; injection H as <-; [|exact Hinv].
  apply notAxe_push; [exact Hinv|discriminate].
Qed.

Lemma ariaRequiredAttr_notAxe (doc : Document)
    (l : list AccessibilityIssue) :
  ariaRequiredAttr doc = Normal l -> Forall notAxe l.
Proof.
  unfold ariaRequiredAttr.
  apply (fold_left_Completion_invariant (Forall notAxe)); [reflexivity| |constructor].
  intros a el a' _ Hinv. unfold requiredAttrEach. cbn [bindC].
  destruct (attr el "role") as [[|c r]|];
    try (intros H; injection H as <-; exact Hinv).
  destruct (JSMap.get requiredAttributes (String c r)) as [attrs|].
  - intros H. injection H as <-.
    apply (fold_left_invariant (Forall notAxe)); [|exact Hinv].
    intros issues x Hx. destruct (attr el x); [exact Hx|].
    apply notAxe_push; [exact Hx|discriminate].
  - destruct (JS.arrayIncludes objectPrototypeKeys (String c r));
      [discriminate|].
    intros H. injection H as <-. exact Hinv.
Qed.

Lemma ariaValidValues_notAxe (doc : Document)
    (l : list AccessibilityIssue) :
  ariaValidValues doc = Normal l -> Forall notAxe l.
Proof.
  intros H.
  assert (E : l
              = fold_left
                  (fun issues (entry : string * list string) =>
                     let (attrName, allowed) := entry in
                     fold_left (validValuesEach attrName allowed)
                       (query doc (hasAttr attrName)) issues)
                  validValues [])
    by (unfold ariaValidValues in H; congruence).
  rewrite E. clear E H.
  apply (fold_left_invariant (Forall notAxe)); [|constructor].
  intros issues [attrName allowed] Hinv.
  apply (fold_left_invariant (Forall notAxe)); [|exact Hinv].
  intros acc el Hacc. unfold validValuesEach.
  destruct (attr el attrName) as [[|c v]|]; try exact Hacc.
  destruct (negb (JS.arrayIncludes allowed (String c v))); [|exact Hacc].
  apply notAxe_push; [exact Hacc|discriminate].
Qed.

Lemma imagesAltText_notAxe (doc : Document) (l : list AccessibilityIssue) :
  imagesAltText doc = Normal l -> Forall notAxe l.
Proof.
  rewrite imagesAltText_run. intros H. injection H as <-.
  apply Forall_forall. intros i Hi. apply in_map_iff in Hi.
  destruct Hi as [el [<- _]]. discriminate.
Qed.

Lemma registered_rules_notAxe (entry : string * Rule) (doc : Document)
    (l : list AccessibilityIssue) :
  In entry (wcagRules ++ ariaRules) ->
  snd entry doc = Normal l -> Forall notAxe l.
Proof.
  simpl. intros [<-|[<-|[<-|[<-|[<-|[]]]]]]; simpl.
  - apply imagesAltText_notAxe.
  - apply headingsStructure_notAxe.
  - apply formLabels_notAxe.
  - apply ariaRequiredAttr_notAxe.
  - apply ariaValidValues_notAxe.
Qed.

Lemma allRuleIssues_notAxe (doc : Document) (l : list AccessibilityIssue) :
  allRuleIssues doc = Normal l -> Forall notAxe l.
Proof.
  unfold allRuleIssues, collect.
  apply (fold_left_Completion_invariant (Forall notAxe));
    [reflexivity| |constructor].
  intros a entry a' Hin Hinv. simpl.
  destruct (snd entry doc) as [ruleIssues|e] eqn:E; simpl; [|discriminate].
  intros H. injection H as <-.
  apply Forall_app. split; [exact Hinv|].
  exact (registered_rules_notAxe entry doc ruleIssues Hin E).
Qed.

(** A loop of [evaluateHTML] over a registry gathers the issues of its
    rules in order. *)
Lemma runRules_collect (doc : Document) (prefix : string)
    (registry : JSMap.t Rule) (st : Collected)
    (l : list AccessibilityIssue) :
  collect doc registry (Normal (collectedIssues st)) = Normal l ->
  exists st',
    runRules doc prefix registry (Normal st) = Normal st' /\
    collectedIssues st' = l.
Proof.
  unfold collect, runRules. revert st.
  induction registry as [|[ruleName rule] registry IH]; simpl; intros st H.
  - injection H as <-. now exists st.
  - destruct (rule doc) as [ruleIssues|e] eqn:E; simpl in H.
    + cbn [bindC].
      destruct (List.length ruleIssues =? 0)%nat eqn:Elen.
      * apply Nat.eqb_eq in Elen. apply length_zero_iff_nil in Elen.
        subst ruleIssues. rewrite app_nil_r in H.
        apply (IH (mkCollected (collectedIssues st)
                     (collectedPassed st ++ [(prefix ++ ruleName)%string]))).
        exact H.
      * apply (IH (mkCollected (collectedIssues st ++ ruleIssues)
                     (collectedPassed st))).
        exact H.
    + rewrite fold_left_Throw in H by reflexivity. discriminate.
Qed.

Lemma rule_phase_collects (doc : Document) (l : list AccessibilityIssue) :
  allRuleIssues doc = Normal l ->
  exists st,
    runRules doc "ARIA: " ariaRules
      (runRules doc "WCAG: " wcagRules (Normal (mkCollected [] [])))
    = Normal st /\
    collectedIssues st = l.
Proof.
  unfold allRuleIssues, collect. rewrite fold_left_app.
  fold (collect doc wcagRules (Normal [])).
  intros H.
  destruct (collect doc wcagRules (Normal [])) as [l1|e] eqn:E1.
  - destruct (runRules_collect doc "WCAG: " wcagRules (mkCollected [] [])
                l1 E1) as [st1 [Hst1 Hl1]].
    rewrite Hst1. rewrite <- Hl1 in H.
    exact (runRules_collect doc "ARIA: " ariaRules st1 l H).
  - rewrite fold_left_Throw in H by reflexivity. discriminate.
Qed.

End IsolationFacts.

Section IsolationTheorem.
Import Types Dom Evaluator.
Context {engine : DomEngine} {axe : AxeEngine}.

Lemma axe_failure_outcome (htmlText : string) :
  axeFails htmlText ->
  exists log,
    log <> [] /\
    ((exists e, runAxeCore htmlText = (Throw e, [])
                /\ log = [("Failed to run axe-core: " ++ e)%string]) \/
     runAxeCore htmlText = (Normal [], log)).
Proof.
  unfold runAxeCore.
  intros [[e H]|[(d & e & Hd & H)|(d & vs & e & Hd & Hv & H)]].
  - rewrite H. eexists. split; [|left; eexists; split; reflexivity].
    discriminate.
  - rewrite Hd, H. simpl. eexists. split; [|right; reflexivity].
    discriminate.
  - rewrite Hd, Hv. simpl. rewrite H. eexists.
    split; [|right; reflexivity]. discriminate.
Qed.

(** C8: when the automated rule engine throws or fails in a run of
    [evaluateHTML] (the engine is called once the registered rules have
    returned), the error is caught and logged and the promise resolves
    with a complete result: its issues are the issues of the registered
    WCAG and ARIA rules, each with its explanation, its passed checks and
    summary are those of the rules alone, and no issue has standard
    ["AXE"]. *)
Theorem axe_failure_is_isolated (htmlText : string)
    (found : list AccessibilityIssue) :
  allRuleIssues (cheerio_load htmlText) = Normal found ->
  axeFails htmlText ->
  exists result log,
    evaluateHTML htmlText = (Normal result, log) /\
    issues result = map enhanceIssue found /\
    summary result = summarize (map enhanceIssue found) /\
    totalIssues (summary result) = List.length found /\
    Forall notAxe (issues result) /\
    log <> [].
Proof.
  intros Hrules Hfail.
  destruct (rule_phase_collects _ _ Hrules) as [st [Hst Hl]].
  destruct (axe_failure_outcome htmlText Hfail) as [log [Hlog Hout]].
  assert (Hna : Forall notAxe (map enhanceIssue found)).
  { apply Forall_forall. intros i Hi. apply in_map_iff in Hi.
    destruct Hi as [i0 [<- Hi0]].
    pose proof (allRuleIssues_notAxe _ _ Hrules) as Hf.
    rewrite Forall_forall in Hf. specialize (Hf i0 Hi0).
    unfold notAxe, enhanceIssue in *.
    destruct (lookupExplanation (rule i0)); exact Hf. }
  unfold evaluateHTML. cbv zeta. rewrite Hst.
  destruct Hout as [[e [Hrun ->]]|Hrun]; rewrite Hrun; simpl;
    rewrite ?app_nil_r, Hl;
    eexists; eexists; (split; [reflexivity|]); simpl;
    (split; [reflexivity|]); (split; [reflexivity|]);
    (split; [apply length_map|]); (split; [exact Hna|]).
  - discriminate.
  - exact Hlog.
Qed.

End IsolationTheorem.

Lemma axe_failure_is_isolated_witness :
  exists found,
    @allRuleIssues (sampleEngine imagesDocument)
      (@Dom.cheerio_load (sampleEngine imagesDocument) "<img src=x.jpg>")
    = Normal found /\
    @axeFails failingAxe "<img src=x.jpg>" /\
    exists result log,
      @Evaluator.evaluateHTML (sampleEngine imagesDocument) failingAxe
        "<img src=x.jpg>"
      = (Normal result, log) /\
      Types.issues result = map Evaluator.enhanceIssue found /\
      Types.summary result
      = Evaluator.summarize (map Evaluator.enhanceIssue found) /\
      Types.totalIssues (Types.summary result) = List.length found /\
      Forall notAxe (Types.issues result) /\
      log <> [].
Proof.
  eexists.
  assert (H1 : @allRuleIssues (sampleEngine imagesDocument)
                 (@Dom.cheerio_load (sampleEngine imagesDocument)
                    "<img src=x.jpg>")
               = Normal
                   [Types.mkIssue Types.error "WCAG 1.1.1"
                      "Images must have alternative text" (Some "<img>")
                      (Some "img") Types.WCAG (Some "A")
                      (Some Types.critical) None])
    by reflexivity.
  assert (H2 : @axeFails failingAxe "<img src=x.jpg>").
  { right. left. exists tt, "axe-core failed". split; reflexivity. }
  split; [exact H1|]. split; [exact H2|].
  exact (@axe_failure_is_isolated (sampleEngine imagesDocument) failingAxe
           "<img src=x.jpg>" _ H1 H2).
Defined.

(** * Properties of the ARIA validator *)

Section ValidatorFacts.
Import Dom Aria.
Context {engine : DomEngine}.

Section Steps.
Variable P : ARIAValidationIssue -> Prop.
Hypothesis P_holds : forall i, notMultiple i -> P i.

Lemma Invariant_push (st : ValidationState) (i : ARIAValidationIssue) :
  Invariant P st -> notMultiple i -> Invariant P (pushIssue st i).
Proof.
  intros [Hi Hs] Hn. split; simpl; [|exact Hs].
  apply Forall_app. split; [exact Hi|].
  constructor; [now apply P_holds|constructor].
Qed.

Lemma validateRole_Invariant (self : ARIAValidator) (st : ValidationState)
    (el : Selected) :
  Invariant P st -> Invariant P (validateRole self st el).
Proof.
  intros Hinv. unfold validateRole. cbv zeta.
  set (role := match attr el "role" with
               | Some r => r
               | None => "undefined"
               end).
  assert (H0 : Invariant P (countARIAElement (addRoleUsed st role)))
    by exact Hinv.
  destruct (JSMap.get (roles self) role) as [roleSpec|].
  - assert (H1 : Invariant P
                   (fold_left (checkRequiredProperty el role)
                      (requiredProperties roleSpec)
                      (countARIAElement (addRoleUsed st role)))).
    { apply fold_left_invariant; [|exact H0].
      intros a prop Ha. unfold checkRequiredProperty.
      destruct (attr el prop); [exact Ha|].
      apply Invariant_push; [exact Ha|reflexivity]. }
    assert (H2 : Invariant P
                   (checkRequiredParent el role roleSpec
                      (fold_left (checkRequiredProperty el role)
                         (requiredProperties roleSpec)
                         (countARIAElement (addRoleUsed st role))))).
    { unfold checkRequiredParent.
      destruct (requiredParent roleSpec) as [parents|]; [|exact H1].
      destruct (negb _); [|exact H1].
      apply Invariant_push; [exact H1|reflexivity]. }
    exact H2.
  - apply Invariant_push; [exact H0|reflexivity].
Qed.

Lemma validateProperty_Invariant (doc : Document) (prop : string)
    (st st' : ValidationState) (el : Selected) :
  Invariant P st ->
  validateProperty doc prop (Normal st) el = Normal st' ->
  Invariant P st'.
Proof.
  intros Hinv. unfold validateProperty. cbn [bindC]. cbv zeta.
  assert (H0 : Invariant P (addPropertyUsed st prop)) by exact Hinv.
  assert (H1 : Invariant P
                 match attr el prop with
                 | Some EmptyString =>
                     pushIssue (addPropertyUsed st prop)
                       (mkIssue warning (excerpt el) (getSelector el)
                          ("Empty value for " ++ prop)%string
                          ("Provide a meaningful value for " ++ prop
                           ++ " or remove the attribute")%string
                          spec12 None None None)
                 | _ => addPropertyUsed st prop
                 end).
  { destruct (attr el prop) as [[|c v]|]; try exact H0.
    apply Invariant_push; [exact H0|reflexivity]. }
  destruct (attr el prop) as [[|c v]|];
    try (intros H; injection H as <-; exact H1).
  destruct (String.eqb prop "aria-labelledby");
    [|intros H; injection H as <-; exact H1].
  apply (fold_left_Completion_invariant (Invariant P)); [reflexivity| |exact H1].
  intros a id a' _ Ha. unfold checkReference. cbn [bindC].
  destruct (select doc ("#" ++ id)%string) as [n|e]; cbn [bindC];
    [|discriminate].
  destruct (n =? 0)%nat; intros H; injection H as <-; [|exact Ha].
  apply Invariant_push; [exact Ha|reflexivity].
Qed.

Lemma validateProperties_Invariant (self : ARIAValidator) (doc : Document)
    (st st' : ValidationState) :
  Invariant P st ->
  validateProperties self doc st = Normal st' ->
  Invariant P st'.
Proof.
  unfold validateProperties.
  apply (fold_left_Completion_invariant (Invariant P)
           (fun acc prop =>
              fold_left (validateProperty doc prop)
                (query doc (hasAttr prop)) acc)).
  - intros e prop. apply fold_left_Throw. reflexivity.
  - intros a prop a' _ Ha.
    apply (fold_left_Completion_invariant (Invariant P)
             (validateProperty doc prop));
      [reflexivity| |exact Ha].
    intros b el b' _ Hb. now apply validateProperty_Invariant.
Qed.

Lemma checkRedundant_Invariant (doc : Document) (st : ValidationState) :
  Invariant P st -> Invariant P (checkRedundant doc st).
Proof.
  unfold checkRedundant. apply fold_left_invariant.
  intros a el Ha. apply Invariant_push; [exact Ha|reflexivity].
Qed.

Lemma checkHidden_Invariant (doc : Document) (st : ValidationState) :
  Invariant P st -> Invariant P (checkHidden doc st).
Proof.
  unfold checkHidden. apply fold_left_invariant.
  intros a el Ha.
  destruct (matches el focusableSelectors
            || (0 <? List.length (find el focusableSelectors))%nat);
    [|exact Ha].
  apply Invariant_push; [exact Ha|reflexivity].
Qed.

(** The state of [validate] when it reaches the landmark loop. *)
Lemma before_landmarks_Invariant (self : ARIAValidator) (doc : Document)
    (st : ValidationState) :
  validateProperties self doc (validateRoles self doc initialState)
  = Normal st ->
  Invariant P (checkHidden doc (checkRedundant doc st)).
Proof.
  intros H.
  apply checkHidden_Invariant, checkRedundant_Invariant.
  eapply validateProperties_Invariant; [|exact H].
  unfold validateRoles. apply fold_left_invariant.
  - intros a el Ha. now apply validateRole_Invariant.
  - split; [constructor|reflexivity].
Qed.

End Steps.

Lemma checkLandmark_issues (doc : Document) (st : ValidationState)
    (landmark : string) :
  checkLandmark doc st landmark
  = mkState (stIssues st ++ landmarkIssues doc landmark) (stValidUsages st)
      (stStatistics st).
Proof.
  unfold checkLandmark, landmarkIssues, countRole. cbv zeta.
  destruct (1 <? List.length (query doc (attrEq "role" landmark)))%nat;
    simpl.
  - destruct (String.eqb_spec landmark "main") as [->|Hne].
    + reflexivity.
    + fold unlabeledB.
      change (fun el : Selected =>
                negb (attrTruthy el "aria-label")
                && negb (attrTruthy el "aria-labelledby"))
        with unlabeledB.
      destruct (0 <? List.length
                       (filter unlabeledB
                          (query doc (attrEq "role" landmark))))%nat;
        [reflexivity|].
      destruct st. simpl. now rewrite app_nil_r.
  - destruct st. simpl. now rewrite app_nil_r.
Qed.

Lemma checkLandmarks_issues (doc : Document) (st : ValidationState) :
  checkLandmarks doc st
  = mkState (stIssues st ++ flat_map (landmarkIssues doc) landmarks)
      (stValidUsages st) (stStatistics st).
Proof.
  unfold checkLandmarks. generalize landmarks as ls. intros ls. revert st.
  induction ls as [|l ls IH]; intros st; simpl.
  - destruct st. simpl. now rewrite app_nil_r.
  - rewrite IH, checkLandmark_issues. simpl. now rewrite app_assoc.
Qed.

(** What [validate] returns, in terms of the state before the landmark
    loop. *)
Lemma validateDocument_Normal (self : ARIAValidator) (doc : Document)
    (r : ARIAValidationResult) :
  validateDocument self doc = Normal r ->
  exists st,
    validateProperties self doc (validateRoles self doc initialState)
    = Normal st /\
    let before := checkHidden doc (checkRedundant doc st) in
    issues r
    = map enhanceIssue
        (stIssues before ++ flat_map (landmarkIssues doc) landmarks) /\
    statistics r = stStatistics before.
Proof.
  unfold validateDocument. cbv zeta.
  destruct (validateProperties self doc (validateRoles self doc initialState))
    as [st|e]; cbn [bindC]; [|discriminate].
  intros H. injection H as <-. exists st. split; [reflexivity|].
  rewrite checkLandmarks_issues. simpl. split; reflexivity.
Qed.

End ValidatorFacts.

Lemma prefix_append (p s : string) : String.prefix p (p ++ s) = true.
Proof.
  induction p as [|a p IH]; simpl.
  - now destruct s.
  - destruct (ascii_dec a a) as [_|Hne]; [exact IH|now elim Hne].
Qed.

Section LandmarkFacts.
Import Dom Aria.

Lemma enhanceIssue_filter (l : list ARIAValidationIssue) :
  filter isMainLandmarkError (map enhanceIssue l)
  = map enhanceIssue (filter isMainLandmarkError l).
Proof.
  induction l as [|i l IH]; [reflexivity|]. cbn [filter map].
  change (isMainLandmarkError (enhanceIssue i))
    with (isMainLandmarkError i).
  destruct (isMainLandmarkError i); cbn [map]; now rewrite IH.
Qed.

Lemma notMultiple_not_main (l : list ARIAValidationIssue) :
  Forall notMultiple l -> filter isMainLandmarkError l = [].
Proof.
  induction 1 as [|i l Hi _ IH]; [reflexivity|]. cbn [filter].
  unfold isMainLandmarkError at 1.
  destruct (String.eqb_spec (message i) "Multiple main landmarks found")
    as [E|_]; [|exact IH].
  unfold notMultiple in Hi. rewrite E in Hi. discriminate.
Qed.

Lemma labelled_not_main (landmark : string) :
  In landmark labelledLandmarks -> String.eqb landmark "main" = false.
Proof.
  intros [<-|[<-|[<-|[<-|[]]]]]; reflexivity.
Qed.

Lemma landmarkIssues_labelled (doc : Document) (landmark : string) :
  In landmark labelledLandmarks ->
  filter isMainLandmarkError (landmarkIssues doc landmark) = [] /\
  ((1 < countRole doc landmark)%nat ->
   landmarkIssues doc landmark
   = if (0 <? List.length
                (filter unlabeledB
                   (query doc (attrEq "role" landmark))))%nat
     then [unlabelledLandmarkWarning landmark]
     else []).
Proof.
  intros Hin. unfold landmarkIssues.
  rewrite (labelled_not_main landmark Hin). split.
  - destruct (1 <? countRole doc landmark)%nat; [|reflexivity].
    destruct (0 <? _)%nat; [|reflexivity].
    destruct Hin as [<-|[<-|[<-|[<-|[]]]]]; reflexivity.
  - intros Hc. apply Nat.ltb_lt in Hc. now rewrite Hc.
Qed.

Lemma landmarks_flat_map (doc : Document) :
  flat_map (landmarkIssues doc) landmarks
  = landmarkIssues doc "main"
    ++ flat_map (landmarkIssues doc) labelledLandmarks.
Proof. reflexivity. Qed.

Lemma labelled_main_filter (doc : Document) :
  filter isMainLandmarkError
    (flat_map (landmarkIssues doc) labelledLandmarks)
  = [].
Proof.
  assert (H : forall ls,
             (forall l, In l ls -> In l labelledLandmarks) ->
             filter isMainLandmarkError (flat_map (landmarkIssues doc) ls)
             = []).
  { induction ls as [|l ls IH]; simpl; intros Hls; [reflexivity|].
    rewrite filter_app, IH by (intros; apply Hls; now right).
    rewrite (proj1 (landmarkIssues_labelled doc l (Hls l (or_introl eq_refl)))).
    reflexivity. }
  apply H. tauto.
Qed.

Lemma attrTruthy_false (el : Selected) (a : string) :
  attrTruthy el a = false <-> attr el a = None \/ attr el a = Some "".
Proof.
  unfold attrTruthy. destruct (attr el a) as [[|c v]|]; simpl; split;
    intros H; try tauto; try discriminate;
    destruct H as [H|H]; discriminate.
Qed.

Lemma unlabeledB_lacksLabel (el : Selected) :
  unlabeledB el = true <-> lacksLabel el.
Proof.
  unfold unlabeledB, lacksLabel.
  rewrite andb_true_iff, !negb_true_iff, !attrTruthy_false. tauto.
Qed.

Lemma filter_nonempty {A : Type} (f : A -> bool) (l : list A) :
  (0 <? List.length (filter f l))%nat = true <->
  exists x, In x l /\ f x = true.
Proof.
  rewrite Nat.ltb_lt. split.
  - destruct (filter f l) as [|x r] eqn:E; simpl; [lia|]. intros _.
    exists x. apply filter_In. rewrite E. now left.
  - intros [x Hx]. apply filter_In in Hx.
    destruct (filter f l); [contradiction|simpl; lia].
Qed.

(** A warning with the message of one labelled landmark comes from the
    turn of the loop for that landmark. *)
Lemma landmarkWarning_origin (doc : Document) (landmark : string)
    (i : ARIAValidationIssue) :
  In landmark labelledLandmarks ->
  In i (flat_map (landmarkIssues doc) landmarks) ->
  landmarkWarning landmark i ->
  In i (landmarkIssues doc landmark).
Proof.
  intros Hl Hi [Htype Hmsg]. apply in_flat_map in Hi.
  destruct Hi as [l' [Hl' Hi]].
  assert (Hcase : i = mainLandmarkError \/ i = unlabelledLandmarkWarning l').
  { unfold landmarkIssues in Hi.
    destruct (1 <? countRole doc l')%nat; [|contradiction].
    destruct (String.eqb l' "main");
      [destruct Hi as [<-|[]]; now left|].
    destruct (0 <? _)%nat; [|contradiction].
    destruct Hi as [<-|[]]. now right. }
  destruct Hcase as [-> | ->]; [discriminate Htype|].
  assert (l' = landmark); [|now subst l'].
  simpl in Hmsg.
  destruct Hl as [<-|[<-|[<-|[<-|[]]]]];
    destruct Hl' as [<-|[<-|[<-|[<-|[<-|[]]]]]];
    first [reflexivity | cbn in Hmsg; discriminate Hmsg].
Qed.

End LandmarkFacts.

Section ValidatorTheorems.
Import Dom Aria.
Context {engine : DomEngine}.

(** C7 (amended): when more than one element carries [role="main"],
    [validate] files exactly one issue with the message
    ["Multiple main landmarks found"], and it is an error; for each of the
    roles navigation, complementary, banner and contentinfo, when more
    than one element carries the role, the warning about unlabelled
    landmarks of that role is filed if and only if one of these elements
    has no label, an [aria-label] or [aria-labelledby] attribute that is
    present but empty counting as absent. *)
Theorem landmark_uniqueness (self : ARIAValidator) (doc : Document)
    (r : ARIAValidationResult) :
  validateDocument self doc = Normal r ->
  ((1 < countRole doc "main")%nat ->
   exists i,
     filter isMainLandmarkError (issues r) = [i] /\ type i = error) /\
  (forall landmark,
      In landmark labelledLandmarks ->
      (1 < countRole doc landmark)%nat ->
      ((exists i, In i (issues r) /\ landmarkWarning landmark i) <->
       (exists el,
           In el (query doc (attrEq "role" landmark)) /\ lacksLabel el))).
Proof.
  intros Hrun.
  destruct (validateDocument_Normal self doc r Hrun)
    as (st & Hst & Hissues & _). cbv zeta in Hissues.
  pose proof (before_landmarks_Invariant notMultiple (fun i H => H)
                self doc st Hst) as [Hbefore _].
  set (before := stIssues (checkHidden doc (checkRedundant doc st))) in *.
  split.
  - intros Hmain. exists (enhanceIssue mainLandmarkError).
    split; [|reflexivity].
    rewrite Hissues, enhanceIssue_filter, filter_app.
    rewrite (notMultiple_not_main before Hbefore).
    rewrite landmarks_flat_map, filter_app, labelled_main_filter.
    unfold landmarkIssues at 1. apply Nat.ltb_lt in Hmain.
    rewrite Hmain. reflexivity.
  - intros landmark Hl Hcount.
    pose proof (proj2 (landmarkIssues_labelled doc landmark Hl) Hcount)
      as Hturn.
    split.
    + intros [i [Hi Hw]]. rewrite Hissues in Hi. apply in_map_iff in Hi.
      destruct Hi as [i0 [<- Hi0]].
      assert (Hw0 : landmarkWarning landmark i0) by exact Hw.
      apply in_app_or in Hi0. destruct Hi0 as [Hi0|Hi0].
      * exfalso. rewrite Forall_forall in Hbefore.
        specialize (Hbefore i0 Hi0). unfold notMultiple in Hbefore.
        destruct Hw0 as [_ Hmsg].
        rewrite Hmsg, prefix_append in Hbefore. discriminate Hbefore.
      * pose proof (landmarkWarning_origin doc landmark i0 Hl Hi0 Hw0)
          as Hin.
        rewrite Hturn in Hin.
        destruct (0 <? List.length
                         (filter unlabeledB
                            (query doc (attrEq "role" landmark))))%nat
          eqn:E; [|contradiction].
        apply filter_nonempty in E. destruct E as [el [Hel Hu]].
        exists el. split; [exact Hel|]. now apply unlabeledB_lacksLabel.
    + intros [el [Hel Hlack]].
      exists (enhanceIssue (unlabelledLandmarkWarning landmark)).
      split; [|split; reflexivity].
      rewrite Hissues. apply in_map. apply in_or_app. right.
      apply in_flat_map. exists landmark. split.
      * simpl. destruct Hl as [<-|[<-|[<-|[<-|[]]]]]; tauto.
      * rewrite Hturn.
        assert (E : (0 <? List.length
                           (filter unlabeledB
                              (query doc (attrEq "role" landmark))))%nat
                    = true).
        { apply filter_nonempty. exists el. split; [exact Hel|].
          now apply unlabeledB_lacksLabel. }
        rewrite E. now left.
Qed.

(** C10: the set [statistics.statesUsed] that [validate] returns is
    empty for every input, whatever state attributes the document
    carries: no step of the validation adds to it. *)
Theorem statesUsed_always_empty (self self' : ARIAValidator)
    (htmlText : string) (r : ARIAValidationResult) :
  validate self htmlText = (Normal r, self') ->
  statesUsed (statistics r) = JSSet.empty.
Proof.
  unfold validate. intros H. injection H as Hrun _.
  destruct (validateDocument_Normal self _ r Hrun) as (st & Hst & _ & Hstat).
  cbv zeta in Hstat. rewrite Hstat.
  exact (proj2 (before_landmarks_Invariant (fun _ => True)
                  (fun _ _ => I) self _ st Hst)).
Qed.

End ValidatorTheorems.

(** On two navigation landmarks whose [aria-label] is empty the
    validator files the warning although both elements carry the
    attribute. *)
Lemma emptyLabels_run :
  exists r,
    @Aria.validateDocument (sampleEngine emptyLabelsDocument)
      Aria.newValidator emptyLabelsDocument
    = Normal r /\
    (1 < countRole emptyLabelsDocument "navigation")%nat /\
    (exists i, In i (Aria.issues r) /\ landmarkWarning "navigation" i) /\
    ~ (exists el,
          In el (Dom.query emptyLabelsDocument
                   (Dom.attrEq "role" "navigation")) /\
          lacksLabelAttributes el).
Proof.
  eexists. split; [vm_compute; reflexivity|].
  split; [apply Nat.ltb_lt; reflexivity|]. split.
  - eexists. split; [do 2 right; left; reflexivity|].
    split; reflexivity.
  - intros [el [Hel [Hlabel _]]].
    destruct Hel as [<-|[<-|[]]]; discriminate Hlabel.
Qed.

(** C7, counterexample: the landmark rule as the specification words it
    fails on two navigation landmarks with an empty [aria-label]. *)
Lemma landmarkRuleAsStated_counterexample :
  ~ @landmarkRuleAsStated (sampleEngine emptyLabelsDocument)
      Aria.newValidator emptyLabelsDocument.
Proof.
  intros H.
  destruct emptyLabels_run as (r & Hrun & Hcount & Hwarn & Hnone).
  destruct (H r Hrun) as [_ Hb].
  apply Hnone.
  apply (Hb "navigation"); [now left|exact Hcount|exact Hwarn].
Qed.

Lemma landmark_uniqueness_witness :
  exists r,
    @Aria.validateDocument (sampleEngine twoMainsDocument) Aria.newValidator
      twoMainsDocument
    = Normal r /\
    (1 < countRole twoMainsDocument "main")%nat /\
    exists i,
      filter isMainLandmarkError (Aria.issues r) = [i] /\
      Aria.type i = Aria.error.
Proof.
  assert (Hcount : (1 < countRole twoMainsDocument "main")%nat)
    by (apply Nat.ltb_lt; reflexivity).
  eexists.
  refine ((fun Hrun =>
             conj Hrun
               (conj Hcount
                  (proj1 (@landmark_uniqueness (sampleEngine twoMainsDocument)
                            Aria.newValidator twoMainsDocument _ Hrun)
                     Hcount))) _).
  vm_compute. reflexivity.
Defined.

Lemma statesUsed_always_empty_witness :
  exists r,
    @Aria.validate (sampleEngine statesDocument) Aria.newValidator
      "<div role=checkbox aria-checked=true></div><div aria-hidden=true></div>"
    = (Normal r, Aria.newValidator) /\
    Aria.statesUsed (Aria.statistics r) = JSSet.empty.
Proof.
  eexists.
  refine ((fun Hrun =>
             conj Hrun
               (@statesUsed_always_empty (sampleEngine statesDocument)
                  Aria.newValidator Aria.newValidator _ _ Hrun)) _).
  vm_compute. reflexivity.
Defined.

(** * Scenarios *)

Example round_ties_up :
  JSNumber.Math_round 2.5%float = 3%float /\
  JSNumber.Math_round (-2.5)%float = (-2)%float /\
  Checker.percentage 1 8 = 13%float /\
  Checker.percentage 1 3 = 33%float /\
  Checker.percentage 2 3 = 67%float.
Proof. repeat split; vm_compute; reflexivity. Qed.

Example level_A_failure :
  levelOf
    (Checker.evaluateCompliance Checker.newChecker
       (resultWith ["WCAG 1.1.1"]) None)
  = "None".
Proof. vm_compute. reflexivity. Qed.

Example level_AA_failure :
  levelOf
    (Checker.evaluateCompliance Checker.newChecker
       (resultWith ["WCAG 1.4.3"]) None)
  = "A".
Proof. vm_compute. reflexivity. Qed.

Example no_failure_claims_AA :
  levelOf
    (Checker.evaluateCompliance Checker.newChecker (resultWith []) None)
  = "AA" /\
  levelOf
    (Checker.evaluateCompliance Checker.newChecker (resultWith [])
       (Some "A"))
  = "A" /\
  levelOf
    (Checker.evaluateCompliance Checker.newChecker (resultWith [])
       (Some "AAA"))
  = "AA".
Proof. repeat split; vm_compute; reflexivity. Qed.

Example level_above_target_is_ignored :
  levelOf
    (Checker.evaluateCompliance Checker.newChecker
       (resultWith ["WCAG 1.4.6"]) (Some "AA"))
  = "AA" /\
  levelOf
    (Checker.evaluateCompliance Checker.newChecker
       (resultWith ["WCAG 1.4.6"]) (Some "AAA"))
  = "AA".
Proof. repeat split; vm_compute; reflexivity. Qed.

Example heading_skip :
  Evaluator.headingsStructure headingsDocument
  = Normal
      [Types.mkIssue Types.warning "WCAG 1.3.1"
         "Heading levels should not skip (found h3 after h1)" (Some "S")
         (Some "h3") Types.WCAG (Some "A") (Some Types.moderate) None].
Proof. vm_compute. reflexivity. Qed.

Example checkbox_requires_checked :
  messagesOf
    (@Aria.validateDocument (sampleEngine checkboxDocument)
       Aria.newValidator checkboxDocument)
  = Normal
      [("Missing required property " ++ dq ++ "aria-checked" ++ dq
        ++ " for role=" ++ dq ++ "checkbox" ++ dq)%string].
Proof. vm_compute. reflexivity. Qed.

Example tab_needs_tablist :
  messagesOf
    (@Aria.validateDocument (sampleEngine tabDocument) Aria.newValidator
       tabDocument)
  = Normal
      [("Role " ++ dq ++ "tab" ++ dq
        ++ " must be contained within one of: tablist")%string] /\
  messagesOf
    (@Aria.validateDocument (sampleEngine tablistDocument)
       Aria.newValidator tablistDocument)
  = Normal [].
Proof. split; vm_compute; reflexivity. Qed.

Example two_main_landmarks :
  messagesOf
    (@Aria.validateDocument (sampleEngine twoMainsDocument)
       Aria.newValidator twoMainsDocument)
  = Normal
      [("Role " ++ dq ++ "tab" ++ dq
        ++ " must be contained within one of: tablist")%string;
       "Redundant ARIA role on main element";
       "Multiple main landmarks found"].
Proof. vm_compute. reflexivity. Qed.

(** A rule that throws rejects the promise of [evaluateHTML]: the lookup
    [requiredAttributes[role]] finds an inherited property for
    [role="constructor"]. *)
Example inherited_role_name_throws :
  fst (@Evaluator.evaluateHTML
         (sampleEngine [element "div" [("role", "constructor")] []])
         failingAxe "<div role=constructor></div>")
  = Throw "TypeError: requiredAttributes[role].forEach is not a function".
Proof. vm_compute. reflexivity. Qed.

(** * Further properties of the compliance calculator *)

Section MapLookup.
Context {V : Type}.

Lemma get_set_same (m : JSMap.t V) (k : string) (v : V) :
  JSMap.get (JSMap.set m k v) k = Some v.
Proof.
  induction m as [|[k' v'] m IH]; simpl.
  - now rewrite String.eqb_refl.
  - destruct (String.eqb_spec k' k) as [->|Hne]; simpl.
    + now rewrite String.eqb_refl.
    + destruct (String.eqb_spec k' k); [contradiction|exact IH].
Qed.

Lemma get_set_other (m : JSMap.t V) (k k' : string) (v : V) :
  k <> k' -> JSMap.get (JSMap.set m k v) k' = JSMap.get m k'.
Proof.
  intros Hne. induction m as [|[k0 v0] m IH]; simpl.
  - destruct (String.eqb_spec k k'); [contradiction|reflexivity].
  - destruct (String.eqb_spec k0 k) as [->|Hk0]; simpl.
    + destruct (String.eqb_spec k k'); [contradiction|reflexivity].
    + destruct (String.eqb k0 k'); [reflexivity|exact IH].
Qed.

Lemma get_In (m : JSMap.t V) (k : string) (v : V) :
  NoDup (JSMap.keys m) -> In (k, v) m -> JSMap.get m k = Some v.
Proof.
  induction m as [|[k' v'] m IH]; simpl; intros Hnd Hin; [contradiction|].
  inversion Hnd as [|? ? Hk Hm]; subst.
  destruct Hin as [E|Hin].
  - injection E as -> ->. now rewrite String.eqb_refl.
  - destruct (String.eqb_spec k' k) as [->|_]; [|now apply IH].
    exfalso. apply Hk. apply in_map_iff. now exists (k, v).
Qed.

End MapLookup.

Section ApplicableFacts.
Import Types Checker.

Lemma catalog_levels :
  forall c, In c catalog -> In (criterionLevel c) levelOrder.
Proof.
  intros c Hc. unfold catalog in Hc. simpl in Hc.
  repeat (destruct Hc as [<-|Hc]; [simpl; tauto|]). contradiction.
Qed.

Lemma levelIndex_order (L T : string) :
  In L levelOrder -> In T levelOrder ->
  ((JS.indexOf levelOrder L <=? JS.indexOf levelOrder T)%Z = true
   <-> LevelLe L T).
Proof.
  intros HL HT. simpl in HL, HT.
  destruct HL as [<-|[<-|[<-|[]]]]; destruct HT as [<-|[<-|[<-|[]]]];
    split; intros H;
    first [ constructor | reflexivity | discriminate H | inversion H ].
Qed.

Lemma filter_criteria_NoDup (p : string * WCAGCriterion -> bool) :
  NoDup (JSMap.keys (filter p (criteria newChecker))).
Proof.
  pose proof newChecker_keys_NoDup as Hnd. unfold JSMap.keys in *.
  induction (criteria newChecker) as [|e l IH]; simpl; [constructor|].
  inversion Hnd as [|? ? Hx Hl]; subst.
  destruct (p e); simpl; [|now apply IH].
  constructor; [|now apply IH].
  intros Hin. apply Hx. apply in_map_iff in Hin.
  destruct Hin as [e' [He' Hin]]. apply filter_In in Hin.
  apply in_map_iff. exists e'. tauto.
Qed.

Lemma applicable_entry (targetLevel : string)
    (applicable : JSMap.t WCAGCriterion) (k : string) (c : WCAGCriterion) :
  getApplicableCriteria newChecker targetLevel = Normal applicable ->
  (In (k, c) applicable <->
   k = id c /\ In c catalog /\ LevelLe (criterionLevel c) targetLevel).
Proof.
  intros H. apply getApplicable_Normal in H.
  destruct H as (HT & _ & ->).
  rewrite filter_In, newChecker_criteria, in_map_iff.
  unfold withinLevel. simpl. split.
  - intros [[c' [E Hc']] Hw]. injection E as <- <-.
    split; [reflexivity|]. split; [exact Hc'|].
    apply levelIndex_order; [now apply catalog_levels|exact HT|exact Hw].
  - intros (-> & Hc & Hle). split; [now exists c|].
    apply levelIndex_order; [now apply catalog_levels|exact HT|exact Hle].
Qed.

Lemma applicable_value (targetLevel : string)
    (applicable : JSMap.t WCAGCriterion) (c : WCAGCriterion) :
  getApplicableCriteria newChecker targetLevel = Normal applicable ->
  (In c (JSMap.values applicable) <->
   In c catalog /\ LevelLe (criterionLevel c) targetLevel).
Proof.
  intros H. unfold JSMap.values. rewrite in_map_iff. split.
  - intros [[k c'] [E Hin]]. simpl in E. subst c'.
    apply (applicable_entry _ _ _ _ H) in Hin. tauto.
  - intros [Hc Hle]. exists (id c, c). split; [reflexivity|].
    apply (applicable_entry _ _ _ _ H). tauto.
Qed.

(** X1: for a valid target level the applicable set is exactly the part
    of the catalog whose level is at most the target under [A < AA < AAA];
    it has no repetition, and each of its criteria is stored under its own
    id. *)
Theorem applicable_exact (targetLevel : string)
    (applicable : JSMap.t WCAGCriterion) :
  getApplicableCriteria newChecker targetLevel = Normal applicable ->
  In targetLevel levelOrder /\
  (forall c,
      In c (JSMap.values applicable) <->
      In c catalog /\ LevelLe (criterionLevel c) targetLevel) /\
  NoDup (JSMap.values applicable) /\
  (forall c,
      In c (JSMap.values applicable) ->
      JSMap.get applicable (id c) = Some c) /\
  (forall k c, In (k, c) applicable -> k = id c).
Proof.
  intros H.
  pose proof (getApplicable_Normal _ _ H) as (HT & _ & E).
  split; [exact HT|]. split; [|split; [|split]].
  - intros c. now apply applicable_value.
  - rewrite E. apply values_filter_NoDup.
  - intros c Hin. unfold JSMap.values in Hin. apply in_map_iff in Hin.
    destruct Hin as [[k c'] [Ec Hin]]. simpl in Ec. subst c'.
    pose proof (proj1 (applicable_entry _ _ k c H) Hin) as (-> & _).
    apply get_In; [|exact Hin]. rewrite E. apply filter_criteria_NoDup.
  - intros k c Hin. now apply (applicable_entry _ _ k c H) in Hin.
Qed.

End ApplicableFacts.

Lemma applicable_exact_witness :
  exists applicable,
    Checker.getApplicableCriteria Checker.newChecker "A" = Normal applicable
    /\
    List.length (JSMap.values applicable) = 8%nat /\
    NoDup (JSMap.values applicable).
Proof.
  eexists. split; [vm_compute; reflexivity|]. split; [reflexivity|].
  refine (proj1 (proj2 (proj2 (applicable_exact "A" _ _)))).
  vm_compute. reflexivity.
Defined.

Section ClassificationFacts.
Import Types Checker.

Lemma mapIssue_get (m : JSMap.t (list AccessibilityIssue))
    (issue : AccessibilityIssue) (k : string) :
  orEmpty (JSMap.get (mapIssue m issue) k)
  = orEmpty (JSMap.get m k) ++ issuesFor k [issue].
Proof.
  unfold mapIssue, issuesFor. simpl.
  destruct (JS.startsWith (rule issue) "WCAG"); simpl;
    [|now rewrite app_nil_r].
  set (key := JS.replace (rule issue) "WCAG " "").
  unfold JSMap.has.
  destruct (JSMap.get m key) as [found|] eqn:Eget; simpl.
  - rewrite Eget.
    destruct (String.eqb_spec key k) as [<-|Hne].
    + now rewrite get_set_same, Eget.
    + rewrite get_set_other by exact Hne. now rewrite app_nil_r.
  - rewrite get_set_same.
    destruct (String.eqb_spec key k) as [<-|Hne].
    + now rewrite get_set_same, Eget.
    + rewrite !get_set_other by exact Hne. now rewrite app_nil_r.
Qed.

(** The map built from the issues holds, under each key, the issues filed
    under it, in order. *)
Lemma criteriaIssues_get (l : list AccessibilityIssue)
    (m : JSMap.t (list AccessibilityIssue)) (k : string) :
  orEmpty (JSMap.get (fold_left mapIssue l m) k)
  = orEmpty (JSMap.get m k) ++ issuesFor k l.
Proof.
  revert m. induction l as [|issue l IH]; intros m.
  - simpl. now rewrite app_nil_r.
  - cbn [fold_left]. rewrite IH, mapIssue_get, <- app_assoc. f_equal.
    unfold issuesFor. simpl.
    destruct (JS.startsWith (rule issue) "WCAG"
              && String.eqb (JS.replace (rule issue) "WCAG " "") k);
      reflexivity.
Qed.

Lemma issuesFor_reported (er : EvaluationResult) (k : string) :
  (0 <? List.length (issuesFor k (issues er)))%nat = true
  <-> reportedUnder er k.
Proof.
  unfold issuesFor, reportedUnder. rewrite filter_nonempty. split.
  - intros [i [Hi Hc]]. apply andb_prop in Hc. destruct Hc as [Hs He].
    apply String.eqb_eq in He. now exists i.
  - intros [i (Hi & Hs & He)]. exists i. split; [exact Hi|].
    rewrite Hs, He. simpl. apply String.eqb_refl.
Qed.

Lemma isCriterionApplicable_spec (c : WCAGCriterion)
    (er : EvaluationResult) :
  isCriterionApplicable c er = true <-> hasPassedCheck er c.
Proof.
  unfold isCriterionApplicable, hasPassedCheck. cbv zeta.
  rewrite filter_nonempty. split.
  - intros [check [Hin H]]. exists check. split; [exact Hin|].
    now apply orb_prop in H.
  - intros [check [Hin H]]. exists check. split; [exact Hin|].
    apply orb_true_iff. exact H.
Qed.

Lemma classify_verdict (er : EvaluationResult)
    (ci : JSMap.t (list AccessibilityIssue)) (acc : Classification)
    (entry : string * WCAGCriterion) (v : Verdict) :
  classOf v (classify er ci acc entry)
  = classOf v acc
    ++ (if match verdictOf er ci entry, v with
           | Failed, Failed | Passed, Passed | NotTested, NotTested => true
           | _, _ => false
           end
        then [snd entry] else []).
Proof.
  destruct entry as [k c]. unfold classify, verdictOf, orEmpty. simpl.
  destruct (0 <? _)%nat; [|destruct (isCriterionApplicable c er)];
    destruct v; simpl; now rewrite ?app_nil_r.
Qed.

Lemma classify_fold_verdict (er : EvaluationResult)
    (ci : JSMap.t (list AccessibilityIssue))
    (entries : JSMap.t WCAGCriterion) (acc : Classification) (v : Verdict)
    (c : WCAGCriterion) :
  In c (classOf v (fold_left (classify er ci) entries acc)) <->
  In c (classOf v acc) \/
  exists k, In (k, c) entries /\ verdictOf er ci (k, c) = v.
Proof.
  revert acc. induction entries as [|[k0 c0] entries IH]; intros acc.
  - simpl. split; [tauto|]. intros [H|[k [[] _]]]. exact H.
  - cbn [fold_left]. rewrite IH, classify_verdict, in_app_iff.
    cbn [snd In]. split.
    + intros [[H|H]|[k [Hin Hv]]].
      * now left.
      * right. exists k0.
        destruct (verdictOf er ci (k0, c0)) eqn:E, v; simpl in H;
          try contradiction; destruct H as [<-|[]]; split; auto.
      * right. exists k. tauto.
    + intros [H|[k [[E|Hin] Hv]]].
      * left. now left.
      * injection E as -> ->. left. right. rewrite Hv.
        destruct v; now left.
      * right. exists k. tauto.
Qed.

(** X2: what decides the class of an applicable criterion: it is failed
    exactly when an issue is filed under its id, passed exactly when none
    is and a passed check names it, and not applicable exactly when
    neither holds. *)
Theorem classification_rule (er : EvaluationResult)
    (targetLevel : option string) (applicable : JSMap.t WCAGCriterion)
    (report : WCAGComplianceReport) (c : WCAGCriterion) :
  getApplicableCriteria newChecker (targetOrDefault targetLevel)
  = Normal applicable ->
  evaluateCompliance newChecker er targetLevel = Normal report ->
  In c (JSMap.values applicable) ->
  (In c (failedCriteria report) <-> reportedUnder er (id c)) /\
  (In c (passedCriteria report) <->
   ~ reportedUnder er (id c) /\ hasPassedCheck er c) /\
  (In c (notApplicableCriteria report) <->
   ~ reportedUnder er (id c) /\ ~ hasPassedCheck er c).
Proof.
  intros Happ Hrun Hc.
  destruct (evaluateCompliance_Normal er targetLevel report Hrun)
    as (applicable' & classes & Happ' & Hcl & Hp & Hf & Hn & _ & _).
  rewrite Happ in Happ'. injection Happ' as <-.
  assert (Hkey : forall k c0, In (k, c0) applicable -> k = id c0)
    by (intros k c0 Hin; now apply (applicable_entry _ _ k c0 Happ) in Hin).
  set (ci := fold_left mapIssue (issues er) JSMap.empty) in *.
  assert (Hclass : forall v,
             In c (classOf v classes) <-> verdictOf er ci (id c, c) = v).
  { intros v. rewrite Hcl, classify_fold_verdict. simpl. split.
    - intros [H|[k [Hin Hv]]]; [destruct v; contradiction|].
      now rewrite <- (Hkey k c Hin).
    - intros Hv. right. exists (id c). split; [|exact Hv].
      unfold JSMap.values in Hc. apply in_map_iff in Hc.
      destruct Hc as [[k c'] [E Hin]]. simpl in E. subst c'.
      now rewrite <- (Hkey k c Hin). }
  assert (Hrep : (0 <? List.length (orEmpty (JSMap.get ci (id c))))%nat
                 = true <-> reportedUnder er (id c)).
  { unfold ci. rewrite criteriaIssues_get. simpl.
    apply issuesFor_reported. }
  pose proof (isCriterionApplicable_spec c er) as Hpass.
  rewrite Hf, Hp, Hn.
  rewrite (Hclass Failed), (Hclass Passed), (Hclass NotTested).
  unfold verdictOf. cbn [fst snd].
  destruct (0 <? List.length (orEmpty (JSMap.get ci (id c))))%nat;
    destruct (isCriterionApplicable c er);
    destruct Hrep as [Hr1 Hr2]; destruct Hpass as [Hp1 Hp2];
    repeat split;
    intuition (try discriminate; try congruence).
Qed.

End ClassificationFacts.

Section LevelFacts.
Import Types Checker.

Lemma countLevel_pos (L : string) (cs : list WCAGCriterion) :
  (0 <? countLevel L cs)%nat = true
  <-> exists c, In c cs /\ criterionLevel c = L.
Proof.
  unfold countLevel. rewrite filter_nonempty. split.
  - intros [c [Hin H]]. apply String.eqb_eq in H. now exists c.
  - intros [c [Hin H]]. exists c. split; [exact Hin|].
    now apply String.eqb_eq.
Qed.

Lemma countLevel_zero (L : string) (cs : list WCAGCriterion) :
  (0 <? countLevel L cs)%nat = false
  <-> forall c, In c cs -> criterionLevel c <> L.
Proof.
  split.
  - intros H c Hin E.
    assert (Hpos : (0 <? countLevel L cs)%nat = true)
      by (apply countLevel_pos; now exists c).
    rewrite H in Hpos. discriminate.
  - intros H. destruct (0 <? countLevel L cs)%nat eqn:E; [|reflexivity].
    apply countLevel_pos in E. destruct E as [c [Hin Hc]].
    now elim (H c Hin).
Qed.

(** [calculateComplianceLevel] for a valid target, as one cascade of
    tests. *)
Lemma complianceLevel_table (passed failed : list WCAGCriterion)
    (T : string) :
  In T levelOrder ->
  calculateComplianceLevel passed failed T
  = if (0 <? countLevel "A" failed)%nat then "None"
    else if JS.stringGe T "AA" && (0 <? countLevel "AA" failed)%nat
    then "A"
    else if String.eqb T "AAA" && (0 <? countLevel "AAA" failed)%nat
    then "AA"
    else if String.eqb T "AAA" && (0 <? countLevel "AAA" passed)%nat
            && (0 <? countLevel "AA" passed)%nat
            && (0 <? countLevel "A" passed)%nat
    then "AAA"
    else if JS.stringGe T "AA" && (0 <? countLevel "AA" passed)%nat
            && (0 <? countLevel "A" passed)%nat
    then "AA"
    else if (0 <? countLevel "A" passed)%nat then "A"
    else "None".
Proof.
  intros HT. simpl in HT.
  destruct HT as [<-|[<-|[<-|[]]]];
    unfold calculateComplianceLevel; cbv zeta;
    change (JS.indexOf levelOrder "A") with 0%Z;
    change (JS.indexOf levelOrder "AA") with 1%Z;
    change (JS.indexOf levelOrder "AAA") with 2%Z;
    change (Z.to_nat (0 + 1)) with 1%nat;
    change (Z.to_nat (1 + 1)) with 2%nat;
    change (Z.to_nat (2 + 1)) with 3%nat;
    cbn [seq failureLoop nth levelOrder];
    fold (countLevel "A" failed); fold (countLevel "AA" failed);
    fold (countLevel "AAA" failed);
    change (String.eqb "A" "A") with true;
    change (String.eqb "AA" "A") with false;
    change (String.eqb "AA" "AA") with true;
    change (String.eqb "AAA" "A") with false;
    change (String.eqb "AAA" "AA") with false;
    change (String.eqb "AAA" "AAA") with true;
    change (String.eqb "A" "AAA") with false;
    change (String.eqb "AA" "AAA") with false;
    change (JS.stringGe "A" "AA") with false;
    change (JS.stringGe "AA" "AA") with true;
    change (JS.stringGe "AAA" "AA") with true;
    cbn [andb];
    destruct (0 <? countLevel "A" failed)%nat;
    destruct (0 <? countLevel "AA" failed)%nat;
    destruct (0 <? countLevel "AAA" failed)%nat;
    reflexivity.
Qed.

(** What a returned report was computed from. *)
Lemma report_origin (er : EvaluationResult) (targetLevel : option string)
    (report : WCAGComplianceReport) :
  evaluateCompliance newChecker er targetLevel = Normal report ->
  In (targetOrDefault targetLevel) levelOrder /\
  reportLevel report
  = calculateComplianceLevel (passedCriteria report)
      (failedCriteria report) (targetOrDefault targetLevel) /\
  (forall c,
      In c (passedCriteria report) \/ In c (failedCriteria report) ->
      In c catalog /\
      LevelLe (criterionLevel c) (targetOrDefault targetLevel)).
Proof.
  intros Hrun.
  destruct (evaluateCompliance_Normal er targetLevel report Hrun)
    as (applicable & classes & Happ & Hcl & Hp & Hf & Hn & Hl & _).
  pose proof (getApplicable_Normal _ _ Happ) as (HT & _ & _).
  split; [exact HT|]. split; [now rewrite Hp, Hf|].
  intros c Hc. apply (applicable_value _ _ c Happ).
  pose proof (classify_fold er
                (fold_left mapIssue (issues er) JSMap.empty) applicable
                (mkClassification [] [] [])) as Hperm.
  cbv zeta in Hperm. rewrite <- Hcl in Hperm. simpl in Hperm.
  apply (Permutation_in c Hperm). rewrite <- Hp, <- Hf.
  apply in_or_app. destruct Hc as [Hc|Hc]; [now left|right].
  apply in_or_app. now left.
Qed.

(** X3: the level of a report is ["None"] or a level that is at most the
    target: a report never claims more than was asked for. *)
Theorem level_within_target (er : EvaluationResult)
    (targetLevel : option string) (report : WCAGComplianceReport) :
  evaluateCompliance newChecker er targetLevel = Normal report ->
  reportLevel report = "None" \/
  LevelLe (reportLevel report) (targetOrDefault targetLevel).
Proof.
  intros Hrun.
  destruct (report_origin er targetLevel report Hrun) as (HT & -> & _).
  rewrite (complianceLevel_table _ _ _ HT). simpl in HT.
  destruct HT as [<-|[<-|[<-|[]]]];
    change (JS.stringGe "A" "AA") with false;
    change (JS.stringGe "AA" "AA") with true;
    change (JS.stringGe "AAA" "AA") with true;
    change (String.eqb "A" "AAA") with false;
    change (String.eqb "AA" "AAA") with false;
    change (String.eqb "AAA" "AAA") with true;
    cbn [andb];
    repeat match goal with
           | |- context [if ?b then _ else _] => destruct b
           end;
    first [ now left | right; constructor ].
Qed.

End LevelFacts.

Section TargetFacts.
Import Types Checker.

Lemma level_is_target (passed failed : list WCAGCriterion) (T : string) :
  In T levelOrder ->
  (calculateComplianceLevel passed failed T = T <->
   forall L,
     LevelLe L T ->
     (0 <? countLevel L failed)%nat = false /\
     (0 <? countLevel L passed)%nat = true).
Proof.
  intros HT. rewrite (complianceLevel_table _ _ _ HT). simpl in HT.
  destruct HT as [<-|[<-|[<-|[]]]];
    change (JS.stringGe "A" "AA") with false;
    change (JS.stringGe "AA" "AA") with true;
    change (JS.stringGe "AAA" "AA") with true;
    change (String.eqb "A" "AAA") with false;
    change (String.eqb "AA" "AAA") with false;
    change (String.eqb "AAA" "AAA") with true;
    cbn [andb];
    destruct (0 <? countLevel "A" failed)%nat eqn:EfA;
    destruct (0 <? countLevel "AA" failed)%nat eqn:EfAA;
    destruct (0 <? countLevel "AAA" failed)%nat eqn:EfAAA;
    destruct (0 <? countLevel "A" passed)%nat eqn:EpA;
    destruct (0 <? countLevel "AA" passed)%nat eqn:EpAA;
    destruct (0 <? countLevel "AAA" passed)%nat eqn:EpAAA;
    cbn [andb];
    (split;
     [ intros H; try discriminate H;
       intros L HL; inversion HL; subst; split; assumption
     | intros H;
       try (pose proof (H "A" ltac:(constructor)) as [? ?]);
       try (pose proof (H "AA" ltac:(constructor)) as [? ?]);
       try (pose proof (H "AAA" ltac:(constructor)) as [? ?]);
       first [ reflexivity | congruence ] ]).
Qed.

Lemma no_failure_at_levels (failed : list WCAGCriterion) (T : string) :
  (forall c, In c failed -> LevelLe (criterionLevel c) T) ->
  (forall L, LevelLe L T -> (0 <? countLevel L failed)%nat = false) ->
  failed = [].
Proof.
  intros Hlev Hnone. destruct failed as [|c rest]; [reflexivity|].
  exfalso.
  pose proof (Hnone _ (Hlev c (or_introl eq_refl))) as Hz.
  apply (proj1 (countLevel_zero _ _) Hz c); [now left|reflexivity].
Qed.

(** X4: the level of a report is the target level exactly when no
    criterion failed and, at every level up to the target, some criterion
    passed. *)
Theorem target_met_iff (er : EvaluationResult)
    (targetLevel : option string) (report : WCAGComplianceReport) :
  evaluateCompliance newChecker er targetLevel = Normal report ->
  (reportLevel report = targetOrDefault targetLevel <->
   failedCriteria report = [] /\
   forall L,
     LevelLe L (targetOrDefault targetLevel) ->
     exists c, In c (passedCriteria report) /\ criterionLevel c = L).
Proof.
  intros Hrun.
  destruct (report_origin er targetLevel report Hrun) as (HT & -> & Hlev).
  rewrite (level_is_target _ _ _ HT). split.
  - intros H. split.
    + apply (no_failure_at_levels _ (targetOrDefault targetLevel)).
      * intros c Hc. apply Hlev. now right.
      * intros L HL. apply (H L HL).
    + intros L HL. apply countLevel_pos. apply (H L HL).
  - intros [Hf Hp] L HL. split.
    + rewrite Hf. reflexivity.
    + apply countLevel_pos. now apply Hp.
Qed.

(** X5: the cascade of failures.  With no failed criterion of level A, a
    failed criterion of level AA gives the level ["A"], and with none of
    level AA either a failed criterion of level AAA gives ["AA"], in
    both cases whatever passed and even when nothing did. *)
Theorem failure_cascade (er : EvaluationResult)
    (targetLevel : option string) (report : WCAGComplianceReport) :
  evaluateCompliance newChecker er targetLevel = Normal report ->
  (forall c, In c (failedCriteria report) -> criterionLevel c <> "A") ->
  ((exists c, In c (failedCriteria report) /\ criterionLevel c = "AA") ->
   reportLevel report = "A") /\
  ((forall c, In c (failedCriteria report) -> criterionLevel c <> "AA") ->
   (exists c, In c (failedCriteria report) /\ criterionLevel c = "AAA") ->
   reportLevel report = "AA").
Proof.
  intros Hrun HnoA.
  destruct (report_origin er targetLevel report Hrun) as (HT & -> & Hlev).
  rewrite (complianceLevel_table _ _ _ HT).
  rewrite (proj2 (countLevel_zero "A" _) HnoA).
  split.
  - intros [c [Hc HAA]].
    assert (Hle : LevelLe "AA" (targetOrDefault targetLevel))
      by (rewrite <- HAA; apply Hlev; now right).
    assert (Hpos : (0 <? countLevel "AA" (failedCriteria report))%nat = true)
      by (apply countLevel_pos; now exists c).
    rewrite Hpos. inversion Hle; reflexivity.
  - intros HnoAA [c [Hc HAAA]].
    assert (Hle : LevelLe "AAA" (targetOrDefault targetLevel))
      by (rewrite <- HAAA; apply Hlev; now right).
    rewrite (proj2 (countLevel_zero "AA" _) HnoAA).
    assert (Hpos : (0 <? countLevel "AAA" (failedCriteria report))%nat
                   = true)
      by (apply countLevel_pos; now exists c).
    rewrite Hpos. inversion Hle. reflexivity.
Qed.

End TargetFacts.

Section ScoreFacts.
Import Types Checker.

Lemma In_pairsUpTo (n p f : nat) :
  (p + f <= n)%nat -> In (p, f) (pairsUpTo n).
Proof.
  intros H. unfold pairsUpTo. apply in_flat_map. exists p. split.
  - apply in_seq. lia.
  - apply in_map. apply in_seq. lia.
Qed.

(** The checks hold for all the counts a 15-entry catalog allows. *)
Lemma scoreTable_holds : forallb scoreCheck (pairsUpTo 15) = true.
Proof. vm_compute. reflexivity. Qed.

Lemma scoreTable_entry (p f : nat) :
  (p + f <= 15)%nat ->
  (forall f0, (f0 <= f)%nat ->
              PrimFloat.leb (scoreOf p f) (scoreOf p f0) = true) /\
  (forall p0, (p0 <= p)%nat ->
              PrimFloat.leb (scoreOf p0 f) (scoreOf p f) = true) /\
  PrimFloat.eqb (scoreOf p f) 100%float = ((f =? 0)%nat && (0 <? p)%nat) /\
  PrimFloat.eqb (scoreOf p f) 0%float = (p =? 0)%nat.
Proof.
  intros H.
  pose proof (proj1 (forallb_forall scoreCheck (pairsUpTo 15))
                scoreTable_holds (p, f) (In_pairsUpTo _ _ _ H)) as Ht.
  unfold scoreCheck in Ht.
  apply andb_prop in Ht. destruct Ht as [Ht H0].
  apply andb_prop in Ht. destruct Ht as [Ht H100].
  apply andb_prop in Ht. destruct Ht as [Hf Hp].
  rewrite forallb_forall in Hf, Hp.
  split; [|split; [|split]].
  - intros f0 Hle. apply Hf. apply in_seq. lia.
  - intros p0 Hle. apply Hp. apply in_seq. lia.
  - now apply Bool.eqb_prop.
  - now apply Bool.eqb_prop.
Qed.

Lemma overallScore_counts (passed failed : list WCAGCriterion) :
  calculateOverallScore passed failed
  = scoreOf (List.length passed) (List.length failed).
Proof. reflexivity. Qed.

(** X6: the overall score is monotone in the counts, for the numbers of
    criteria the catalog allows: further failed criteria never raise it
    and further passed criteria never lower it. *)
Theorem overallScore_monotone (passed failed more : list WCAGCriterion) :
  (List.length passed + List.length failed + List.length more <= 15)%nat ->
  PrimFloat.leb (calculateOverallScore passed (failed ++ more))
    (calculateOverallScore passed failed)
  = true /\
  PrimFloat.leb (calculateOverallScore passed failed)
    (calculateOverallScore (passed ++ more) failed)
  = true.
Proof.
  intros H. rewrite !overallScore_counts, !length_app. split.
  - assert (Hb : (List.length passed
                  + (List.length failed + List.length more) <= 15)%nat)
      by lia.
    apply (proj1 (scoreTable_entry _ _ Hb)). lia.
  - assert (Hb : (List.length passed + List.length more
                  + List.length failed <= 15)%nat)
      by lia.
    apply (proj1 (proj2 (scoreTable_entry _ _ Hb))). lia.
Qed.

Lemma percentage_range (p f : nat) :
  (p + f <= 15)%nat -> (p + f =? 0)%nat = false ->
  isPercentage (percentage p (p + f)).
Proof.
  intros Hle Hz. rewrite (percentage_exact p f Hle Hz).
  apply Nat.eqb_neq in Hz. eexists. split; [|reflexivity].
  unfold roundHalfUp. split.
  - apply Z.div_pos; lia.
  - assert (H : ((2 * (100 * Z.of_nat p) + Z.of_nat (p + f))
                 / (2 * Z.of_nat (p + f)) < 101)%Z)
      by (apply Z.div_lt_upper_bound; lia).
    lia.
Qed.

Lemma zero_isPercentage : isPercentage PrimFloat.zero.
Proof. exists 0%Z. split; [lia|reflexivity]. Qed.

Lemma report_scores (er : EvaluationResult) (targetLevel : option string)
    (report : WCAGComplianceReport) :
  evaluateCompliance newChecker er targetLevel = Normal report ->
  (List.length (passedCriteria report)
   + List.length (failedCriteria report) <= 15)%nat /\
  overallScore report
  = calculateOverallScore (passedCriteria report) (failedCriteria report) /\
  detailedScores report
  = calculateDetailedScores (passedCriteria report) (failedCriteria report).
Proof.
  intros Hrun.
  destruct (evaluateCompliance_Normal er targetLevel report Hrun)
    as (applicable & classes & Happ & Hcl & Hp & Hf & Hn & _ & Hscore).
  split; [|split].
  - pose proof (classify_fold er
                  (fold_left mapIssue (issues er) JSMap.empty) applicable
                  (mkClassification [] [] [])) as Hperm.
    cbv zeta in Hperm. rewrite <- Hcl in Hperm. simpl in Hperm.
    apply Permutation_length in Hperm.
    rewrite !length_app in Hperm. unfold JSMap.values in Hperm.
    rewrite length_map in Hperm.
    apply getApplicable_Normal in Happ. destruct Happ as (_ & _ & Happ).
    pose proof (applicable_length
                  (JS.indexOf levelOrder (targetOrDefault targetLevel))) as Hle.
    rewrite <- Happ in Hle. rewrite Hp, Hf. lia.
  - now rewrite Hp, Hf.
  - clear - Hrun. unfold evaluateCompliance in Hrun.
    destruct (getApplicableCriteria newChecker (targetOrDefault targetLevel));
      simpl in Hrun; [|discriminate].
    injection Hrun as <-. reflexivity.
Qed.

Lemma principleScore_range (p : string) (passed failed : list WCAGCriterion) :
  (List.length passed + List.length failed <= 15)%nat ->
  isPercentage (principleScore p passed failed).
Proof.
  intros H. unfold principleScore. cbv zeta.
  assert (Hp : (countPrinciple p passed <= List.length passed)%nat)
    by apply filter_length_le.
  assert (Hf : (countPrinciple p failed <= List.length failed)%nat)
    by apply filter_length_le.
  destruct (0 <? countPrinciple p passed + countPrinciple p failed)%nat
    eqn:E; [|apply zero_isPercentage].
  apply percentage_range; [lia|].
  apply Nat.ltb_lt in E. apply Nat.eqb_neq. lia.
Qed.

(** X7: every score of a report, the overall score and the score of each
    of the four principles, is a whole number between 0 and 100. *)
Theorem scores_are_percentages (er : EvaluationResult)
    (targetLevel : option string) (report : WCAGComplianceReport) :
  evaluateCompliance newChecker er targetLevel = Normal report ->
  isPercentage (overallScore report) /\
  isPercentage (perceivable (detailedScores report)) /\
  isPercentage (operable (detailedScores report)) /\
  isPercentage (understandable (detailedScores report)) /\
  isPercentage (robust (detailedScores report)).
Proof.
  intros Hrun.
  destruct (report_scores er targetLevel report Hrun) as (Hb & -> & ->).
  split.
  - unfold calculateOverallScore. cbv zeta.
    destruct (List.length (passedCriteria report)
              + List.length (failedCriteria report) =? 0)%nat eqn:E;
      [apply zero_isPercentage|].
    now apply percentage_range.
  - unfold calculateDetailedScores. simpl.
    repeat split; now apply principleScore_range.
Qed.

(** X8: the overall score of a report is 100 exactly when no criterion
    failed and at least one passed, and it is 0 exactly when none
    passed. *)
Theorem overallScore_extremes (er : EvaluationResult)
    (targetLevel : option string) (report : WCAGComplianceReport) :
  evaluateCompliance newChecker er targetLevel = Normal report ->
  (overallScore report = 100%float <->
   failedCriteria report = [] /\ passedCriteria report <> []) /\
  (overallScore report = 0%float <-> passedCriteria report = []).
Proof.
  intros Hrun.
  destruct (report_scores er targetLevel report Hrun) as (Hb & -> & _).
  rewrite overallScore_counts.
  destruct (scoreTable_entry _ _ Hb) as (_ & _ & H100 & H0).
  assert (Hexact :
            scoreOf (List.length (passedCriteria report))
              (List.length (failedCriteria report))
            = expectedScore (List.length (passedCriteria report))
                (List.length (failedCriteria report))).
  { unfold scoreOf, expectedScore.
    destruct (List.length (passedCriteria report)
              + List.length (failedCriteria report) =? 0)%nat eqn:E;
      [reflexivity|].
    now apply percentage_exact. }
  split; split.
  - intros H. rewrite H in H100.
    change (PrimFloat.eqb 100 100) with true in H100.
    symmetry in H100. apply andb_prop in H100. destruct H100 as [Hf Hp].
    apply Nat.eqb_eq in Hf. apply Nat.ltb_lt in Hp. split.
    + now apply length_zero_iff_nil.
    + intros E. rewrite E in Hp. simpl in Hp. lia.
  - intros [Hf Hp]. rewrite Hexact, Hf. simpl List.length.
    assert (Hn : (0 < List.length (passedCriteria report))%nat)
      by (destruct (passedCriteria report); [now elim Hp|simpl; lia]).
    generalize dependent (List.length (passedCriteria report)).
    intros n _ _ _ _ Hn.
    unfold expectedScore. rewrite Nat.add_0_r.
    destruct (Nat.eqb_spec n 0) as [E|_]; [lia|].
    replace (roundHalfUp (100 * Z.of_nat n) (Z.of_nat n)) with 100%Z;
      [reflexivity|].
    unfold roundHalfUp.
    apply Z.div_unique with (r := Z.of_nat n); lia.
  - intros H. rewrite H in H0.
    change (PrimFloat.eqb 0 0) with true in H0.
    symmetry in H0. apply Nat.eqb_eq in H0.
    now apply length_zero_iff_nil.
  - intros Hp. rewrite Hexact, Hp. unfold expectedScore.
    cbn [List.length Nat.add].
    destruct (Nat.eqb_spec (List.length (failedCriteria report)) 0)
      as [_|Hpos]; [reflexivity|].
    assert (R : roundHalfUp (100 * Z.of_nat 0)
                  (Z.of_nat (List.length (failedCriteria report)))
                = 0%Z)
      by (unfold roundHalfUp; apply Z.div_small; lia).
    rewrite R. reflexivity.
Qed.

End ScoreFacts.

Section IrrelevantIssues.
Import Types Checker.

Lemma fold_left_ext_in {A B : Type} (f g : A -> B -> A) (l : list B) :
  (forall a b, In b l -> f a b = g a b) ->
  forall a, fold_left f l a = fold_left g l a.
Proof.
  induction l as [|b l IH]; simpl; intros H a; [reflexivity|].
  rewrite (H a b (or_introl eq_refl)). apply IH.
  intros a' b' Hb'. apply H. now right.
Qed.

Lemma issuesFor_relevant (ids : list string) (k : string)
    (l : list AccessibilityIssue) :
  In k ids -> issuesFor k (filter (relevantIssue ids) l) = issuesFor k l.
Proof.
  intros Hk. unfold issuesFor. induction l as [|i l IH]; [reflexivity|].
  cbn [filter].
  destruct (JS.startsWith (rule i) "WCAG"
            && String.eqb (JS.replace (rule i) "WCAG " "") k) eqn:E.
  - assert (Hrel : relevantIssue ids i = true).
    { apply andb_prop in E. destruct E as [Es Ek].
      apply String.eqb_eq in Ek. unfold relevantIssue. rewrite Es, Ek.
      simpl. unfold JS.arrayIncludes. apply existsb_exists.
      exists k. split; [exact Hk|apply String.eqb_refl]. }
    rewrite Hrel. cbn [filter]. rewrite E, IH. reflexivity.
  - destruct (relevantIssue ids i); cbn [filter]; rewrite ?E; exact IH.
Qed.

(** X9: the report depends on the issues of the evaluation only through
    those filed under an applicable criterion: issues whose rule does not
    begin with [WCAG], and issues filed under a criterion above the target
    level or outside the catalog, change nothing in it. *)
Theorem irrelevant_issues_ignored (er : EvaluationResult)
    (targetLevel : option string) (applicable : JSMap.t WCAGCriterion) :
  getApplicableCriteria newChecker (targetOrDefault targetLevel)
  = Normal applicable ->
  evaluateCompliance newChecker
    (withIssues (relevantIssue (JSMap.keys applicable)) er) targetLevel
  = evaluateCompliance newChecker er targetLevel.
Proof.
  intros Happ. unfold evaluateCompliance. cbv zeta. rewrite Happ.
  cbn [bindC].
  assert (Hfold :
            fold_left
              (classify
                 (withIssues (relevantIssue (JSMap.keys applicable)) er)
                 (fold_left mapIssue
                    (issues
                       (withIssues (relevantIssue (JSMap.keys applicable))
                          er))
                    JSMap.empty))
              applicable (mkClassification [] [] [])
            = fold_left
                (classify er (fold_left mapIssue (issues er) JSMap.empty))
                applicable (mkClassification [] [] [])).
  { apply fold_left_ext_in. intros acc [k c] Hin. unfold classify.
    change (isCriterionApplicable c
              (withIssues (relevantIssue (JSMap.keys applicable)) er))
      with (isCriterionApplicable c er).
    match goal with
    | |- context [match JSMap.get ?m k with
                  | Some found => found
                  | None => []
                  end] =>
        change (match JSMap.get m k with
                | Some found => found
                | None => []
                end)
          with (orEmpty (JSMap.get m k))
    end.
    match goal with
    | |- context [match JSMap.get ?m k with
                  | Some found => found
                  | None => []
                  end] =>
        change (match JSMap.get m k with
                | Some found => found
                | None => []
                end)
          with (orEmpty (JSMap.get m k))
    end.
    rewrite !criteriaIssues_get. cbn [orEmpty JSMap.get JSMap.empty app].
    unfold withIssues. cbn [issues].
    rewrite issuesFor_relevant; [reflexivity|].
    unfold JSMap.keys. apply in_map_iff. now exists (k, c). }
  rewrite Hfold. reflexivity.
Qed.

End IrrelevantIssues.

(** * Further properties of the rule engine *)

Section RunFacts.
Import Types Dom Evaluator.
Context {engine : DomEngine}.

Lemma runRules_passed (doc : Document) (prefix : string)
    (registry : JSMap.t Rule) (st st' : Collected) :
  runRules doc prefix registry (Normal st) = Normal st' ->
  collectedPassed st' = collectedPassed st ++ passedLabels doc prefix registry.
Proof.
  unfold runRules, passedLabels. revert st.
  induction registry as [|[ruleName rule] registry IH]; intros st H.
  - simpl in *. injection H as <-. now rewrite app_nil_r.
  - cbn [fold_left flat_map fst snd] in *. unfold runRule at 2 in H.
    cbn [bindC] in H.
    destruct (rule doc) as [[|i ruleIssues]|e]; cbn [bindC] in H.
    + cbn [List.length Nat.eqb] in H. rewrite (IH _ H). simpl.
      now rewrite <- app_assoc.
    + cbn [List.length Nat.eqb] in H. rewrite (IH _ H). reflexivity.
    + rewrite fold_left_Throw in H by reflexivity. discriminate.
Qed.

Lemma runRules_collected (doc : Document) (prefix : string)
    (registry : JSMap.t Rule) (st st' : Collected) :
  runRules doc prefix registry (Normal st) = Normal st' ->
  collect doc registry (Normal (collectedIssues st))
  = Normal (collectedIssues st').
Proof.
  unfold runRules, collect. revert st.
  induction registry as [|[ruleName rule] registry IH]; intros st H.
  - simpl in *. now injection H as <-.
  - cbn [fold_left snd] in *. unfold runRule at 2 in H.
    cbn [bindC] in *.
    destruct (rule doc) as [ruleIssues|e]; cbn [bindC] in *.
    + destruct (List.length ruleIssues =? 0)%nat eqn:E.
      * apply Nat.eqb_eq in E. apply length_zero_iff_nil in E. subst.
        rewrite app_nil_r. exact (IH _ H).
      * exact (IH _ H).
    + rewrite fold_left_Throw in H by reflexivity. discriminate.
Qed.

End RunFacts.

Section EvaluateFacts.
Import Types Dom Evaluator.
Context {engine : DomEngine} {axe : AxeEngine}.

(** What a resolved run of [evaluateHTML] returns. *)
Lemma evaluateHTML_Normal (htmlText : string) (r : EvaluationResult)
    (log : list string) :
  evaluateHTML htmlText = (Normal r, log) ->
  exists found,
    allRuleIssues (cheerio_load htmlText) = Normal found /\
    issues r = map enhanceIssue (found ++ axeContribution htmlText) /\
    summary r = summarize (issues r) /\
    passedChecks r
    = passedLabels (cheerio_load htmlText) "WCAG: " wcagRules
      ++ passedLabels (cheerio_load htmlText) "ARIA: " ariaRules.
Proof.
  unfold evaluateHTML. cbv zeta.
  destruct (runRules (cheerio_load htmlText) "WCAG: " wcagRules
              (Normal (mkCollected [] []))) as [st1|e1] eqn:E1.
  - destruct (runRules (cheerio_load htmlText) "ARIA: " ariaRules
                (Normal st1)) as [st2|e2] eqn:E2; [|discriminate].
    pose proof (runRules_passed _ _ _ _ _ E1) as P1.
    pose proof (runRules_passed _ _ _ _ _ E2) as P2.
    pose proof (runRules_collected _ _ _ _ _ E1) as C1.
    pose proof (runRules_collected _ _ _ _ _ E2) as C2.
    cbn [collectedPassed collectedIssues app] in P1, C1.
    assert (Hall : allRuleIssues (cheerio_load htmlText)
                   = Normal (collectedIssues st2)).
    { unfold allRuleIssues, collect in *. rewrite fold_left_app.
      rewrite C1. exact C2. }
    unfold axeContribution.
    destruct (runAxeCore htmlText) as [[found|e] axeLog];
      cbn [fst]; intros H; injection H as <- _;
      exists (collectedIssues st2);
      (split; [exact Hall|]); cbn [issues summary passedChecks];
      rewrite ?app_nil_r, P2, P1; repeat split; reflexivity.
  - unfold runRules at 1. rewrite fold_left_Throw by reflexivity.
    discriminate.
Qed.

End EvaluateFacts.

Section RejectionFacts.
Import Types Dom Evaluator.
Context {engine : DomEngine}.

Lemma runRules_Throw (doc : Document) (prefix : string)
    (registry : JSMap.t Rule) (st : Collected) (e : string) :
  runRules doc prefix registry (Normal st) = Throw e ->
  collect doc registry (Normal (collectedIssues st)) = Throw e.
Proof.
  unfold runRules, collect. revert st.
  induction registry as [|[ruleName rule] registry IH]; intros st H.
  - simpl in H. discriminate.
  - cbn [fold_left snd] in *. unfold runRule at 2 in H.
    cbn [bindC] in *.
    destruct (rule doc) as [ruleIssues|e']; cbn [bindC] in *.
    + destruct (List.length ruleIssues =? 0)%nat eqn:E.
      * apply Nat.eqb_eq in E. apply length_zero_iff_nil in E. subst.
        rewrite app_nil_r. exact (IH _ H).
      * exact (IH _ H).
    + rewrite fold_left_Throw in H by reflexivity.
      rewrite fold_left_Throw by reflexivity. now injection H as ->.
Qed.

End RejectionFacts.

Section EvaluateTheorems.
Import Types Dom Evaluator.
Context {engine : DomEngine} {axe : AxeEngine}.

(** X10: [evaluateHTML] resolves exactly when every registered rule
    returns, whatever the automated rule engine does; when it rejects, it
    rejects with the error of the first rule that throws and has logged
    nothing. *)
Theorem evaluateHTML_rejects_only_for_rules (htmlText : string) :
  ((exists r log, evaluateHTML htmlText = (Normal r, log)) <->
   (exists found, allRuleIssues (cheerio_load htmlText) = Normal found)) /\
  (forall e log,
      evaluateHTML htmlText = (Throw e, log) ->
      allRuleIssues (cheerio_load htmlText) = Throw e /\ log = []).
Proof.
  split; [split|].
  - intros (r & log & H).
    destruct (evaluateHTML_Normal htmlText r log H) as (found & Hf & _).
    now exists found.
  - intros [found Hf].
    destruct (rule_phase_collects _ _ Hf) as [st [Hst _]].
    unfold evaluateHTML. cbv zeta. rewrite Hst.
    destruct (runAxeCore htmlText) as [[l|e] axeLog];
      eexists; eexists; reflexivity.
  - intros e log. unfold evaluateHTML. cbv zeta.
    destruct (runRules (cheerio_load htmlText) "WCAG: " wcagRules
                (Normal (mkCollected [] []))) as [st1|e1] eqn:E1.
    + destruct (runRules (cheerio_load htmlText) "ARIA: " ariaRules
                  (Normal st1)) as [st2|e2] eqn:E2.
      * destruct (runAxeCore htmlText) as [[l|e'] axeLog]; discriminate.
      * intros H. injection H as <- <-. split; [|reflexivity].
        pose proof (runRules_collected _ _ _ _ _ E1) as C1.
        pose proof (runRules_Throw _ _ _ _ _ E2) as C2.
        cbn [collectedIssues] in C1.
        unfold allRuleIssues, collect in *. rewrite fold_left_app.
        rewrite C1. exact C2.
    + unfold runRules at 1. rewrite fold_left_Throw by reflexivity.
      intros H. injection H as <- <-. split; [|reflexivity].
      pose proof (runRules_Throw _ _ _ _ _ E1) as C1.
      cbn [collectedIssues] in C1.
      unfold allRuleIssues, collect in *. rewrite fold_left_app.
      rewrite C1. apply fold_left_Throw. reflexivity.
Qed.

Lemma append_injective (p a b : string) :
  (p ++ a)%string = (p ++ b)%string -> a = b.
Proof.
  induction p as [|c p IH]; simpl; intros H; [exact H|].
  injection H as H. now apply IH.
Qed.

Lemma passedLabels_In (doc : Document) (prefix name : string)
    (registry : JSMap.t Rule) :
  In (prefix ++ name)%string (passedLabels doc prefix registry) <->
  exists rule, In (name, rule) registry /\ rule doc = Normal [].
Proof.
  unfold passedLabels. rewrite in_flat_map. split.
  - intros [[n rule] [Hin H]]. cbn [fst snd] in H.
    destruct (rule doc) as [[|i l]|e] eqn:E; try contradiction.
    destruct H as [H|[]]. apply append_injective in H. subst n.
    now exists rule.
  - intros [rule [Hin H]]. exists (name, rule). split; [exact Hin|].
    cbn [fst snd]. rewrite H. now left.
Qed.

Lemma passedLabels_prefix (doc : Document) (prefix : string)
    (registry : JSMap.t Rule) (label : string) :
  In label (passedLabels doc prefix registry) ->
  String.prefix prefix label = true.
Proof.
  unfold passedLabels. rewrite in_flat_map.
  intros [[n rule] [_ H]]. cbn [fst snd] in H.
  destruct (rule doc) as [[|i l]|e]; try contradiction.
  destruct H as [<-|[]]. apply prefix_append.
Qed.

(** X11: the passed checks of a resolved evaluation are the registered
    rules that returned no issue, WCAG rules first, each under the prefix
    of its registry; a rule is listed exactly when it found nothing, so
    one image without a text alternative removes
    [WCAG: images-alt-text]. *)
Theorem passedChecks_rule (htmlText : string) (r : EvaluationResult)
    (log : list string) :
  evaluateHTML htmlText = (Normal r, log) ->
  passedChecks r
  = passedLabels (cheerio_load htmlText) "WCAG: " wcagRules
    ++ passedLabels (cheerio_load htmlText) "ARIA: " ariaRules /\
  (forall name rule,
      In (name, rule) wcagRules ->
      (In ("WCAG: " ++ name)%string (passedChecks r) <->
       rule (cheerio_load htmlText) = Normal [])) /\
  (forall name rule,
      In (name, rule) ariaRules ->
      (In ("ARIA: " ++ name)%string (passedChecks r) <->
       rule (cheerio_load htmlText) = Normal [])) /\
  (In "WCAG: images-alt-text" (passedChecks r) <->
   filter needsAltText (elements (cheerio_load htmlText)) = []).
Proof.
  intros H.
  destruct (evaluateHTML_Normal htmlText r log H) as (_ & _ & _ & _ & Hp).
  set (doc := cheerio_load htmlText) in *.
  assert (Hw : forall name rule,
             In (name, rule) wcagRules ->
             (In ("WCAG: " ++ name)%string (passedChecks r) <->
              rule doc = Normal [])).
  { intros name rule Hin. rewrite Hp, in_app_iff, passedLabels_In. split.
    - intros [[rule' [Hin' Hr]]|Hbad].
      + simpl in Hin, Hin'.
        destruct Hin as [E|[E|[E|[]]]]; injection E as <- <-;
          destruct Hin' as [E'|[E'|[E'|[]]]];
          first [ discriminate E' | injection E' as <-; exact Hr ].
      + apply passedLabels_prefix in Hbad. discriminate Hbad.
    - intros Hr. left. now exists rule. }
  split; [exact Hp|]. split; [exact Hw|]. split.
  - intros name rule Hin. rewrite Hp, in_app_iff, passedLabels_In. split.
    + intros [Hbad|[rule' [Hin' Hr]]].
      * apply passedLabels_prefix in Hbad. discriminate Hbad.
      * simpl in Hin, Hin'.
        destruct Hin as [E|[E|[]]]; injection E as <- <-;
          destruct Hin' as [E'|[E'|[]]];
          first [ discriminate E' | injection E' as <-; exact Hr ].
    + intros Hr. right. now exists rule.
  - rewrite (Hw "images-alt-text" imagesAltText (or_introl eq_refl)).
    rewrite imagesAltText_run. split.
    + intros E. injection E as E. now apply map_eq_nil in E.
    + intros E. now rewrite E.
Qed.

End EvaluateTheorems.

Section SummaryFacts.
Import Types Evaluator.

Lemma increment_sum {K : Type} (eqb : K -> K -> bool)
    (counts : list (K * nat)) (key : K) :
  list_sum (map snd (increment eqb counts key))
  = S (list_sum (map snd counts)).
Proof.
  induction counts as [|[k n] counts IH]; simpl; [reflexivity|].
  destruct (eqb k key); simpl; [reflexivity|]. rewrite IH. lia.
Qed.

Lemma increment_keys {K : Type} (eqb : K -> K -> bool)
    (counts : list (K * nat)) (key : K) :
  (forall a b, eqb a b = true <-> a = b) ->
  NoDup (map fst counts) ->
  NoDup (map fst (increment eqb counts key)) /\
  (forall k, In k (map fst (increment eqb counts key)) <->
             k = key \/ In k (map fst counts)).
Proof.
  intros Heq. induction counts as [|[k n] counts IH]; simpl; intros Hnd.
  - split; [constructor; [intros []|constructor]|].
    intros k. intuition congruence.
  - inversion Hnd as [|? ? Hk Hrest]; subst.
    destruct (eqb k key) eqn:E; simpl.
    + apply Heq in E. subst k. split; [exact Hnd|].
      intros k. intuition congruence.
    + destruct (IH Hrest) as [IH1 IH2]. split.
      * constructor; [|exact IH1]. rewrite IH2. intros [->|Hin].
        -- assert (Ht : eqb key key = true) by now apply Heq.
           rewrite Ht in E. discriminate.
        -- now apply Hk.
      * intros k'. rewrite IH2. intuition congruence.
Qed.

Lemma standardEqb_eq (a b : Standard) : standardEqb a b = true <-> a = b.
Proof. destruct a, b; simpl; split; intros H; congruence. Qed.

Lemma impactEqb_eq (a b : Impact) : impactEqb a b = true <-> a = b.
Proof. destruct a, b; simpl; split; intros H; congruence. Qed.

Lemma countType_total (l : list AccessibilityIssue) :
  (countType error l + countType warning l + countType info l
   = List.length l)%nat.
Proof.
  unfold countType. induction l as [|i l IH]; simpl; [reflexivity|].
  destruct (type i); simpl; lia.
Qed.

(** The two tallies of [summarize] after any number of issues. *)
Lemma tallies (l : list AccessibilityIssue)
    (acc : list (Standard * nat) * list (Impact * nat)) :
  NoDup (map fst (fst acc)) -> NoDup (map fst (snd acc)) ->
  let counts :=
    fold_left
      (fun (acc : list (Standard * nat) * list (Impact * nat)) issue =>
         let (byStandard, byImpact) := acc in
         (increment standardEqb byStandard (standard issue),
          match impact issue with
          | Some i => increment impactEqb byImpact i
          | None => byImpact
          end))
      l acc in
  list_sum (map snd (fst counts))
  = (list_sum (map snd (fst acc)) + List.length l)%nat /\
  list_sum (map snd (snd counts))
  = (list_sum (map snd (snd acc)) + List.length (filter hasImpact l))%nat /\
  NoDup (map fst (fst counts)) /\ NoDup (map fst (snd counts)) /\
  (forall s, In s (map fst (fst counts)) <->
             In s (map fst (fst acc)) \/ In s (map standard l)).
Proof.
  revert acc. induction l as [|i l IH]; intros [bs bi] H1 H2.
  - simpl. repeat split; try lia; try assumption; tauto.
  - cbn [fold_left]. cbv zeta.
    destruct (increment_keys standardEqb bs (standard i) standardEqb_eq H1)
      as [K1 K1'].
    assert (K2 : NoDup
                   (map fst
                      match impact i with
                      | Some x => increment impactEqb bi x
                      | None => bi
                      end)).
    { destruct (impact i) as [x|]; [|exact H2].
      apply (increment_keys impactEqb bi x impactEqb_eq H2). }
    specialize (IH (increment standardEqb bs (standard i),
                    match impact i with
                    | Some x => increment impactEqb bi x
                    | None => bi
                    end) K1 K2).
    cbv zeta in IH. destruct IH as (S1 & S2 & N1 & N2 & M).
    cbn [fst snd] in *. split; [|split; [|split; [|split]]].
    + rewrite S1, increment_sum. simpl. lia.
    + rewrite S2. cbn [filter]. unfold hasImpact at 2.
      destruct (impact i); cbn [List.length];
        rewrite ?increment_sum; lia.
    + exact N1.
    + exact N2.
    + intros s. rewrite M, K1'. simpl. split; intros; intuition congruence.
Qed.

End SummaryFacts.

Section SummaryTheorem.
Import Types Dom Evaluator.
Context {engine : DomEngine} {axe : AxeEngine}.

(** X12: the summary of a resolved evaluation agrees with its issue
    list: the total is the number of issues and the sum of the errors,
    warnings and infos; the counts by standard add up to the total and
    list each standard that occurs once; the counts by impact add up to
    the number of issues that carry an impact. *)
Theorem summary_consistent (htmlText : string) (r : EvaluationResult)
    (log : list string) :
  evaluateHTML htmlText = (Normal r, log) ->
  totalIssues (summary r) = List.length (issues r) /\
  (errors (summary r) + warnings (summary r) + infos (summary r)
   = totalIssues (summary r))%nat /\
  list_sum (map snd (byStandard (summary r))) = totalIssues (summary r) /\
  NoDup (map fst (byStandard (summary r))) /\
  (forall s,
      In s (map fst (byStandard (summary r))) <->
      exists i, In i (issues r) /\ standard i = s) /\
  list_sum (map snd (byImpact (summary r)))
  = List.length (filter hasImpact (issues r)) /\
  NoDup (map fst (byImpact (summary r))).
Proof.
  intros H.
  destruct (evaluateHTML_Normal htmlText r log H) as (_ & _ & _ & -> & _).
  unfold summarize. cbv zeta. cbn [totalIssues errors warnings infos
                                   byStandard byImpact].
  pose proof (tallies (issues r) ([], []) (NoDup_nil _) (NoDup_nil _))
    as T.
  cbv zeta in T. cbn [fst snd map list_sum Nat.add] in T.
  destruct T as (S1 & S2 & N1 & N2 & M).
  split; [reflexivity|]. split; [apply countType_total|].
  split; [exact S1|]. split; [exact N1|]. split; [|split; [exact S2|exact N2]].
  intros s. rewrite M, in_map_iff. cbn [In]. split.
  - intros [[]|[i [E Hi]]]. now exists i.
  - intros [i [Hi E]]. right. now exists i.
Qed.

(** X13: when the automated rule engine succeeds and every violation it
    reports has a node, the issues of the evaluation are the issues of the
    registered rules followed by one issue per violation, in the order of
    the report, each an error of standard [AXE] without level that takes
    its element, selector and impact from the first node; nothing is
    logged. *)
Theorem axe_success_appends (htmlText : string) (d : JSDocument)
    (vs : list Violation) (found : list AccessibilityIssue) :
  allRuleIssues (cheerio_load htmlText) = Normal found ->
  newJSDOM htmlText = Normal d ->
  axe_run d = Normal vs ->
  Forall (fun v => nodes v <> []) vs ->
  exists r,
    evaluateHTML htmlText = (Normal r, []) /\
    issues r = map enhanceIssue (found ++ flat_map violationIssues vs) /\
    List.length (flat_map violationIssues vs) = List.length vs /\
    Forall
      (fun i => standard i = AXE /\ type i = error /\ level i = None)
      (flat_map violationIssues vs).
Proof.
  intros Hrules Hdom Hrun Hnodes.
  assert (Htr : translateViolations vs
                = Normal (flat_map violationIssues vs)).
  { clear Hrun. induction vs as [|v vs IH]; [reflexivity|].
    inversion Hnodes as [|? ? Hv Hvs]; subst.
    cbn [translateViolations flat_map]. unfold translateViolation.
    unfold violationIssues at 1.
    destruct (nodes v) as [|n rest]; [now elim Hv|].
    cbn [bindC]. rewrite (IH Hvs). reflexivity. }
  destruct (rule_phase_collects _ _ Hrules) as [st [Hst Hl]].
  eexists. split.
  { unfold evaluateHTML, runAxeCore. cbv zeta.
    rewrite Hst, Hdom, Hrun. cbn [bindC]. rewrite Htr, Hl. reflexivity. }
  split; [reflexivity|split].
  - clear - Hnodes. induction vs as [|v vs IH]; [reflexivity|].
    inversion Hnodes as [|? ? Hv Hvs]; subst.
    cbn [flat_map]. rewrite length_app, (IH Hvs).
    unfold violationIssues. destruct (nodes v); [now elim Hv|reflexivity].
  - apply Forall_forall. intros i Hi. apply in_flat_map in Hi.
    destruct Hi as [v [_ Hi]]. unfold violationIssues in Hi.
    destruct (nodes v); [contradiction|].
    destruct Hi as [<-|[]]. repeat split.
Qed.

End SummaryTheorem.

Section HeadingFacts.
Import Types Dom Evaluator.

Lemma headings_are_headings (doc : Document) :
  Forall isHeading (headings doc).
Proof.
  unfold headings, query. apply Forall_forall. intros el Hin.
  apply filter_In in Hin. destruct Hin as [_ H].
  unfold anyOf in H. apply existsb_exists in H.
  destruct H as [sel [Hsel Htag]]. simpl in Hsel. unfold isHeading.
  destruct Hsel as [<-|[<-|[<-|[<-|[<-|[<-|[]]]]]]];
    unfold isTag in Htag; apply String.eqb_eq in Htag; rewrite Htag;
    eexists; (split; [|cbv; reflexivity]); repeat constructor.
Qed.

Lemma skipsLevel_numbers (p c : Selected) :
  isHeading p -> isHeading c ->
  skipsLevel (headingLevel (tagName (self p)))
    (headingLevel (tagName (self c)))
  = (headingNumber p + 1 <? headingNumber c)%nat.
Proof.
  intros [n [Hn Ep]] [m [Hm Ec]]. unfold headingNumber.
  rewrite Ep, Ec. destruct n as [|n]; [lia|reflexivity].
Qed.

Lemma headings_fold (p : Selected) (els : list Selected)
    (acc : list AccessibilityIssue) :
  isHeading p -> Forall isHeading els ->
  fst (fold_left headingsEach els (acc, headingLevel (tagName (self p))))
  = acc ++ map skipIssue (adjacentSkips (p :: els)).
Proof.
  revert p acc. induction els as [|c els IH]; intros p acc Hp Hels.
  - simpl. now rewrite app_nil_r.
  - inversion Hels as [|? ? Hc Hrest]; subst.
    cbn [fold_left]. unfold headingsEach at 2. cbv zeta.
    rewrite (skipsLevel_numbers p c Hp Hc).
    unfold adjacentSkips. cbn [tl combine filter fst snd].
    fold (adjacentSkips (c :: els)).
    change (filter
              (fun pc : Selected * Selected =>
                 (headingNumber (fst pc) + 1 <? headingNumber (snd pc))%nat)
              (combine (c :: els) els))
      with (adjacentSkips (c :: els)).
    destruct (headingNumber p + 1 <? headingNumber c)%nat.
    + rewrite (IH c _ Hc Hrest). cbn [map]. unfold skipIssue at 2.
      now rewrite <- app_assoc.
    + apply (IH c _ Hc Hrest).
Qed.

(** X14: the rule [headings-structure] files one warning for each pair of
    consecutive headings whose second is more than one level below the
    first, in document order, and nothing else: each heading is compared
    with its immediate predecessor only, and the first heading, whatever
    its level, is never reported. *)
Theorem headingsStructure_spec (doc : Document) :
  headingsStructure doc
  = Normal (map skipIssue (adjacentSkips (headings doc))) /\
  (List.length (adjacentSkips (headings doc))
   <= Nat.pred (List.length (headings doc)))%nat.
Proof.
  split.
  - unfold headingsStructure. fold (headings doc).
    pose proof (headings_are_headings doc) as Hall.
    destruct (headings doc) as [|h rest]; [reflexivity|].
    inversion Hall as [|? ? Hh Hrest]; subst.
    cbn [fold_left]. unfold headingsEach at 2. cbv zeta.
    change (skipsLevel (Some 0%nat) (headingLevel (tagName (self h))))
      with false.
    cbv iota. f_equal.
    apply (headings_fold h rest [] Hh Hrest).
  - unfold adjacentSkips. etransitivity; [apply filter_length_le|].
    rewrite length_combine. destruct (headings doc) as [|h rest].
    + apply Nat.le_refl.
    + cbn [tl]. apply Nat.le_min_r.
Qed.

End HeadingFacts.

Section FormLabelFacts.
Import Types Dom Evaluator.
Context {engine : DomEngine}.

Lemma formLabelsEach_Throw (doc : Document) (e : string) (el : Selected) :
  formLabelsEach doc (Throw e) el = Throw e.
Proof. reflexivity. Qed.

(** One iteration of the loop of [form-labels]. *)
Lemma formLabelsEach_step (doc : Document)
    (acc : list AccessibilityIssue) (el : Selected) :
  (forall e, labelQueryFails doc el e ->
             formLabelsEach doc (Normal acc) el = Throw e) /\
  ((forall e, ~ labelQueryFails doc el e) ->
   formLabelsEach doc (Normal acc) el
   = Normal (acc ++ if needsLabel doc el then [labelIssue el] else [])).
Proof.
  unfold labelQueryFails, needsLabel, hasLabelFor, labelQuery,
    formLabelsEach.
  fold (exemptControl el). cbn [bindC].
  destruct (exemptControl el).
  - split.
    + intros e [q [H _]]. discriminate.
    + intros _. cbn [negb andb]. now rewrite app_nil_r.
  - destruct (attr el "id") as [i|] eqn:Eid.
    + assert (T : attrTruthy el "id" = JS.truthy i)
        by (unfold attrTruthy; now rewrite Eid).
      rewrite T. clear T.
      destruct (JS.truthy i).
      * remember ("label[for=" ++ dq ++ i ++ dq ++ "]")%string as q0 eqn:Eq0.
        clear Eq0. destruct (select doc q0) as [n|e0] eqn:E.
        -- split.
           ++ intros e [q [Hq He]]. injection Hq as <-. congruence.
           ++ intros _. cbn [bindC negb andb].
              destruct (negb (0 <? n)%nat && negb (attrTruthy el "aria-label")
                        && negb (attrTruthy el "aria-labelledby"));
                [reflexivity|now rewrite app_nil_r].
        -- split.
           ++ intros e [q [Hq He]]. injection Hq as <-.
              cbn [bindC]. congruence.
           ++ intros Hno. exfalso. apply (Hno e0). eexists. now split.
      * split.
        -- intros e [q [H _]]. discriminate.
        -- intros _. cbn [bindC negb andb].
           destruct (negb (attrTruthy el "aria-label")
                     && negb (attrTruthy el "aria-labelledby"));
             [reflexivity|now rewrite app_nil_r].
    + assert (T : attrTruthy el "id" = false)
        by (unfold attrTruthy; now rewrite Eid).
      rewrite T. clear T. split.
      * intros e [q [H _]]. discriminate.
      * intros _. cbn [bindC negb andb].
        destruct (negb (attrTruthy el "aria-label")
                  && negb (attrTruthy el "aria-labelledby"));
          [reflexivity|now rewrite app_nil_r].
Qed.

Lemma labelQueryFails_dec (doc : Document) (el : Selected) :
  (exists e, labelQueryFails doc el e) \/
  (forall e, ~ labelQueryFails doc el e).
Proof.
  unfold labelQueryFails. destruct (labelQuery el) as [q|].
  - destruct (select doc q) as [n|e] eqn:E.
    + right. intros e [q' [Hq He]]. injection Hq as <-. congruence.
    + left. exists e, q. now split.
  - right. intros e [q' [Hq _]]. discriminate.
Qed.

Lemma formLabels_fold (doc : Document) (els : list Selected) :
  forall acc,
    (forall el e, In el els -> ~ labelQueryFails doc el e) ->
    fold_left (formLabelsEach doc) els (Normal acc)
    = Normal (acc ++ map labelIssue (filter (needsLabel doc) els)).
Proof.
  induction els as [|el els IH]; intros acc Hno.
  - simpl. now rewrite app_nil_r.
  - cbn [fold_left filter].
    rewrite (proj2 (formLabelsEach_step doc acc el)
               (fun e => Hno el e (or_introl eq_refl))).
    rewrite IH by (intros el' e Hin; apply Hno; now right).
    rewrite <- app_assoc. f_equal.
    now destruct (needsLabel doc el).
Qed.

Lemma formLabels_fold_Throw (doc : Document) (els : list Selected) :
  forall acc e,
    fold_left (formLabelsEach doc) els (Normal acc) = Throw e <->
    exists before el after,
      els = before ++ el :: after /\
      (forall el' e', In el' before -> ~ labelQueryFails doc el' e') /\
      labelQueryFails doc el e.
Proof.
  induction els as [|el els IH]; intros acc e.
  - simpl. split; [discriminate|].
    intros [before [el [after [H _]]]]. now destruct before.
  - cbn [fold_left].
    destruct (labelQueryFails_dec doc el) as [[e0 Hfail]|Hok].
    + rewrite (proj1 (formLabelsEach_step doc acc el) e0 Hfail).
      rewrite (fold_left_Throw _ (formLabelsEach_Throw doc)). split.
      * intros H. injection H as <-. exists [], el, els.
        repeat split; [intros ? ? []|exact Hfail].
      * intros [before [el' [after [Hsplit [Hbefore Hfail']]]]].
        destruct before as [|b before].
        -- injection Hsplit as <- <-.
           destruct Hfail as [q [Hq He]], Hfail' as [q' [Hq' He']].
           congruence.
        -- injection Hsplit as <- _. exfalso.
           apply (Hbefore el e0); [now left|exact Hfail].
    + rewrite (proj2 (formLabelsEach_step doc acc el) Hok).
      rewrite IH. split.
      * intros [before [el' [after [-> [Hbefore Hfail]]]]].
        exists (el :: before), el', after. repeat split; [|exact Hfail].
        intros x e' [<-|Hin]; [apply Hok|now apply Hbefore].
      * intros [before [el' [after [Hsplit [Hbefore Hfail]]]]].
        destruct before as [|b before].
        -- injection Hsplit as <- <-. exfalso. apply (Hok e Hfail).
        -- injection Hsplit as <- ->. exists before, el', after.
           repeat split; [|exact Hfail].
           intros x e' Hin. apply Hbefore. now right.
Qed.

(** X15: the rule [form-labels].  When the selector engine answers every
    label query, the rule files one error for each control that is not a
    submit button, a button or a hidden input and has neither a [label]
    pointing at its id, nor a non-empty [aria-label], nor a non-empty
    [aria-labelledby], in document order, and nothing else.  The rule
    throws exactly when the engine rejects the label query of some
    control, with the error of the first such control; this happens even
    when that control is named by [aria-label], because the [label] is
    looked up first. *)
Theorem formLabels_spec (doc : Document) :
  ((forall el e, In el (controls doc) -> ~ labelQueryFails doc el e) ->
   formLabels doc
   = Normal (map labelIssue (filter (needsLabel doc) (controls doc)))) /\
  (forall e,
      formLabels doc = Throw e <->
      exists before el after,
        controls doc = before ++ el :: after /\
        (forall el' e', In el' before -> ~ labelQueryFails doc el' e') /\
        labelQueryFails doc el e).
Proof.
  split.
  - intros Hno. unfold formLabels. fold (controls doc).
    now rewrite (formLabels_fold doc (controls doc) [] Hno).
  - intros e. unfold formLabels. fold (controls doc).
    apply formLabels_fold_Throw.
Qed.

End FormLabelFacts.

Lemma sampleSelect_labelQuery (doc : Dom.Document) (el : Dom.Selected)
    (e : string) :
  ~ labelQueryFails (engine := sampleEngine doc) doc el e.
Proof.
  intros [q [Hq He]]. unfold labelQuery in Hq.
  destruct (exemptControl el); [discriminate|].
  destruct (Dom.attr el "id") as [i|]; [|discriminate].
  destruct (JS.truthy i); [|discriminate]. injection Hq as <-.
  cbn [Dom.select sampleEngine] in He. unfold sampleSelect in He.
  cbn in He. discriminate.
Qed.

Lemma formLabels_spec_witness :
  Evaluator.formLabels (engine := sampleEngine formDocument) formDocument
  = Normal
      [labelIssue (engine := sampleEngine formDocument)
         (Dom.mkSelected (Dom.mkTag "input" [("id", "name")]) [] [])].
Proof.
  refine (eq_trans
            (proj1 (formLabels_spec (engine := sampleEngine formDocument)
                      formDocument) _) _).
  - intros el e _. apply sampleSelect_labelQuery.
  - vm_compute. reflexivity.
Defined.

Section AriaRuleFacts.
Import Types Dom Evaluator.
Context {engine : DomEngine}.

Lemma requiredAttrEach_Throw (e : string) (el : Selected) :
  requiredAttrEach (Throw e) el = Throw e.
Proof. reflexivity. Qed.

(** No role of the table is an inherited property name. *)
Lemma required_not_inherited (role : string) (attrs : list string) :
  JSMap.get requiredAttributes role = Some attrs ->
  JS.arrayIncludes objectPrototypeKeys role = false.
Proof.
  intros Hget.
  destruct (JS.arrayIncludes objectPrototypeKeys role) eqn:E;
    [|reflexivity].
  unfold JS.arrayIncludes in E. apply existsb_exists in E.
  destruct E as [k [Hin Hk]]. apply String.eqb_eq in Hk. subst k.
  exfalso. unfold objectPrototypeKeys in Hin. simpl in Hin.
  repeat (destruct Hin as [<-|Hin]; [vm_compute in Hget; discriminate|]).
  exact Hin.
Qed.

Lemma missing_fold (el : Selected) (role : string) (attrs : list string) :
  forall acc,
    fold_left
      (fun issues a =>
         match attr el a with
         | None =>
             issues ++
             [mkIssue error "ARIA Required Attributes"
                ("Elements with role=" ++ dq ++ role ++ dq
                 ++ " must have " ++ a ++ " attribute")%string
                (excerpt el) (Some (getSelector el)) ARIA None
                (Some serious) None]
         | Some _ => issues
         end)
      attrs acc
    = acc ++ map (missingAttrIssue el role) (filter (attrMissing el) attrs).
Proof.
  induction attrs as [|a attrs IH]; intros acc.
  - simpl. now rewrite app_nil_r.
  - cbn [fold_left filter]. rewrite IH. unfold attrMissing at 2.
    destruct (attr el a).
    + reflexivity.
    + cbn [map]. rewrite <- app_assoc. reflexivity.
Qed.

(** One iteration of the loop of [aria-required-attr]. *)
Lemma requiredAttrEach_step (acc : list AccessibilityIssue) (el : Selected) :
  requiredAttrEach (Normal acc) el
  = if inheritedRole el
    then Throw "TypeError: requiredAttributes[role].forEach is not a function"
    else Normal (acc ++ missingRequired el).
Proof.
  unfold requiredAttrEach, inheritedRole, missingRequired. cbn [bindC].
  destruct (attr el "role") as [[|c r]|].
  - cbn. now rewrite app_nil_r.
  - cbv zeta.
    destruct (JSMap.get requiredAttributes (String c r)) as [attrs|] eqn:G.
    + rewrite (required_not_inherited _ _ G). now rewrite missing_fold.
    + destruct (JS.arrayIncludes objectPrototypeKeys (String c r));
        [reflexivity|now rewrite app_nil_r].
  - now rewrite app_nil_r.
Qed.

Lemma requiredAttr_fold (els : list Selected) :
  forall acc,
    (existsb inheritedRole els = false ->
     fold_left requiredAttrEach els (Normal acc)
     = Normal (acc ++ flat_map missingRequired els)) /\
    (existsb inheritedRole els = true ->
     fold_left requiredAttrEach els (Normal acc)
     = Throw "TypeError: requiredAttributes[role].forEach is not a function").
Proof.
  induction els as [|el els IH]; intros acc.
  - split; [|discriminate]. intros _. simpl. now rewrite app_nil_r.
  - cbn [fold_left existsb flat_map]. rewrite requiredAttrEach_step.
    destruct (inheritedRole el).
    + split; [discriminate|]. intros _.
      apply (fold_left_Throw _ requiredAttrEach_Throw).
    + cbn [orb]. destruct (IH (acc ++ missingRequired el)) as [Hn Ht].
      split.
      * intros H. rewrite (Hn H). now rewrite <- app_assoc.
      * exact Ht.
Qed.

Lemma existsb_query_role (doc : Document) :
  existsb inheritedRole (query doc (hasAttr "role"))
  = existsb inheritedRole (elements doc).
Proof.
  unfold query. induction (elements doc) as [|el els IH]; [reflexivity|].
  cbn [filter existsb]. unfold hasAttr at 1, inheritedRole at 2, attr.
  destruct (attrIn (attribs (self el)) "role") eqn:E.
  - cbn [existsb]. unfold inheritedRole at 1, attr. rewrite E.
    now rewrite IH.
  - now rewrite IH.
Qed.

Lemma flat_map_query_role (doc : Document) :
  flat_map missingRequired (query doc (hasAttr "role"))
  = flat_map missingRequired (elements doc).
Proof.
  unfold query. induction (elements doc) as [|el els IH]; [reflexivity|].
  cbn [filter flat_map]. unfold hasAttr at 1, missingRequired at 2, attr.
  destruct (attrIn (attribs (self el)) "role") eqn:E.
  - cbn [flat_map]. unfold missingRequired at 1, attr. rewrite E.
    now rewrite IH.
  - now rewrite IH.
Qed.

(** X16: the rule [aria-required-attr].  It throws a TypeError exactly
    when some element's role is the name of a property that every object
    inherits (such as [constructor] or [toString]), because the role is
    looked up in an object literal.  Otherwise it files, element by
    element in document order, one error for each attribute that the table
    requires for the element's role and that the element does not carry;
    an attribute that is present with an empty value counts as present,
    and roles outside the table are never reported. *)
Theorem ariaRequiredAttr_spec (doc : Document) :
  ((exists e, ariaRequiredAttr doc = Throw e) <->
   exists el, In el (elements doc) /\ inheritedRole el = true) /\
  ((forall el, In el (elements doc) -> inheritedRole el = false) ->
   ariaRequiredAttr doc = Normal (flat_map missingRequired (elements doc))).
Proof.
  unfold ariaRequiredAttr.
  destruct (requiredAttr_fold (query doc (hasAttr "role")) []) as [Hn Ht].
  rewrite existsb_query_role in Hn, Ht. rewrite flat_map_query_role in Hn.
  split; [split|].
  - intros [e He].
    destruct (existsb inheritedRole (elements doc)) eqn:E.
    + apply existsb_exists in E. exact E.
    + rewrite (Hn eq_refl) in He. discriminate.
  - intros Hex. eexists. apply Ht. apply existsb_exists. exact Hex.
  - intros Hall. apply Hn.
    destruct (existsb inheritedRole (elements doc)) eqn:E; [|reflexivity].
    apply existsb_exists in E. destruct E as [el [Hin Hel]].
    rewrite (Hall el Hin) in Hel. discriminate.
Qed.

Lemma validValues_fold (attrName : string) (allowed : list string)
    (els : list Selected) :
  forall acc,
    fold_left (validValuesEach attrName allowed) els acc
    = acc ++ map (invalidValueIssue attrName allowed)
               (filter (invalidValue attrName allowed) els).
Proof.
  induction els as [|el els IH]; intros acc.
  - simpl. now rewrite app_nil_r.
  - cbn [fold_left filter]. rewrite IH.
    unfold validValuesEach, invalidValue at 2.
    destruct (attr el attrName) as [[|c v]|] eqn:E.
    + reflexivity.
    + cbv zeta. cbn [JS.truthy andb].
      destruct (negb (JS.arrayIncludes allowed (String c v))).
      * cbn [map]. unfold invalidValueIssue at 2. rewrite E.
        now rewrite <- app_assoc.
      * reflexivity.
    + reflexivity.
Qed.

Lemma filter_query_attr (doc : Document) (attrName : string)
    (allowed : list string) :
  filter (invalidValue attrName allowed) (query doc (hasAttr attrName))
  = filter (invalidValue attrName allowed) (elements doc).
Proof.
  unfold query. induction (elements doc) as [|el els IH]; [reflexivity|].
  cbn [filter]. unfold hasAttr at 1, invalidValue at 2, attr.
  destruct (attrIn (attribs (self el)) attrName) eqn:E.
  - cbn [filter]. unfold invalidValue at 1, attr. rewrite E.
    now rewrite IH.
  - exact IH.
Qed.

(** X17: the rule [aria-valid-values] never throws.  Its errors are
    grouped by attribute in the order of the table ([aria-checked],
    [aria-disabled], [aria-expanded], [aria-hidden], [aria-invalid]) and,
    within an attribute, follow the document: an element is reported for
    an attribute exactly when it carries it with a non-empty value outside
    the attribute's list, so an empty value is accepted and the match is
    exact (a value in another letter case is reported). *)
Theorem ariaValidValues_spec (doc : Document) :
  ariaValidValues doc
  = Normal
      (flat_map
         (fun entry : string * list string =>
            map (invalidValueIssue (fst entry) (snd entry))
              (filter (invalidValue (fst entry) (snd entry)) (elements doc)))
         validValues).
Proof.
  unfold ariaValidValues. f_equal.
  assert (H : forall (table : list (string * list string)) acc,
             fold_left
               (fun issues (entry : string * list string) =>
                  let (attrName, allowed) := entry in
                  fold_left (validValuesEach attrName allowed)
                    (query doc (hasAttr attrName)) issues)
               table acc
             = acc ++ flat_map
                 (fun entry : string * list string =>
                    map (invalidValueIssue (fst entry) (snd entry))
                      (filter (invalidValue (fst entry) (snd entry))
                         (elements doc)))
                 table).
  { induction table as [|[a allowed] table IH]; intros acc.
    - simpl. now rewrite app_nil_r.
    - cbn [fold_left flat_map fst snd]. rewrite IH, validValues_fold.
      rewrite filter_query_attr. now rewrite <- app_assoc. }
  rewrite H. reflexivity.
Qed.

End AriaRuleFacts.

Lemma ariaRequiredAttr_spec_witness :
  Evaluator.ariaRequiredAttr (engine := sampleEngine sliderDocument)
    sliderDocument
  = Normal
      (map
         (missingAttrIssue (engine := sampleEngine sliderDocument)
            (Dom.mkSelected
               (Dom.mkTag "div" [("role", "slider"); ("aria-valuemin", "")])
               [] [])
            "slider")
         ["aria-valuenow"; "aria-valuemax"]).
Proof.
  refine (eq_trans
            (proj2 (ariaRequiredAttr_spec
                      (engine := sampleEngine sliderDocument)
                      sliderDocument) _) _).
  - intros el Hin. vm_compute in Hin.
    destruct Hin as [<-|[<-|[]]]; vm_compute; reflexivity.
  - vm_compute. reflexivity.
Defined.

(** * Further properties of the ARIA validator *)

Section SetFacts.

Lemma has_In (s : JSSet.t) (x : string) : JSSet.has s x = true <-> In x s.
Proof.
  unfold JSSet.has. rewrite existsb_exists. split.
  - intros [y [Hin Hy]]. apply String.eqb_eq in Hy. now subst.
  - intros Hin. exists x. split; [exact Hin|apply String.eqb_refl].
Qed.

Lemma add_In (s : JSSet.t) (x y : string) :
  In y (JSSet.add s x) <-> In y s \/ y = x.
Proof.
  unfold JSSet.add. destruct (JSSet.has s x) eqn:E.
  - apply has_In in E. split; [now left|]. intros [H | ->]; assumption.
  - rewrite in_app_iff. simpl. intuition congruence.
Qed.

Lemma add_NoDup (s : JSSet.t) (x : string) :
  NoDup s -> NoDup (JSSet.add s x).
Proof.
  intros Hs. unfold JSSet.add. destruct (JSSet.has s x) eqn:E;
    [exact Hs|].
  apply (Permutation_NoDup (Permutation_cons_append s x)).
  constructor; [|exact Hs].
  intros Hin. apply has_In in Hin. congruence.
Qed.

Lemma add_idempotent (s : JSSet.t) (x : string) :
  JSSet.add (JSSet.add s x) x = JSSet.add s x.
Proof.
  unfold JSSet.add at 1.
  assert (H : JSSet.has (JSSet.add s x) x = true)
    by (apply has_In, add_In; now right).
  now rewrite H.
Qed.

Lemma fold_add_In (l : list string) :
  forall s y, In y (fold_left JSSet.add l s) <-> In y s \/ In y l.
Proof.
  induction l as [|x l IH]; intros s y; simpl.
  - tauto.
  - rewrite IH, add_In. intuition congruence.
Qed.

Lemma fold_add_NoDup (l : list string) :
  forall s, NoDup s -> NoDup (fold_left JSSet.add l s).
Proof.
  induction l as [|x l IH]; intros s Hs; simpl; [exact Hs|].
  apply IH. now apply add_NoDup.
Qed.

End SetFacts.

Section StatisticsFacts.
Import Dom Aria.
Context {engine : DomEngine}.

Lemma pushIssue_tally (st : ValidationState) (i : ARIAValidationIssue) :
  stValidUsages (pushIssue st i) = stValidUsages st /\
  stStatistics (pushIssue st i) = stStatistics st.
Proof. now split. Qed.

(** A loop that only files issues leaves usages and statistics alone. *)
Lemma issues_only {B : Type} (f : ValidationState -> B -> ValidationState)
    (l : list B) :
  (forall st b,
      stValidUsages (f st b) = stValidUsages st /\
      stStatistics (f st b) = stStatistics st) ->
  forall st,
    stValidUsages (fold_left f l st) = stValidUsages st /\
    stStatistics (fold_left f l st) = stStatistics st.
Proof.
  intros Hstep. induction l as [|b l IH]; intros st; simpl; [now split|].
  destruct (IH (f st b)) as [-> ->]. apply Hstep.
Qed.

Lemma validateRole_tally (self : ARIAValidator) (st : ValidationState)
    (el : Selected) :
  stValidUsages (validateRole self st el)
  = stValidUsages st ++ (if knownRole self el then [usageLine el] else []) /\
  stStatistics (validateRole self st el)
  = mkStatistics (S (totalARIAElements (stStatistics st)))
      (JSSet.add (rolesUsed (stStatistics st)) (roleOf el))
      (propertiesUsed (stStatistics st)) (statesUsed (stStatistics st)).
Proof.
  unfold validateRole, knownRole, JSMap.has, usageLine. cbv zeta.
  fold (roleOf el).
  destruct (JSMap.get (roles self) (roleOf el)) as [roleSpec|].
  - assert (H1 : forall st0,
               stValidUsages
                 (fold_left (checkRequiredProperty el (roleOf el))
                    (requiredProperties roleSpec) st0)
               = stValidUsages st0 /\
               stStatistics
                 (fold_left (checkRequiredProperty el (roleOf el))
                    (requiredProperties roleSpec) st0)
               = stStatistics st0).
    { apply issues_only. intros st0 prop. unfold checkRequiredProperty.
      destruct (attr el prop); [now split|apply pushIssue_tally]. }
    assert (H2 : forall st0,
               stValidUsages (checkRequiredParent el (roleOf el) roleSpec st0)
               = stValidUsages st0 /\
               stStatistics (checkRequiredParent el (roleOf el) roleSpec st0)
               = stStatistics st0).
    { intros st0. unfold checkRequiredParent.
      destruct (requiredParent roleSpec) as [parents|]; [|now split].
      cbv zeta.
      destruct (negb
                  (existsb
                     (fun parentRole =>
                        hasClosest el (attrEq "role" parentRole)) parents));
        [apply pushIssue_tally|now split]. }
    unfold pushValidUsage. cbn [stValidUsages stStatistics].
    destruct (H2 (fold_left (checkRequiredProperty el (roleOf el))
                    (requiredProperties roleSpec)
                    (countARIAElement (addRoleUsed st (roleOf el)))))
      as [-> ->].
    destruct (H1 (countARIAElement (addRoleUsed st (roleOf el))))
      as [-> ->].
    now split.
  - split; [|reflexivity]. cbn [pushIssue stValidUsages].
    unfold countARIAElement, addRoleUsed. cbn [stValidUsages].
    now rewrite app_nil_r.
Qed.

Lemma validateRoles_tally (self : ARIAValidator) (els : list Selected) :
  forall st,
    stValidUsages (fold_left (validateRole self) els st)
    = stValidUsages st ++ map usageLine (filter (knownRole self) els) /\
    stStatistics (fold_left (validateRole self) els st)
    = mkStatistics (totalARIAElements (stStatistics st) + List.length els)
        (fold_left JSSet.add (map roleOf els) (rolesUsed (stStatistics st)))
        (propertiesUsed (stStatistics st)) (statesUsed (stStatistics st)).
Proof.
  induction els as [|el els IH]; intros st.
  - simpl. rewrite app_nil_r, Nat.add_0_r. now destruct (stStatistics st).
  - cbn [fold_left filter map List.length].
    destruct (IH (validateRole self st el)) as [-> ->].
    destruct (validateRole_tally self st el) as [-> ->].
    cbn [totalARIAElements rolesUsed propertiesUsed statesUsed].
    split.
    + rewrite <- app_assoc. f_equal. now destruct (knownRole self el).
    + f_equal. lia.
Qed.

Lemma checkReference_Throw (doc : Document) (el : Selected) (e id : string) :
  checkReference doc el (Throw e) id = Throw e.
Proof. reflexivity. Qed.

Lemma validateProperty_Throw (doc : Document) (prop e : string)
    (el : Selected) :
  validateProperty doc prop (Throw e) el = Throw e.
Proof. reflexivity. Qed.

Lemma validateProperty_tally (doc : Document) (prop : string)
    (st st' : ValidationState) (el : Selected) :
  validateProperty doc prop (Normal st) el = Normal st' ->
  stValidUsages st' = stValidUsages st /\
  stStatistics st' = usedProperty (stStatistics st) prop.
Proof.
  unfold validateProperty. cbn [bindC]. cbv zeta.
  set (st1 := match attr el prop with
              | Some EmptyString =>
                  pushIssue (addPropertyUsed st prop)
                    (mkIssue warning (excerpt el) (getSelector el)
                       ("Empty value for " ++ prop)%string
                       ("Provide a meaningful value for " ++ prop
                        ++ " or remove the attribute")%string
                       spec12 None None None)
              | _ => addPropertyUsed st prop
              end).
  assert (H1 : stValidUsages st1 = stValidUsages st /\
               stStatistics st1 = usedProperty (stStatistics st) prop).
  { unfold st1. destruct (attr el prop) as [[|c v]|]; now split. }
  clearbody st1.
  destruct (attr el prop) as [[|c v]|];
    try (intros H; injection H as <-; exact H1).
  destruct (String.eqb prop "aria-labelledby");
    [|intros H; injection H as <-; exact H1].
  apply (fold_left_Completion_invariant
           (fun s => stValidUsages s = stValidUsages st /\
                     stStatistics s = usedProperty (stStatistics st) prop)
           (checkReference doc el)); [reflexivity| |exact H1].
  intros a id a' _ Ha. unfold checkReference. cbn [bindC].
  destruct (select doc ("#" ++ id)%string) as [n|e]; cbn [bindC];
    [|discriminate].
  destruct (n =? 0)%nat; intros H; injection H as <-; exact Ha.
Qed.

Lemma usedProperty_idempotent (s : Statistics) (prop : string) :
  usedProperty (usedProperty s prop) prop = usedProperty s prop.
Proof.
  unfold usedProperty. cbn [totalARIAElements rolesUsed propertiesUsed
                              statesUsed].
  now rewrite add_idempotent.
Qed.

Lemma property_loop_tally (doc : Document) (prop : string)
    (els : list Selected) :
  forall st st',
    fold_left (validateProperty doc prop) els (Normal st) = Normal st' ->
    stValidUsages st' = stValidUsages st /\
    stStatistics st'
    = match els with
      | [] => stStatistics st
      | _ :: _ => usedProperty (stStatistics st) prop
      end.
Proof.
  induction els as [|el els IH]; intros st st' H.
  - simpl in H. injection H as <-. now split.
  - cbn [fold_left] in H.
    destruct (validateProperty doc prop (Normal st) el) as [st1|e] eqn:E.
    + destruct (validateProperty_tally doc prop st st1 el E) as [U1 S1].
      destruct (IH st1 st' H) as [U2 S2]. split; [congruence|].
      rewrite S2. destruct els; [exact S1|].
      rewrite S1. apply usedProperty_idempotent.
    + rewrite (fold_left_Throw _ (validateProperty_Throw doc prop)) in H.
      discriminate.
Qed.

Lemma validateProperties_tally (doc : Document) (props : list string) :
  forall st st',
    fold_left
      (fun acc prop =>
         fold_left (validateProperty doc prop) (query doc (hasAttr prop)) acc)
      props (Normal st)
    = Normal st' ->
    stValidUsages st' = stValidUsages st /\
    stStatistics st' = fold_left (usedIfCarried doc) props (stStatistics st).
Proof.
  induction props as [|prop props IH]; intros st st' H.
  - simpl in H. injection H as <-. now split.
  - cbn [fold_left] in H.
    destruct (fold_left (validateProperty doc prop)
                (query doc (hasAttr prop)) (Normal st)) as [st1|e] eqn:E.
    + destruct (property_loop_tally doc prop _ st st1 E) as [U1 S1].
      destruct (IH st1 st' H) as [U2 S2]. split; [congruence|].
      rewrite S2. cbn [fold_left]. f_equal. rewrite S1.
      unfold usedIfCarried. now destruct (query doc (hasAttr prop)).
    + rewrite (fold_left_Throw
                 (fun acc prop =>
                    fold_left (validateProperty doc prop)
                      (query doc (hasAttr prop)) acc)) in H;
        [discriminate|].
      intros e0 b. apply fold_left_Throw. reflexivity.
Qed.

Lemma usedIfCarried_fold (doc : Document) (props : list string) :
  forall s,
    totalARIAElements (fold_left (usedIfCarried doc) props s)
    = totalARIAElements s /\
    rolesUsed (fold_left (usedIfCarried doc) props s) = rolesUsed s /\
    (NoDup (propertiesUsed s) ->
     NoDup (propertiesUsed (fold_left (usedIfCarried doc) props s))) /\
    (forall p,
        In p (propertiesUsed (fold_left (usedIfCarried doc) props s)) <->
        In p (propertiesUsed s) \/
        (In p props /\ query doc (hasAttr p) <> [])).
Proof.
  induction props as [|prop props IH]; intros s.
  - simpl. repeat split; tauto.
  - cbn [fold_left].
    destruct (IH (usedIfCarried doc s prop)) as [T [R [N M]]].
    rewrite T, R. unfold usedIfCarried in N, M |- *.
    destruct (query doc (hasAttr prop)) as [|el els] eqn:Q.
    + repeat split; [exact N| |].
      * intros H. apply M in H. destruct H as [H|[H1 H2]]; [now left|].
        right. split; [now right|exact H2].
      * intros [H|[[<-|H1] H2]]; apply M.
        -- now left.
        -- congruence.
        -- right. now split.
    + cbn [usedProperty totalARIAElements rolesUsed propertiesUsed] in *.
      repeat split.
      * intros H. apply N. now apply add_NoDup.
      * intros H. apply M in H. destruct H as [H|[H1 H2]].
        -- apply add_In in H. destruct H as [H | ->]; [now left|].
           right. split; [now left|]. rewrite Q. discriminate.
        -- right. split; [now right|exact H2].
      * intros [H|[[<-|H1] H2]]; apply M.
        -- left. apply add_In. now left.
        -- left. apply add_In. now right.
        -- right. now split.
Qed.

Lemma query_carries (doc : Document) (name : string) :
  query doc (hasAttr name) <> [] <-> carries doc name.
Proof.
  unfold carries, query. split.
  - intros H.
    destruct (filter (fun el => hasAttr name (self el)) (elements doc))
      as [|el els] eqn:E; [now elim H|].
    assert (Hin : In el (el :: els)) by now left.
    rewrite <- E in Hin. apply filter_In in Hin. destruct Hin as [Hin Hel].
    exists el. split; [exact Hin|]. unfold hasAttr in Hel. unfold attr.
    destruct (attrIn (attribs (self el)) name); discriminate.
  - intros [el [Hin Hel]] E.
    assert (H : In el (filter (fun el => hasAttr name (self el))
                         (elements doc))).
    { apply filter_In. split; [exact Hin|]. unfold hasAttr.
      unfold attr in Hel.
      destruct (attrIn (attribs (self el)) name); [reflexivity|now elim Hel]. }
    rewrite E in H. exact H.
Qed.

Lemma roleOf_query (doc : Document) (x : string) :
  In x (map roleOf (query doc (hasAttr "role"))) <->
  exists el, In el (elements doc) /\ attr el "role" = Some x.
Proof.
  rewrite in_map_iff. unfold query, roleOf, hasAttr, attr. split.
  - intros [el [Hx Hin]]. apply filter_In in Hin. destruct Hin as [Hin Hel].
    exists el. split; [exact Hin|].
    destruct (attrIn (attribs (self el)) "role"); [now subst|discriminate].
  - intros [el [Hin Hel]]. exists el. rewrite filter_In, Hel.
    repeat split. exact Hin.
Qed.

(** The usages and statistics [validate] returns. *)
Lemma validateDocument_tally (self : ARIAValidator) (doc : Document)
    (r : ARIAValidationResult) :
  validateDocument self doc = Normal r ->
  validUsages r = map usageLine (filter (knownRole self) (roleElements doc)) /\
  statistics r
  = fold_left (usedIfCarried doc) (properties self)
      (mkStatistics (List.length (roleElements doc))
         (fold_left JSSet.add (map roleOf (roleElements doc)) JSSet.empty)
         JSSet.empty JSSet.empty).
Proof.
  unfold validateDocument. cbv zeta.
  destruct (validateProperties self doc (validateRoles self doc initialState))
    as [st|e] eqn:E; cbn [bindC]; [|discriminate].
  intros H. injection H as <-. cbn [validUsages statistics].
  unfold validateProperties in E.
  destruct (validateProperties_tally doc (properties self) _ st E) as [U S].
  unfold validateRoles in U, S.
  destruct (validateRoles_tally self (query doc (hasAttr "role")) initialState)
    as [U0 S0].
  rewrite U0 in U. rewrite S0 in S. cbn in U, S.
  assert (Hlast : forall st0,
             stValidUsages (checkLandmarks doc (checkHidden doc
                                                  (checkRedundant doc st0)))
             = stValidUsages st0 /\
             stStatistics (checkLandmarks doc (checkHidden doc
                                                 (checkRedundant doc st0)))
             = stStatistics st0).
  { intros st0.
    assert (L : forall s, stValidUsages (checkLandmarks doc s)
                          = stValidUsages s /\
                          stStatistics (checkLandmarks doc s)
                          = stStatistics s).
    { apply issues_only. intros s landmark. unfold checkLandmark.
      cbv zeta.
      repeat match goal with
             | |- context [if ?b then _ else _] => destruct b
             end; now split. }
    assert (Hd : forall s, stValidUsages (checkHidden doc s)
                           = stValidUsages s /\
                           stStatistics (checkHidden doc s)
                           = stStatistics s).
    { apply issues_only. intros s el.
      destruct (matches el focusableSelectors
                || (0 <? List.length (find el focusableSelectors))%nat);
        now split. }
    assert (Rd : forall s, stValidUsages (checkRedundant doc s)
                           = stValidUsages s /\
                           stStatistics (checkRedundant doc s)
                           = stStatistics s).
    { apply issues_only. intros s el. now split. }
    destruct (L (checkHidden doc (checkRedundant doc st0))) as [-> ->].
    destruct (Hd (checkRedundant doc st0)) as [-> ->]. apply Rd. }
  destruct (Hlast st) as [-> ->]. split; [exact U|exact S].
Qed.

(** X18: the usages and statistics of a completed validation.
    [totalARIAElements] is the number of elements with a [role] attribute
    (elements that only carry [aria-*] attributes are not counted); there
    is one [validUsages] line for each of them whose role is in the
    catalogue, in document order, so the total is the number of lines plus
    the number of elements with an unknown role.  [rolesUsed] lists
    without repetition exactly the role values that occur in the
    document, and [propertiesUsed] exactly the properties of the
    catalogue that some element carries. *)
Theorem statistics_spec (self : ARIAValidator) (doc : Document)
    (r : ARIAValidationResult) :
  validateDocument self doc = Normal r ->
  totalARIAElements (statistics r) = List.length (roleElements doc) /\
  validUsages r = map usageLine (filter (knownRole self) (roleElements doc)) /\
  (List.length (validUsages r)
   + List.length
       (filter (fun el => negb (knownRole self el)) (roleElements doc))
   = totalARIAElements (statistics r))%nat /\
  NoDup (rolesUsed (statistics r)) /\
  (forall x,
      In x (rolesUsed (statistics r)) <->
      exists el, In el (elements doc) /\ attr el "role" = Some x) /\
  NoDup (propertiesUsed (statistics r)) /\
  (forall p,
      In p (propertiesUsed (statistics r)) <->
      In p (properties self) /\ carries doc p).
Proof.
  intros H. destruct (validateDocument_tally self doc r H) as [U S].
  set (s0 := mkStatistics (List.length (roleElements doc))
               (fold_left JSSet.add (map roleOf (roleElements doc))
                  JSSet.empty)
               JSSet.empty JSSet.empty) in S.
  destruct (usedIfCarried_fold doc (properties self) s0) as [T [R [N M]]].
  rewrite <- S in T, R, N, M.
  assert (Htotal : totalARIAElements (statistics r)
                   = List.length (roleElements doc)) by exact T.
  split; [exact Htotal|]. split; [exact U|]. split.
  { rewrite U, Htotal, length_map. clear.
    induction (roleElements doc) as [|el els IH]; [reflexivity|].
    cbn [filter]. destruct (knownRole self el); cbn [negb List.length]; lia. }
  split.
  { rewrite R. apply fold_add_NoDup. constructor. }
  split.
  { intros x. rewrite R. unfold s0. cbn [rolesUsed].
    rewrite fold_add_In. unfold roleElements. rewrite roleOf_query.
    split; [intros [[]|Hx]; exact Hx|intros Hx; now right]. }
  split.
  { apply N. constructor. }
  intros p. rewrite M. unfold s0. cbn [propertiesUsed].
  rewrite query_carries. split; [intros [[]|Hp]; exact Hp|intros Hp; now right].
Qed.

End StatisticsFacts.

Section CompletionFacts.
Import Dom Aria.
Context {engine : DomEngine}.

(** A loop throws exactly when one of its iterations does, provided that
    whether an iteration throws depends on the item only. *)
Lemma fold_left_throws {A B : Type} (f : Completion A -> B -> Completion A)
    (bad : B -> bool) :
  (forall e b, f (Throw e) b = Throw e) ->
  (forall a b, (exists e, f (Normal a) b = Throw e) <-> bad b = true) ->
  forall l a,
    (exists e, fold_left f l (Normal a) = Throw e) <-> existsb bad l = true.
Proof.
  intros Hthrow Hbad. induction l as [|b l IH]; intros a.
  - simpl. split; [intros [e H]; discriminate|discriminate].
  - cbn [fold_left existsb]. destruct (f (Normal a) b) as [a'|e] eqn:E.
    + assert (Hb : bad b = false).
      { destruct (bad b) eqn:Eb; [|reflexivity].
        apply Hbad with (a := a) in Eb. destruct Eb as [e He]. congruence. }
      rewrite Hb. apply IH.
    + assert (Hb : bad b = true) by (apply (Hbad a); now exists e).
      rewrite Hb, (fold_left_Throw f Hthrow). split; [reflexivity|].
      intros _. now exists e.
Qed.

Lemma checkReference_throws (doc : Document) (el : Selected)
    (st : ValidationState) (id : string) :
  (exists e, checkReference doc el (Normal st) id = Throw e) <->
  badId doc id = true.
Proof.
  unfold checkReference, badId. cbn [bindC].
  destruct (select doc ("#" ++ id)%string) as [n|e]; cbn [bindC].
  - split; [|discriminate]. intros [e H].
    destruct (n =? 0)%nat; discriminate.
  - split; [reflexivity|]. intros _. now exists e.
Qed.

Lemma validateProperty_throws (doc : Document) (prop : string)
    (st : ValidationState) (el : Selected) :
  (exists e, validateProperty doc prop (Normal st) el = Throw e) <->
  badElement doc prop el = true.
Proof.
  unfold validateProperty, badElement. cbn [bindC]. cbv zeta.
  destruct (attr el prop) as [[|c v]|].
  - split; [intros [e H]; discriminate|discriminate].
  - destruct (String.eqb prop "aria-labelledby"); cbn [andb].
    + apply (fold_left_throws (checkReference doc el) (badId doc));
        [reflexivity|].
      intros a b. apply checkReference_throws.
    + split; [intros [e H]; discriminate|discriminate].
  - split; [intros [e H]; discriminate|discriminate].
Qed.

Lemma validateProperties_throws (self : ARIAValidator) (doc : Document)
    (st : ValidationState) :
  (exists e, validateProperties self doc st = Throw e) <->
  existsb (badProperty doc) (properties self) = true.
Proof.
  unfold validateProperties.
  apply (fold_left_throws
           (fun acc prop =>
              fold_left (validateProperty doc prop)
                (query doc (hasAttr prop)) acc)
           (badProperty doc)).
  - intros e prop. apply fold_left_Throw. reflexivity.
  - intros a prop. unfold badProperty.
    apply (fold_left_throws (validateProperty doc prop)
             (badElement doc prop)); [reflexivity|].
    intros a' el. apply validateProperty_throws.
Qed.

Lemma badProperty_broken (doc : Document) (props : list string) :
  existsb (badProperty doc) props = true <->
  In "aria-labelledby" props /\ brokenReference doc.
Proof.
  rewrite existsb_exists. unfold badProperty, brokenReference. split.
  - intros [prop [Hin Hbad]]. apply existsb_exists in Hbad.
    destruct Hbad as [el [Hel Hbad]]. unfold badElement in Hbad.
    destruct (attr el prop) as [[|c v]|] eqn:Ea; try discriminate.
    apply andb_prop in Hbad. destruct Hbad as [Hp Hids].
    apply String.eqb_eq in Hp. subst prop. split; [exact Hin|].
    apply existsb_exists in Hids. destruct Hids as [id [Hid Hsel]].
    unfold badId in Hsel.
    destruct (select doc ("#" ++ id)%string) as [n|e] eqn:Es;
      [discriminate|].
    exists el, (String c v), id, e. unfold query in Hel.
    apply filter_In in Hel. destruct Hel as [Hel _].
    repeat split; try assumption. discriminate.
  - intros [Hin [el [v [id [e [Hel [Ha [Hv [Hid Hs]]]]]]]]].
    exists "aria-labelledby". split; [exact Hin|].
    apply existsb_exists. exists el. split.
    + unfold query. apply filter_In. split; [exact Hel|].
      unfold hasAttr. unfold attr in Ha. now rewrite Ha.
    + unfold badElement. rewrite Ha. destruct v as [|c v]; [now elim Hv|].
      rewrite String.eqb_refl. cbn [andb].
      apply existsb_exists. exists id. split; [exact Hid|].
      unfold badId. now rewrite Hs.
Qed.

(** X19: a validation throws exactly when the validator checks
    [aria-labelledby] and some element has a non-empty [aria-labelledby]
    one of whose space-separated parts yields a selector [#part] that the
    selector engine rejects; in every other case it returns a result.  No
    other step of [validate] can fail. *)
Theorem validate_throws_iff (self : ARIAValidator) (doc : Document) :
  ((exists e, validateDocument self doc = Throw e) <->
   In "aria-labelledby" (properties self) /\ brokenReference doc) /\
  ((exists r, validateDocument self doc = Normal r) <->
   ~ (In "aria-labelledby" (properties self) /\ brokenReference doc)).
Proof.
  rewrite <- badProperty_broken.
  rewrite <- (validateProperties_throws self doc
                (validateRoles self doc initialState)).
  unfold validateDocument. cbv zeta.
  destruct (validateProperties self doc (validateRoles self doc initialState))
    as [st|e]; cbn [bindC].
  - split; split.
    + intros [e H]. discriminate.
    + intros [e H]. discriminate.
    + intros _ [e H]. discriminate.
    + intros _. eexists. reflexivity.
  - split; split.
    + intros _. now exists e.
    + intros _. now exists e.
    + intros [r H]. discriminate.
    + intros H. exfalso. apply H. now exists e.
Qed.

End CompletionFacts.

(** * Properties of the compliance tool *)

Section ServerFacts.
Import Types Checker Server.

Lemma orElse_level (T : string) (b : string) :
  In T levelOrder -> orElse (Some T) b = T.
Proof.
  simpl. intros [<-|[<-|[<-|[]]]]; reflexivity.
Qed.

(** The levels a report can carry. *)
Lemma reportLevel_values (er : EvaluationResult) (T : string)
    (report : WCAGComplianceReport) :
  evaluateCompliance newChecker er (Some T) = Normal report ->
  In T levelOrder /\
  (reportLevel report = "None" \/
   In (reportLevel report) levelOrder /\ LevelLe (reportLevel report) T) /\
  ((exists c, In c (failedCriteria report) /\ criterionLevel c = "A") ->
   reportLevel report = "None").
Proof.
  intros Hrun.
  destruct (report_origin er (Some T) report Hrun) as (HT & -> & _).
  cbn [targetOrDefault] in *. split; [exact HT|].
  rewrite (complianceLevel_table _ _ _ HT). split.
  - assert (Hle : forall L U, LevelLe L U -> In L levelOrder)
      by (intros L U []; simpl; auto).
    assert (Hbound :
              (if (0 <? countLevel "A" (failedCriteria report))%nat
               then "None"
               else if JS.stringGe T "AA"
                       && (0 <? countLevel "AA" (failedCriteria report))%nat
               then "A"
               else if String.eqb T "AAA"
                       && (0 <? countLevel "AAA" (failedCriteria report))%nat
               then "AA"
               else if String.eqb T "AAA"
                       && (0 <? countLevel "AAA" (passedCriteria report))%nat
                       && (0 <? countLevel "AA" (passedCriteria report))%nat
                       && (0 <? countLevel "A" (passedCriteria report))%nat
               then "AAA"
               else if JS.stringGe T "AA"
                       && (0 <? countLevel "AA" (passedCriteria report))%nat
                       && (0 <? countLevel "A" (passedCriteria report))%nat
               then "AA"
               else if (0 <? countLevel "A" (passedCriteria report))%nat
               then "A"
               else "None") = "None" \/
              LevelLe
                (if (0 <? countLevel "A" (failedCriteria report))%nat
                 then "None"
                 else if JS.stringGe T "AA"
                         && (0 <? countLevel "AA" (failedCriteria report))%nat
                 then "A"
                 else if String.eqb T "AAA"
                         && (0 <? countLevel "AAA" (failedCriteria report))%nat
                 then "AA"
                 else if String.eqb T "AAA"
                         && (0 <? countLevel "AAA" (passedCriteria report))%nat
                         && (0 <? countLevel "AA" (passedCriteria report))%nat
                         && (0 <? countLevel "A" (passedCriteria report))%nat
                 then "AAA"
                 else if JS.stringGe T "AA"
                         && (0 <? countLevel "AA" (passedCriteria report))%nat
                         && (0 <? countLevel "A" (passedCriteria report))%nat
                 then "AA"
                 else if (0 <? countLevel "A" (passedCriteria report))%nat
                 then "A"
                 else "None") T).
    { clear Hrun. simpl in HT.
      destruct HT as [<-|[<-|[<-|[]]]];
        change (JS.stringGe "A" "AA") with false;
        change (JS.stringGe "AA" "AA") with true;
        change (JS.stringGe "AAA" "AA") with true;
        change (String.eqb "A" "AAA") with false;
        change (String.eqb "AA" "AAA") with false;
        change (String.eqb "AAA" "AAA") with true;
        cbn [andb];
        repeat match goal with
               | |- context [if ?b then _ else _] => destruct b
               end;
        first [ now left | right; constructor ]. }
    destruct Hbound as [H|H]; [now left|right].
    split; [exact (Hle _ _ H)|exact H].
  - intros Hex. apply countLevel_pos in Hex. now rewrite Hex.
Qed.

(** X20: the compliance tool called with a target level A, AA or AAA.
    The answer names that level as its target, and [meetsTarget], which
    compares the two level names as strings, is set exactly when the
    report's level is the target or is ["None"]; so it is set whenever a
    criterion of level A failed. *)
Theorem meetsTarget_spec (configLoader : ConfigLoader)
    (er : EvaluationResult) (T : string) (answer : ComplianceAnswer) :
  In T levelOrder ->
  check_wcag_compliance configLoader newChecker er (Some T) = Normal answer ->
  evaluateCompliance newChecker er (Some T)
  = Normal (complianceReport answer) /\
  targetLevel answer = T /\
  (meetsTarget answer = true <->
   reportLevel (complianceReport answer) = T \/
   reportLevel (complianceReport answer) = "None") /\
  ((exists c,
       In c (failedCriteria (complianceReport answer)) /\
       criterionLevel c = "A") ->
   meetsTarget answer = true).
Proof.
  intros HT. unfold check_wcag_compliance, getWCAGLevel. cbv zeta.
  rewrite (orElse_level T _ HT), (orElse_level T "AA" HT).
  destruct (evaluateCompliance newChecker er (Some T)) as [report|e] eqn:E;
    cbn [bindC]; [|discriminate].
  intros H. injection H as <-.
  cbn [complianceReport targetLevel meetsTarget].
  destruct (reportLevel_values er T report E) as (_ & Hval & HA).
  split; [reflexivity|]. split; [reflexivity|].
  assert (Hiff : JS.stringGe (reportLevel report) T = true <->
                 reportLevel report = T \/ reportLevel report = "None").
  { clear E HA. destruct Hval as [->|[HL Hle]].
    - split; [now right|]. intros _. simpl in HT.
      destruct HT as [<-|[<-|[<-|[]]]]; reflexivity.
    - clear HL HT. set (L := reportLevel report) in *. clearbody L.
      destruct Hle;
        (split;
         [ intros H; first [left; reflexivity|discriminate H]
         | intros [H|H]; first [reflexivity|discriminate H] ]). }
  split; [exact Hiff|].
  intros Hex. apply Hiff. right. apply HA. exact Hex.
Qed.

(** X21: the compliance tool called without a target level.  The
    criteria are evaluated against the configured default level (AA when
    none is configured), but the answer names AA as its target and
    [meetsTarget] compares the report's level with AA: it is set exactly
    when that level is not ["A"].  With the default level A, a report that
    reaches its target is therefore answered with [meetsTarget] unset. *)
Theorem meetsTarget_default (configLoader : ConfigLoader)
    (er : EvaluationResult) (answer : ComplianceAnswer) :
  In (getWCAGLevel configLoader None) levelOrder ->
  check_wcag_compliance configLoader newChecker er None = Normal answer ->
  evaluateCompliance newChecker er (Some (getWCAGLevel configLoader None))
  = Normal (complianceReport answer) /\
  targetLevel answer = "AA" /\
  (meetsTarget answer = true <->
   reportLevel (complianceReport answer) <> "A") /\
  (getWCAGLevel configLoader None = "A" ->
   reportLevel (complianceReport answer) = "A" ->
   meetsTarget answer = false).
Proof.
  intros HT. unfold check_wcag_compliance. cbv zeta.
  set (T := getWCAGLevel configLoader None) in *. clearbody T.
  destruct (evaluateCompliance newChecker er (Some T)) as [report|e] eqn:E;
    cbn [bindC]; [|discriminate].
  intros H. injection H as <-.
  cbn [complianceReport targetLevel meetsTarget orElse].
  destruct (reportLevel_values er T report E) as (_ & Hval & _).
  clear E. split; [reflexivity|]. split; [reflexivity|].
  assert (Hiff : JS.stringGe (reportLevel report) "AA" = true <->
                 reportLevel report <> "A").
  { destruct Hval as [->|[HL _]].
    - split; [discriminate|reflexivity].
    - simpl in HL. destruct HL as [<-|[<-|[<-|[]]]].
      + split; [discriminate|]. intros H. now elim H.
      + split; [discriminate|reflexivity].
      + split; [discriminate|reflexivity]. }
  split; [exact Hiff|].
  intros _ HA.
  destruct (JS.stringGe (reportLevel report) "AA") eqn:G; [|reflexivity].
  exfalso. now apply (proj1 Hiff).
Qed.

End ServerFacts.

(** * The issues of a validation, in full *)

Section IssueFacts.
Import Dom Aria.
Context {engine : DomEngine}.

(** A loop whose iterations append to [issues]. *)
Lemma issues_fold {B : Type} (f : ValidationState -> B -> ValidationState)
    (g : B -> list ARIAValidationIssue) (l : list B) :
  (forall st b, stIssues (f st b) = stIssues st ++ g b) ->
  forall st, stIssues (fold_left f l st) = stIssues st ++ flat_map g l.
Proof.
  intros Hstep. induction l as [|b l IH]; intros st; simpl.
  - now rewrite app_nil_r.
  - rewrite IH, Hstep. now rewrite <- app_assoc.
Qed.

Lemma issues_fold_Completion {B : Type}
    (f : Completion ValidationState -> B -> Completion ValidationState)
    (g : B -> list ARIAValidationIssue) (l : list B) :
  (forall e b, f (Throw e) b = Throw e) ->
  (forall st b st',
      f (Normal st) b = Normal st' -> stIssues st' = stIssues st ++ g b) ->
  forall st st',
    fold_left f l (Normal st) = Normal st' ->
    stIssues st' = stIssues st ++ flat_map g l.
Proof.
  intros Hthrow Hstep. induction l as [|b l IH]; intros st st' H.
  - simpl in H. injection H as <-. simpl. now rewrite app_nil_r.
  - cbn [fold_left] in H. destruct (f (Normal st) b) as [st1|e] eqn:E.
    + rewrite (IH st1 st' H), (Hstep st b st1 E). cbn [flat_map].
      now rewrite <- app_assoc.
    + rewrite (fold_left_Throw f Hthrow) in H. discriminate.
Qed.

Lemma flat_map_singleton_filter {B C : Type} (g : B -> C) (p : B -> bool)
    (l : list B) :
  flat_map (fun b => if p b then [g b] else []) l = map g (filter p l).
Proof.
  induction l as [|b l IH]; [reflexivity|]. cbn [flat_map filter].
  rewrite IH. now destruct (p b).
Qed.

Lemma validateRole_issues (self : ARIAValidator) (st : ValidationState)
    (el : Selected) :
  stIssues (validateRole self st el) = stIssues st ++ roleIssues self el.
Proof.
  unfold validateRole, roleIssues. cbv zeta. fold (roleOf el).
  destruct (JSMap.get (roles self) (roleOf el)) as [roleSpec|];
    [|reflexivity].
  unfold pushValidUsage. cbn [stIssues].
  assert (H2 : forall st0,
             stIssues (checkRequiredParent el (roleOf el) roleSpec st0)
             = stIssues st0
               ++ match requiredParent roleSpec with
                  | Some parents =>
                      if outsideParents el parents
                      then [parentIssue el parents] else []
                  | None => []
                  end).
  { intros st0. unfold checkRequiredParent, outsideParents.
    destruct (requiredParent roleSpec) as [parents|];
      [|now rewrite app_nil_r].
    cbv zeta.
    destruct (negb
                (existsb
                   (fun parentRole =>
                      hasClosest el (attrEq "role" parentRole)) parents));
      [reflexivity|now rewrite app_nil_r]. }
  rewrite H2.
  rewrite (issues_fold (checkRequiredProperty el (roleOf el))
             (fun prop =>
                if attrMissing el prop then [missingPropertyIssue el prop]
                else [])).
  - rewrite flat_map_singleton_filter. cbn [stIssues].
    now rewrite <- app_assoc.
  - intros st0 prop. unfold checkRequiredProperty, attrMissing.
    destruct (attr el prop); [now rewrite app_nil_r|reflexivity].
Qed.

Lemma checkReference_issues (doc : Document) (el : Selected)
    (st st' : ValidationState) (id : string) :
  checkReference doc el (Normal st) id = Normal st' ->
  stIssues st' = stIssues st ++ referenceIssues doc el id.
Proof.
  unfold checkReference, referenceIssues. cbn [bindC].
  destruct (select doc ("#" ++ id)%string) as [n|e]; cbn [bindC];
    [|discriminate].
  destruct (n =? 0)%nat; intros H; injection H as <-;
    [reflexivity|now rewrite app_nil_r].
Qed.

Lemma validateProperty_issues (doc : Document) (prop : string)
    (st st' : ValidationState) (el : Selected) :
  validateProperty doc prop (Normal st) el = Normal st' ->
  stIssues st' = stIssues st ++ propertyIssues doc prop el.
Proof.
  unfold validateProperty, propertyIssues. cbn [bindC]. cbv zeta.
  destruct (attr el prop) as [[|c v]|].
  - intros H. injection H as <-. reflexivity.
  - destruct (String.eqb prop "aria-labelledby").
    + intros H.
      apply (issues_fold_Completion (checkReference doc el)
               (referenceIssues doc el)) in H; [exact H|reflexivity|].
      intros a id a'. apply checkReference_issues.
    + intros H. injection H as <-. cbn [stIssues addPropertyUsed].
      now rewrite app_nil_r.
  - intros H. injection H as <-. cbn [stIssues addPropertyUsed].
    now rewrite app_nil_r.
Qed.

Lemma validateProperties_issues (self : ARIAValidator) (doc : Document)
    (st st' : ValidationState) :
  validateProperties self doc st = Normal st' ->
  stIssues st'
  = stIssues st
    ++ flat_map
         (fun prop =>
            flat_map (propertyIssues doc prop) (query doc (hasAttr prop)))
         (properties self).
Proof.
  unfold validateProperties.
  apply (issues_fold_Completion
           (fun acc prop =>
              fold_left (validateProperty doc prop)
                (query doc (hasAttr prop)) acc)
           (fun prop =>
              flat_map (propertyIssues doc prop) (query doc (hasAttr prop)))).
  - intros e prop. apply fold_left_Throw. reflexivity.
  - intros a prop a'.
    apply (issues_fold_Completion (validateProperty doc prop)
             (propertyIssues doc prop)); [reflexivity|].
    intros b el b'. apply validateProperty_issues.
Qed.

(** X22: the issues of a completed validation, in full.  They are the
    explained forms of five groups, in this order: the role issues of
    each element with a [role] attribute in document order (for an unknown
    role the single error that says so, for a known one an error per
    missing required property and then the error for a missing parent
    role); for each property of the catalogue in turn, the empty-value
    warnings and dangling [aria-labelledby] references of the elements
    that carry it; a warning for each element whose role repeats the
    semantics of its tag; an error for each [aria-hidden="true"] element
    that is focusable or contains a focusable element; and the landmark
    issues.  Nothing else is reported. *)
Theorem validate_issues (self : ARIAValidator) (doc : Document)
    (r : ARIAValidationResult) :
  validateDocument self doc = Normal r ->
  issues r = map enhanceIssue (allIssues self doc).
Proof.
  unfold validateDocument. cbv zeta.
  destruct (validateProperties self doc (validateRoles self doc initialState))
    as [st|e] eqn:E; cbn [bindC]; [|discriminate].
  intros H. injection H as <-. cbn [issues]. f_equal.
  rewrite checkLandmarks_issues. cbn [stIssues].
  unfold checkHidden.
  rewrite (issues_fold
             (fun st el =>
                if matches el focusableSelectors
                   || (0 <? List.length (find el focusableSelectors))%nat
                then
                  pushIssue st
                    (mkIssue error (excerpt el) (getSelector el)
                       ("aria-hidden=" ++ dq ++ "true" ++ dq
                        ++ " on focusable element or container with focusable children")%string
                       "Remove aria-hidden or make element and children non-focusable"
                       spec12 None None None)
                else st)
             (fun el => if holdsFocus el then [hiddenIssue el] else [])).
  2:{ intros st0 el. unfold holdsFocus.
      destruct (matches el focusableSelectors
                || (0 <? List.length (find el focusableSelectors))%nat);
        [reflexivity|now rewrite app_nil_r]. }
  rewrite flat_map_singleton_filter.
  unfold checkRedundant.
  rewrite (issues_fold
             (fun st el =>
                pushIssue st
                  (mkIssue warning (excerpt el) (getSelector el)
                     ("Redundant ARIA role on " ++ tagName (Dom.self el)
                      ++ " element")%string
                     "Remove redundant role attribute as the element has implicit semantics"
                     spec12 None None None))
             (fun el => [redundantIssue el])).
  2:{ intros st0 el. reflexivity. }
  rewrite (validateProperties_issues self doc _ st E).
  unfold validateRoles.
  rewrite (issues_fold (validateRole self) (roleIssues self)
             (query doc (hasAttr "role")) (validateRole_issues self)).
  cbn [stIssues initialState app]. unfold allIssues, roleElements.
  assert (R : flat_map (fun el : Selected => [redundantIssue el])
                (query doc redundantSelector)
              = map redundantIssue (query doc redundantSelector)).
  { clear. induction (query doc redundantSelector) as [|el els IH];
      [reflexivity|].
    cbn [flat_map map app]. now rewrite IH. }
  rewrite R, <- !app_assoc. reflexivity.
Qed.

End IssueFacts.

(** * The further properties on sample inputs *)

Section CalculatorSamples.
Import Types Checker Server.

Lemma classification_rule_witness :
  exists applicable report,
    getApplicableCriteria newChecker (targetOrDefault (Some "AA"))
    = Normal applicable /\
    evaluateCompliance newChecker sampleResult (Some "AA") = Normal report /\
    In firstCriterion (JSMap.values applicable) /\
    (In firstCriterion (failedCriteria report) <->
     reportedUnder sampleResult "1.1.1").
Proof.
  eexists. eexists.
  split; [vm_compute; reflexivity|].
  split; [vm_compute; reflexivity|].
  refine ((fun Hin =>
             conj Hin
               (proj1 (classification_rule sampleResult (Some "AA") _ _
                         firstCriterion eq_refl eq_refl Hin))) _).
  vm_compute. left. reflexivity.
Defined.

Lemma level_within_target_witness :
  exists report,
    evaluateCompliance newChecker sampleResult (Some "AA") = Normal report /\
    (reportLevel report = "None" \/ LevelLe (reportLevel report) "AA").
Proof.
  eexists. split; [vm_compute; reflexivity|].
  exact (level_within_target sampleResult (Some "AA") _ eq_refl).
Defined.

Lemma target_met_iff_witness :
  exists report,
    evaluateCompliance newChecker (resultWith []) (Some "AA")
    = Normal report /\
    (reportLevel report = "AA" <->
     failedCriteria report = [] /\
     forall L,
       LevelLe L "AA" ->
       exists c, In c (passedCriteria report) /\ criterionLevel c = L).
Proof.
  eexists. split; [vm_compute; reflexivity|].
  exact (target_met_iff (resultWith []) (Some "AA") _ eq_refl).
Defined.

Lemma failure_cascade_witness :
  exists report,
    evaluateCompliance newChecker (resultWith ["WCAG 1.4.3"]) (Some "AA")
    = Normal report /\
    reportLevel report = "A".
Proof.
  eexists. split; [vm_compute; reflexivity|].
  refine (proj1 (failure_cascade (resultWith ["WCAG 1.4.3"]) (Some "AA") _
                   eq_refl _) _).
  - intros c Hc. vm_compute in Hc. destruct Hc as [<-|[]]. discriminate.
  - exists (nth 8 catalog firstCriterion).
    split; [vm_compute; left; reflexivity|reflexivity].
Defined.

Lemma overallScore_monotone_witness :
  PrimFloat.leb
    (calculateOverallScore (firstn 2 catalog) ([] ++ skipn 14 catalog))
    (calculateOverallScore (firstn 2 catalog) [])
  = true.
Proof.
  refine (proj1 (overallScore_monotone (firstn 2 catalog) []
                   (skipn 14 catalog) _)).
  vm_compute. repeat constructor.
Defined.

Lemma scores_are_percentages_witness :
  exists report,
    evaluateCompliance newChecker sampleResult (Some "AA") = Normal report /\
    isPercentage (overallScore report).
Proof.
  eexists. split; [vm_compute; reflexivity|].
  exact (proj1 (scores_are_percentages sampleResult (Some "AA") _ eq_refl)).
Defined.

Lemma overallScore_extremes_witness :
  exists report,
    evaluateCompliance newChecker (resultWith []) (Some "AA")
    = Normal report /\
    (overallScore report = 100%float <->
     failedCriteria report = [] /\ passedCriteria report <> []).
Proof.
  eexists. split; [vm_compute; reflexivity|].
  exact (proj1 (overallScore_extremes (resultWith []) (Some "AA") _ eq_refl)).
Defined.

Lemma irrelevant_issues_ignored_witness :
  exists applicable,
    getApplicableCriteria newChecker (targetOrDefault (Some "AA"))
    = Normal applicable /\
    evaluateCompliance newChecker
      (withIssues (relevantIssue (JSMap.keys applicable))
         (resultWith ["WCAG 1.4.3"; "WCAG 9.9.9"; "ARIA Valid Values"]))
      (Some "AA")
    = evaluateCompliance newChecker
        (resultWith ["WCAG 1.4.3"; "WCAG 9.9.9"; "ARIA Valid Values"])
        (Some "AA").
Proof.
  eexists. split; [vm_compute; reflexivity|].
  exact (irrelevant_issues_ignored
           (resultWith ["WCAG 1.4.3"; "WCAG 9.9.9"; "ARIA Valid Values"])
           (Some "AA") _ eq_refl).
Defined.

Lemma meetsTarget_spec_witness :
  exists answer,
    check_wcag_compliance (mkLoader None) newChecker sampleResult (Some "AA")
    = Normal answer /\
    targetLevel answer = "AA" /\
    reportLevel (complianceReport answer) = "None" /\
    meetsTarget answer = true.
Proof.
  eexists. split; [vm_compute; reflexivity|].
  refine ((fun Hlevel H =>
             conj (proj1 (proj2 H))
               (conj Hlevel
                  (proj2 (proj1 (proj2 (proj2 H))) (or_intror Hlevel))))
            _
            (meetsTarget_spec (mkLoader None) sampleResult "AA" _
               (or_intror (or_introl eq_refl)) eq_refl)).
  vm_compute. reflexivity.
Defined.

Lemma meetsTarget_default_witness :
  exists answer,
    check_wcag_compliance (mkLoader (Some "A")) newChecker (resultWith [])
      None
    = Normal answer /\
    targetLevel answer = "AA" /\
    reportLevel (complianceReport answer) = "A" /\
    meetsTarget answer = false.
Proof.
  eexists. split; [vm_compute; reflexivity|].
  refine ((fun Hlevel H =>
             conj (proj1 (proj2 H))
               (conj Hlevel (proj2 (proj2 (proj2 H)) eq_refl Hlevel)))
            _
            (meetsTarget_default (mkLoader (Some "A")) (resultWith []) _
               (or_introl eq_refl) eq_refl)).
  vm_compute. reflexivity.
Defined.

End CalculatorSamples.

Section EvaluatorSamples.
Import Types Dom Evaluator.

Lemma passedChecks_rule_witness :
  exists r log,
    @evaluateHTML (sampleEngine imagesDocument) failingAxe "<img src=x.jpg>"
    = (Normal r, log) /\
    passedChecks r
    = @passedLabels (sampleEngine imagesDocument) imagesDocument "WCAG: "
        (@wcagRules (sampleEngine imagesDocument))
      ++ @passedLabels (sampleEngine imagesDocument) imagesDocument "ARIA: "
           (@ariaRules (sampleEngine imagesDocument)).
Proof.
  eexists. eexists. split; [vm_compute; reflexivity|].
  exact (proj1 (@passedChecks_rule (sampleEngine imagesDocument) failingAxe
                  "<img src=x.jpg>" _ _ eq_refl)).
Defined.

Lemma summary_consistent_witness :
  exists r log,
    @evaluateHTML (sampleEngine imagesDocument) failingAxe "<img src=x.jpg>"
    = (Normal r, log) /\
    totalIssues (summary r) = List.length (issues r) /\
    (errors (summary r) + warnings (summary r) + infos (summary r)
     = totalIssues (summary r))%nat.
Proof.
  eexists. eexists. split; [vm_compute; reflexivity|].
  refine ((fun H => conj (proj1 H) (proj1 (proj2 H)))
            (@summary_consistent (sampleEngine imagesDocument) failingAxe
               "<img src=x.jpg>" _ _ eq_refl)).
Defined.

Lemma axe_success_appends_witness :
  exists found vs,
    @allRuleIssues (sampleEngine imagesDocument) imagesDocument
    = Normal found /\
    @axe_run reportingAxe tt = Normal vs /\
    exists r,
      @evaluateHTML (sampleEngine imagesDocument) reportingAxe
        "<img src=x.jpg>"
      = (Normal r, []) /\
      issues r = map enhanceIssue (found ++ flat_map violationIssues vs).
Proof.
  eexists. eexists.
  split; [vm_compute; reflexivity|]. split; [reflexivity|].
  refine ((fun Hnodes =>
             match
               @axe_success_appends (sampleEngine imagesDocument)
                 reportingAxe "<img src=x.jpg>" tt _ _ eq_refl eq_refl
                 eq_refl Hnodes
             with
             | ex_intro _ r (conj H1 (conj H2 _)) =>
                 ex_intro _ r (conj H1 H2)
             end) _).
  repeat constructor. discriminate.
Defined.

End EvaluatorSamples.

Section ValidatorSamples.
Import Dom Aria.

Lemma statistics_spec_witness :
  exists r,
    @validateDocument (sampleEngine twoMainsDocument) newValidator
      twoMainsDocument
    = Normal r /\
    totalARIAElements (statistics r) = 3%nat /\
    List.length (validUsages r) = 3%nat.
Proof.
  eexists. split; [vm_compute; reflexivity|].
  refine ((fun Hrun Htotal Husages =>
             conj
               (eq_trans
                  (proj1
                     (@statistics_spec (sampleEngine twoMainsDocument)
                        newValidator twoMainsDocument _ Hrun))
                  Htotal)
               (eq_trans
                  (f_equal (@List.length string)
                     (proj1
                        (proj2
                           (@statistics_spec (sampleEngine twoMainsDocument)
                              newValidator twoMainsDocument _ Hrun))))
                  Husages))
            _ _ _);
    vm_compute; reflexivity.
Defined.

Lemma validate_issues_witness :
  exists r,
    @validateDocument (sampleEngine twoMainsDocument) newValidator
      twoMainsDocument
    = Normal r /\
    issues r
    = map enhanceIssue
        (@allIssues (sampleEngine twoMainsDocument) newValidator
           twoMainsDocument).
Proof.
  eexists. split; [vm_compute; reflexivity|].
  refine ((fun Hrun =>
             @validate_issues (sampleEngine twoMainsDocument) newValidator
               twoMainsDocument _ Hrun) _).
  vm_compute. reflexivity.
Defined.

End ValidatorSamples.

(** * The validator over the store *)

Section StoreFacts.
Import Dom Aria AriaStore.

Lemma nth_error_after (h0 t : Heap) (k : nat) :
  nth_error (h0 ++ t) (List.length h0 + k) = nth_error t k.
Proof.
  induction h0 as [|o h0 IH]; [reflexivity|exact IH].
Qed.

Lemma nth_error_first (h0 t : Heap) :
  nth_error (h0 ++ t) (List.length h0) = nth_error t 0.
Proof.
  rewrite <- (nth_error_after h0 t 0). now rewrite Nat.add_0_r.
Qed.

Lemma nth_error_before (h0 t : Heap) (l : Loc) (o : Object) :
  nth_error h0 l = Some o -> nth_error (h0 ++ t) l = Some o.
Proof.
  intros H. rewrite nth_error_app1; [exact H|].
  apply nth_error_Some. congruence.
Qed.

Lemma update_after (h0 t : Heap) (k : nat) (o : Object) :
  update (List.length h0 + k) o (h0 ++ t) = h0 ++ update k o t.
Proof.
  induction h0 as [|x h0 IH]; [reflexivity|].
  cbn [List.length Nat.add app update]. now rewrite IH.
Qed.

Lemma update_first (h0 t : Heap) (o : Object) :
  update (List.length h0) o (h0 ++ t) = h0 ++ update 0 o t.
Proof.
  rewrite <- (update_after h0 t 0). now rewrite Nat.add_0_r.
Qed.

Lemma validatorAt_before (h0 t : Heap) (this : Loc) (v : ARIAValidator) :
  validatorAt h0 this = Some v -> validatorAt (h0 ++ t) this = Some v.
Proof.
  unfold validatorAt.
  destruct (nth_error h0 this) as [[| | | | |r p s|]|] eqn:E0;
    try discriminate.
  destruct (nth_error h0 r) as [[m| | | | | |]|] eqn:E1; try discriminate.
  destruct (nth_error h0 p) as [[|ps| | | | |]|] eqn:E2; try discriminate.
  destruct (nth_error h0 s) as [[|ss| | | | |]|] eqn:E3; try discriminate.
  intros H.
  rewrite (nth_error_before _ t _ _ E0), (nth_error_before _ t _ _ E1),
    (nth_error_before _ t _ _ E2), (nth_error_before _ t _ _ E3).
  exact H.
Qed.

Lemma snapshot_before (h0 t : Heap) (r : Loc) (v : ARIAValidationResult) :
  snapshot h0 r = Some v -> snapshot (h0 ++ t) r = Some v.
Proof.
  unfold snapshot.
  destruct (nth_error h0 r) as [[| | | | | |i u s]|] eqn:E0;
    try discriminate.
  destruct (nth_error h0 i) as [[| |items| | | |]|] eqn:E1;
    try discriminate.
  destruct (nth_error h0 u) as [[| | |lines| | |]|] eqn:E2;
    try discriminate.
  destruct (nth_error h0 s) as [[| | | |n a b c| |]|] eqn:E3;
    try discriminate.
  destruct (nth_error h0 a) as [[|ra| | | | |]|] eqn:E4; try discriminate.
  destruct (nth_error h0 b) as [[|pb| | | | |]|] eqn:E5; try discriminate.
  destruct (nth_error h0 c) as [[|sc| | | | |]|] eqn:E6; try discriminate.
  intros H.
  rewrite (nth_error_before _ t _ _ E0), (nth_error_before _ t _ _ E1),
    (nth_error_before _ t _ _ E2), (nth_error_before _ t _ _ E3),
    (nth_error_before _ t _ _ E4), (nth_error_before _ t _ _ E5),
    (nth_error_before _ t _ _ E6).
  exact H.
Qed.

Lemma snapshot_inside (h : Heap) (r : Loc) (v : ARIAValidationResult) :
  snapshot h r = Some v -> (r < List.length h)%nat.
Proof.
  unfold snapshot. intros H. apply nth_error_Some.
  destruct (nth_error h r); [discriminate|discriminate].
Qed.

Section Steps.
Context {engine : DomEngine}.
Variable h0 : Heap.
Variable this : Loc.
Variable validator : ARIAValidator.
Hypothesis this_validator : validatorAt h0 this = Some validator.

Let base : nat := List.length h0.
Let issues : Loc := base.
Let validUsages : Loc := (base + 1)%nat.
Let statistics : Loc := (base + 5)%nat.

(** The primitive steps on the locals of a call. *)

Lemma push_step (st : ValidationState) (i : ARIAValidationIssue) :
  push issues i (withLocals h0 st)
  = (Normal tt, withLocals h0 (pushIssue st i)).
Proof.
  unfold push, bind, load, store, withLocals, issues, base.
  rewrite nth_error_first. cbn [nth_error locals].
  rewrite nth_error_first. cbn [nth_error].
  now rewrite update_first.
Qed.

Lemma pushLine_step (st : ValidationState) (line : string) :
  pushLine validUsages line (withLocals h0 st)
  = (Normal tt, withLocals h0 (pushValidUsage st line)).
Proof.
  unfold pushLine, bind, load, store, withLocals, validUsages, base.
  rewrite nth_error_after. cbn [nth_error locals].
  rewrite nth_error_after. cbn [nth_error].
  now rewrite update_after.
Qed.

Lemma rolesUsed_step (st : ValidationState) (role : string) :
  (rolesUsed <~ statistics_rolesUsed statistics ;; Set_add rolesUsed role)
    (withLocals h0 st)
  = (Normal tt, withLocals h0 (addRoleUsed st role)).
Proof.
  unfold statistics_rolesUsed, Set_add, bind, load, store, ret, withLocals,
    statistics, base.
  repeat (rewrite nth_error_after; cbn [nth_error locals]).
  now rewrite update_after.
Qed.

Lemma propertiesUsed_step (st : ValidationState) (prop : string) :
  (propertiesUsed <~ statistics_propertiesUsed statistics ;;
   Set_add propertiesUsed prop)
    (withLocals h0 st)
  = (Normal tt, withLocals h0 (addPropertyUsed st prop)).
Proof.
  unfold statistics_propertiesUsed, Set_add, bind, load, store, ret,
    withLocals, statistics, base.
  repeat (rewrite nth_error_after; cbn [nth_error locals]).
  now rewrite update_after.
Qed.

Lemma increment_step (st : ValidationState) :
  increment_totalARIAElements statistics (withLocals h0 st)
  = (Normal tt, withLocals h0 (countARIAElement st)).
Proof.
  unfold increment_totalARIAElements, bind, load, store, withLocals,
    statistics, base.
  rewrite nth_error_after. cbn [nth_error locals].
  rewrite nth_error_after. cbn [nth_error].
  now rewrite update_after.
Qed.

(** The reads of the validator's fields. *)

Lemma roles_has_step (t : Heap) (k : string) :
  (roles <~ this_roles this ;; Map_has roles k) (h0 ++ t)
  = (Normal (JSMap.has (roles validator) k), h0 ++ t).
Proof.
  pose proof this_validator as H. unfold validatorAt in H.
  destruct (nth_error h0 this) as [[| | | | |r p s|]|] eqn:E0;
    try discriminate.
  destruct (nth_error h0 r) as [[m| | | | | |]|] eqn:E1; try discriminate.
  destruct (nth_error h0 p) as [[|ps| | | | |]|] eqn:E2; try discriminate.
  destruct (nth_error h0 s) as [[|ss| | | | |]|] eqn:E3; try discriminate.
  injection H as <-.
  unfold this_roles, Map_has, bind, load, ret.
  rewrite (nth_error_before _ t _ _ E0), (nth_error_before _ t _ _ E1).
  reflexivity.
Qed.

Lemma roles_get_step (t : Heap) (k : string) :
  (roles <~ this_roles this ;; Map_get roles k) (h0 ++ t)
  = (Normal (JSMap.get (roles validator) k), h0 ++ t).
Proof.
  pose proof this_validator as H. unfold validatorAt in H.
  destruct (nth_error h0 this) as [[| | | | |r p s|]|] eqn:E0;
    try discriminate.
  destruct (nth_error h0 r) as [[m| | | | | |]|] eqn:E1; try discriminate.
  destruct (nth_error h0 p) as [[|ps| | | | |]|] eqn:E2; try discriminate.
  destruct (nth_error h0 s) as [[|ss| | | | |]|] eqn:E3; try discriminate.
  injection H as <-.
  unfold this_roles, Map_get, bind, load, ret.
  rewrite (nth_error_before _ t _ _ E0), (nth_error_before _ t _ _ E1).
  reflexivity.
Qed.

Lemma properties_step (t : Heap) :
  (properties <~ this_properties this ;; Set_members properties) (h0 ++ t)
  = (Normal (properties validator), h0 ++ t).
Proof.
  pose proof this_validator as H. unfold validatorAt in H.
  destruct (nth_error h0 this) as [[| | | | |r p s|]|] eqn:E0;
    try discriminate.
  destruct (nth_error h0 r) as [[m| | | | | |]|] eqn:E1; try discriminate.
  destruct (nth_error h0 p) as [[|ps| | | | |]|] eqn:E2; try discriminate.
  destruct (nth_error h0 s) as [[|ss| | | | |]|] eqn:E3; try discriminate.
  injection H as <-.
  unfold this_properties, Set_members, bind, load, ret.
  rewrite (nth_error_before _ t _ _ E0), (nth_error_before _ t _ _ E2).
  reflexivity.
Qed.

Lemma properties_locals (st : ValidationState) :
  (properties <~ this_properties this ;; Set_members properties)
    (withLocals h0 st)
  = (Normal (properties validator), withLocals h0 st).
Proof. apply properties_step. Qed.

(** Sequencing, one step at a time. *)

Lemma bind_Normal {A B : Type} (m : M A) (k : A -> M B) (h h' : Heap)
    (a : A) :
  m h = (Normal a, h') -> bind m k h = k a h'.
Proof. intros H. unfold bind. now rewrite H. Qed.

Lemma bind_Throw {A B : Type} (m : M A) (k : A -> M B) (h h' : Heap)
    (e : string) :
  m h = (Throw e, h') -> bind m k h = (Throw e, h').
Proof. intros H. unfold bind. now rewrite H. Qed.

Lemma bind_assoc {A B C : Type} (m : M A) (k : A -> M B) (k' : B -> M C)
    (h : Heap) :
  bind (bind m k) k' h = bind m (fun a => bind (k a) k') h.
Proof.
  unfold bind. destruct (m h) as [[a|e] h1]; [|reflexivity].
  reflexivity.
Qed.

(** A loop whose turns act on the locals as [f] acts on the local
    state. *)
Lemma forEachM_steps {B : Type} (body : B -> M unit)
    (f : ValidationState -> B -> ValidationState) (items : list B) :
  (forall st b,
      body b (withLocals h0 st) = (Normal tt, withLocals h0 (f st b))) ->
  forall st,
    forEachM items body (withLocals h0 st)
    = (Normal tt, withLocals h0 (fold_left f items st)).
Proof.
  intros Hbody. induction items as [|b items IH]; intros st;
    [reflexivity|].
  cbn [forEachM fold_left]. rewrite (bind_Normal _ _ _ _ _ (Hbody st b)).
  apply IH.
Qed.

(** What a step that may throw does on the locals: it completes with the
    local state [st'], or throws [e] and leaves some local state. *)
Definition runs (m : M unit) (st : ValidationState)
    (c : Completion ValidationState) : Prop :=
  match c with
  | Normal st' => m (withLocals h0 st) = (Normal tt, withLocals h0 st')
  | Throw e => exists st', m (withLocals h0 st) = (Throw e, withLocals h0 st')
  end.

Lemma forEachM_runs {B : Type} (body : B -> M unit)
    (g : Completion ValidationState -> B -> Completion ValidationState)
    (items : list B) :
  (forall e b, g (Throw e) b = Throw e) ->
  (forall st b, runs (body b) st (g (Normal st) b)) ->
  forall st, runs (forEachM items body) st (fold_left g items (Normal st)).
Proof.
  intros Hthrow Hbody. induction items as [|b items IH]; intros st.
  - reflexivity.
  - cbn [forEachM fold_left]. pose proof (Hbody st b) as Hb.
    destruct (g (Normal st) b) as [st1|e]; unfold runs in Hb.
    + pose proof (IH st1) as Hrest. unfold runs in Hrest |- *.
      destruct (fold_left g items (Normal st1)) as [st2|e].
      * rewrite (bind_Normal _ _ _ _ _ Hb). exact Hrest.
      * destruct Hrest as [st' Hrest]. exists st'.
        rewrite (bind_Normal _ _ _ _ _ Hb). exact Hrest.
    + rewrite (fold_left_Throw g Hthrow). unfold runs.
      destruct Hb as [st' Hb]. exists st'.
      apply (bind_Throw _ _ _ _ _ Hb).
Qed.

(** The loop bodies. *)

Lemma checkRequiredProperty_step (el : Selected) (role prop : string)
    (st : ValidationState) :
  AriaStore.checkRequiredProperty issues el role prop (withLocals h0 st)
  = (Normal tt, withLocals h0 (Aria.checkRequiredProperty el role st prop)).
Proof.
  unfold AriaStore.checkRequiredProperty, Aria.checkRequiredProperty.
  destruct (attr el prop); [reflexivity|apply push_step].
Qed.

Lemma checkRequiredParent_step (el : Selected) (role : string)
    (roleSpec : ARIARole) (st : ValidationState) :
  AriaStore.checkRequiredParent issues el role roleSpec (withLocals h0 st)
  = (Normal tt,
     withLocals h0 (Aria.checkRequiredParent el role roleSpec st)).
Proof.
  unfold AriaStore.checkRequiredParent, Aria.checkRequiredParent.
  destruct (requiredParent roleSpec) as [parents|]; [|reflexivity].
  cbv zeta.
  destruct (negb
              (existsb
                 (fun parentRole => hasClosest el (attrEq "role" parentRole))
                 parents));
    [apply push_step|reflexivity].
Qed.

Lemma validateRole_step (el : Selected) (st : ValidationState) :
  AriaStore.validateRole this issues validUsages statistics el
    (withLocals h0 st)
  = (Normal tt, withLocals h0 (Aria.validateRole validator st el)).
Proof.
  unfold AriaStore.validateRole, Aria.validateRole. cbv zeta.
  set (role := match attr el "role" with
               | Some r => r
               | None => "undefined"
               end).
  rewrite <- bind_assoc.
  rewrite (bind_Normal _ _ _ _ _ (rolesUsed_step st role)).
  rewrite (bind_Normal _ _ _ _ _ (increment_step (addRoleUsed st role))).
  rewrite <- bind_assoc.
  unfold withLocals at 1.
  rewrite (bind_Normal _ _ _ _ _ (roles_has_step _ role)).
  fold (withLocals h0 (countARIAElement (addRoleUsed st role))).
  unfold JSMap.has.
  destruct (JSMap.get (roles validator) role) as [roleSpec|] eqn:G;
    cbn [negb].
  - rewrite <- bind_assoc. unfold withLocals at 1.
    rewrite (bind_Normal _ _ _ _ _ (roles_get_step _ role)). rewrite G.
    fold (withLocals h0 (countARIAElement (addRoleUsed st role))).
    rewrite (bind_Normal _ _ _ _ _
               (forEachM_steps
                  (AriaStore.checkRequiredProperty issues el role)
                  (Aria.checkRequiredProperty el role)
                  (requiredProperties roleSpec)
                  (fun s p => checkRequiredProperty_step el role p s) _)).
    rewrite (bind_Normal _ _ _ _ _
               (checkRequiredParent_step el role roleSpec _)).
    apply pushLine_step.
  - apply push_step.
Qed.

Lemma checkReference_runs (doc : Document) (el : Selected) (id : string)
    (st : ValidationState) :
  runs (AriaStore.checkReference doc issues el id) st
    (Aria.checkReference doc el (Normal st) id).
Proof.
  unfold AriaStore.checkReference, Aria.checkReference, runs, bind, liftC.
  cbn [bindC].
  destruct (select doc ("#" ++ id)%string) as [n|e]; cbn [bindC].
  - destruct (n =? 0)%nat; [apply push_step|reflexivity].
  - now exists st.
Qed.

Lemma validateProperty_runs (doc : Document) (prop : string) (el : Selected)
    (st : ValidationState) :
  runs (AriaStore.validateProperty doc issues statistics prop el) st
    (Aria.validateProperty doc prop (Normal st) el).
Proof.
  unfold AriaStore.validateProperty, Aria.validateProperty. cbn [bindC].
  cbv zeta. unfold runs.
  rewrite <- bind_assoc.
  rewrite (bind_Normal _ _ _ _ _ (propertiesUsed_step st prop)).
  destruct (attr el prop) as [[|c v]|].
  - rewrite (bind_Normal _ _ _ _ _ (push_step _ _)). reflexivity.
  - unfold bind at 1, ret at 1.
    destruct (String.eqb prop "aria-labelledby"); [|reflexivity].
    apply (forEachM_runs (AriaStore.checkReference doc issues el)
             (Aria.checkReference doc el));
      [reflexivity|].
    intros s id. apply checkReference_runs.
  - reflexivity.
Qed.

Lemma checkRedundant_step (el : Selected) (st : ValidationState) :
  AriaStore.checkRedundant issues el (withLocals h0 st)
  = (Normal tt,
     withLocals h0
       (pushIssue st
          (mkIssue warning (excerpt el) (getSelector el)
             ("Redundant ARIA role on " ++ tagName (self el)
              ++ " element")%string
             "Remove redundant role attribute as the element has implicit semantics"
             spec12 None None None))).
Proof. apply push_step. Qed.

Lemma checkHidden_step (el : Selected) (st : ValidationState) :
  AriaStore.checkHidden issues el (withLocals h0 st)
  = (Normal tt,
     withLocals h0
       (if matches el focusableSelectors
           || (0 <? List.length (find el focusableSelectors))%nat
        then
          pushIssue st
            (mkIssue error (excerpt el) (getSelector el)
               ("aria-hidden=" ++ dq ++ "true" ++ dq
                ++ " on focusable element or container with focusable children")%string
               "Remove aria-hidden or make element and children non-focusable"
               spec12 None None None)
        else st)).
Proof.
  unfold AriaStore.checkHidden.
  destruct (matches el focusableSelectors
            || (0 <? List.length (find el focusableSelectors))%nat);
    [apply push_step|reflexivity].
Qed.

Lemma checkLandmark_step (doc : Document) (landmark : string)
    (st : ValidationState) :
  AriaStore.checkLandmark doc issues landmark (withLocals h0 st)
  = (Normal tt, withLocals h0 (Aria.checkLandmark doc st landmark)).
Proof.
  unfold AriaStore.checkLandmark, Aria.checkLandmark. cbv zeta.
  destruct ((1 <? List.length (query doc (attrEq "role" landmark)))%nat
            && String.eqb landmark "main");
    [apply push_step|].
  destruct (1 <? List.length (query doc (attrEq "role" landmark)))%nat;
    [|reflexivity].
  destruct (0 <? List.length
                   (filter
                      (fun el =>
                         negb (attrTruthy el "aria-label")
                         && negb (attrTruthy el "aria-labelledby"))
                      (query doc (attrEq "role" landmark))))%nat;
    [apply push_step|reflexivity].
Qed.

(** The statements of [validate] after its declarations compute what
    [Aria.validateDocument] computes: when it returns [v], they add the
    array of explained issues and the result object to the store and the
    result reads as [v]; when it throws, they throw the same error.  The
    store before the locals is left as it was. *)
Lemma runChecks_refines (doc : Document) :
  match Aria.validateDocument validator doc with
  | Normal v =>
      exists st,
        runChecks this doc issues validUsages statistics
          (withLocals h0 initialState)
        = (Normal (base + 7)%nat,
           withLocals h0 st
           ++ [IssueArray (Aria.issues v);
               ResultObject (base + 6) validUsages statistics]) /\
        v = mkResult (map enhanceIssue (stIssues st)) (stValidUsages st)
              (stStatistics st)
  | Throw e =>
      exists st,
        runChecks this doc issues validUsages statistics
          (withLocals h0 initialState)
        = (Throw e, withLocals h0 st)
  end.
Proof.
  unfold runChecks, Aria.validateDocument. cbv zeta.
  rewrite (bind_Normal _ _ _ _ _
             (forEachM_steps
                (AriaStore.validateRole this issues validUsages statistics)
                (Aria.validateRole validator) (query doc (hasAttr "role"))
                (fun s el => validateRole_step el s) initialState)).
  fold (Aria.validateRoles validator doc initialState).
  set (st1 := Aria.validateRoles validator doc initialState).
  rewrite <- bind_assoc.
  rewrite (bind_Normal _ _ _ _ _ (properties_locals st1)).
  pose proof
    (forEachM_runs
       (fun prop =>
          forEachM (query doc (hasAttr prop))
            (AriaStore.validateProperty doc issues statistics prop))
       (fun acc prop =>
          fold_left (Aria.validateProperty doc prop)
            (query doc (hasAttr prop)) acc)
       (properties validator)
       (fun e prop => fold_left_Throw _ (fun e0 b => eq_refl) _ e)
       (fun s prop =>
          forEachM_runs
            (AriaStore.validateProperty doc issues statistics prop)
            (Aria.validateProperty doc prop) (query doc (hasAttr prop))
            (fun e0 b => eq_refl)
            (fun s0 el => validateProperty_runs doc prop el s0) s)
       st1) as Hprops.
  fold (Aria.validateProperties validator doc st1) in Hprops.
  destruct (Aria.validateProperties validator doc st1) as [st2|e];
    unfold runs in Hprops; cbn [bindC].
  - rewrite (bind_Normal _ _ _ _ _ Hprops).
    rewrite (bind_Normal _ _ _ _ _
               (forEachM_steps (AriaStore.checkRedundant issues) _
                  (query doc redundantSelector)
                  (fun s el => checkRedundant_step el s) st2)).
    fold (Aria.checkRedundant doc st2).
    rewrite (bind_Normal _ _ _ _ _
               (forEachM_steps (AriaStore.checkHidden issues) _
                  (query doc (attrEq "aria-hidden" "true"))
                  (fun s el => checkHidden_step el s) _)).
    fold (Aria.checkHidden doc (Aria.checkRedundant doc st2)).
    rewrite (bind_Normal _ _ _ _ _
               (forEachM_steps (AriaStore.checkLandmark doc issues)
                  (Aria.checkLandmark doc) landmarks
                  (fun s l => checkLandmark_step doc l s) _)).
    fold (Aria.checkLandmarks doc
            (Aria.checkHidden doc (Aria.checkRedundant doc st2))).
    set (st3 := Aria.checkLandmarks doc
                  (Aria.checkHidden doc (Aria.checkRedundant doc st2))).
    exists st3. split; [|reflexivity].
    unfold bind, load, new, withLocals, issues, base.
    rewrite nth_error_first. cbn [nth_error locals Aria.issues].
    rewrite !length_app. cbn [List.length locals].
    rewrite <- !Nat.add_assoc. cbn [Nat.add].
    rewrite <- !app_assoc. reflexivity.
  - destruct Hprops as [st' Hprops]. exists st'.
    apply (bind_Throw _ _ _ _ _ Hprops).
Qed.

End Steps.

Context {engine : DomEngine}.

(** The result object of a completed call, read from the store. *)
Lemma snapshot_result (h0 : Heap) (st : ValidationState) :
  snapshot
    (withLocals h0 st
     ++ [IssueArray (map enhanceIssue (stIssues st));
         ResultObject (List.length h0 + 6) (List.length h0 + 1)
           (List.length h0 + 5)])
    (List.length h0 + 7)
  = Some
      (mkResult (map enhanceIssue (stIssues st)) (stValidUsages st)
         (stStatistics st)).
Proof.
  unfold snapshot, withLocals. rewrite <- app_assoc.
  cbn [locals app].
  repeat (rewrite nth_error_after; cbn [nth_error]).
  now destruct (stStatistics st).
Qed.

(** A call of [validate] on a store that holds a validator at [this]:
    the store is extended and nothing in it is changed, the call ends as
    [Aria.validateDocument] does on the validator's catalogues, and the
    object it returns is new and reads as the result computed there. *)
Lemma validate_refines (h : Heap) (this : Loc) (validator : ARIAValidator)
    (htmlText : string) :
  validatorAt h this = Some validator ->
  exists t,
    snd (AriaStore.validate this htmlText h) = h ++ t /\
    match Aria.validateDocument validator (cheerio_load htmlText) with
    | Normal v =>
        exists r,
          fst (AriaStore.validate this htmlText h) = Normal r /\
          snapshot (h ++ t) r = Some v /\
          (List.length h <= r)%nat
    | Throw e => fst (AriaStore.validate this htmlText h) = Throw e
    end.
Proof.
  intros Hthis.
  assert (Hrun : AriaStore.validate this htmlText h
                 = runChecks this (cheerio_load htmlText) (List.length h)
                     (List.length h + 1) (List.length h + 5)
                     (withLocals h initialState)).
  { unfold AriaStore.validate, bind, new, withLocals. cbv zeta.
    rewrite !length_app. cbn [List.length locals initialState
                                stIssues stValidUsages stStatistics
                                rolesUsed propertiesUsed statesUsed
                                totalARIAElements].
    rewrite <- !Nat.add_assoc. cbn [Nat.add].
    rewrite <- !app_assoc. reflexivity. }
  rewrite Hrun.
  pose proof (runChecks_refines h this validator Hthis
                (cheerio_load htmlText)) as Href.
  cbv zeta in Href.
  destruct (Aria.validateDocument validator (cheerio_load htmlText))
    as [v|e].
  - destruct Href as (st & -> & ->). cbn [fst snd Aria.issues].
    unfold withLocals at 1. rewrite <- app_assoc. eexists.
    split; [reflexivity|].
    exists (List.length h + 7)%nat. split; [reflexivity|]. split; [|lia].
    rewrite app_assoc. apply (snapshot_result h st).
  - destruct Href as (st & ->). cbn [fst snd]. unfold withLocals.
    eexists. split; reflexivity.
Qed.

(** C9: running [validate] twice on the same input gives identical
    results.  On any store that holds a validator, a first call leaves
    the validator and its catalogues as they were, and so does the second
    call made on the store the first one left.  If the first call throws,
    the second throws the same error.  If it returns, the second returns
    too, and the two result objects read the same: the same issues in the
    same order, the same usage lines and the same statistics
    ([totalARIAElements], [rolesUsed], [propertiesUsed], [statesUsed]).
    The second call returns a new object and leaves the first result as
    it was. *)
Theorem validate_idempotent (h : Heap) (this : Loc)
    (validator : ARIAValidator) (htmlText : string) :
  validatorAt h this = Some validator ->
  let first := AriaStore.validate this htmlText h in
  let second := AriaStore.validate this htmlText (snd first) in
  validatorAt (snd first) this = Some validator /\
  validatorAt (snd second) this = Some validator /\
  (forall e, fst first = Throw e -> fst second = Throw e) /\
  (forall r1,
      fst first = Normal r1 ->
      exists r2 v1 v2,
        fst second = Normal r2 /\
        snapshot (snd first) r1 = Some v1 /\
        snapshot (snd second) r2 = Some v2 /\
        Aria.validateDocument validator (cheerio_load htmlText)
        = Normal v1 /\
        issues v2 = issues v1 /\
        validUsages v2 = validUsages v1 /\
        totalARIAElements (statistics v2)
        = totalARIAElements (statistics v1) /\
        rolesUsed (statistics v2) = rolesUsed (statistics v1) /\
        propertiesUsed (statistics v2) = propertiesUsed (statistics v1) /\
        statesUsed (statistics v2) = statesUsed (statistics v1) /\
        snapshot (snd second) r1 = Some v1 /\
        r2 <> r1).
Proof.
  intros Hthis. cbv zeta.
  destruct (validate_refines h this validator htmlText Hthis)
    as (t1 & Hh1 & Hc1).
  assert (Hthis1 : validatorAt (snd (AriaStore.validate this htmlText h))
                     this = Some validator)
    by (rewrite Hh1; now apply validatorAt_before).
  destruct (validate_refines _ this validator htmlText Hthis1)
    as (t2 & Hh2 & Hc2).
  split; [exact Hthis1|]. split.
  { rewrite Hh2. now apply validatorAt_before. }
  destruct (Aria.validateDocument validator (cheerio_load htmlText))
    as [v|e0].
  - destruct Hc1 as (r1 & Hr1 & Hs1 & _).
    destruct Hc2 as (r2 & Hr2 & Hs2 & Hfresh).
    split.
    + intros e He. rewrite Hr1 in He. discriminate.
    + intros r Hr. rewrite Hr1 in Hr. injection Hr as <-.
      exists r2, v, v.
      split; [exact Hr2|].
      split; [rewrite Hh1; exact Hs1|].
      split; [rewrite Hh2; exact Hs2|].
      repeat (split; [reflexivity|]).
      split.
      * rewrite Hh2. apply snapshot_before. rewrite Hh1. exact Hs1.
      * apply snapshot_inside in Hs1. rewrite Hh1 in Hfresh. lia.
  - split.
    + intros e He. rewrite Hc1 in He. injection He as <-. exact Hc2.
    + intros r Hr. rewrite Hc1 in Hr. discriminate.
Qed.

End StoreFacts.

Lemma validate_idempotent_witness :
  let first :=
    @AriaStore.validate (sampleEngine twoMainsDocument) 3
      "<main role=main></main><div role=main></div><div role=tab></div>"
      validatorHeap in
  let second :=
    @AriaStore.validate (sampleEngine twoMainsDocument) 3
      "<main role=main></main><div role=main></div><div role=tab></div>"
      (snd first) in
  validatorAt validatorHeap 3 = Some Aria.newValidator /\
  fst first = Normal 11%nat /\
  exists r2 v1 v2,
    fst second = Normal r2 /\
    snapshot (snd first) 11 = Some v1 /\
    snapshot (snd second) r2 = Some v2 /\
    Aria.issues v2 = Aria.issues v1 /\
    Aria.statistics v2 = Aria.statistics v1.
Proof.
  cbv zeta.
  refine ((fun Hthis Hfirst =>
             conj Hthis
               (conj Hfirst
                  match
                    proj2
                      (proj2
                         (proj2
                            (@validate_idempotent
                               (sampleEngine twoMainsDocument)
                               validatorHeap 3 Aria.newValidator
                               "<main role=main></main><div role=main></div><div role=tab></div>"
                               Hthis)))
                      11%nat Hfirst
                  with
                  | ex_intro _ r2 (ex_intro _ v1 (ex_intro _ v2 H)) =>
                      ex_intro _ r2 (ex_intro _ v1 (ex_intro _ v2 _))
                  end))
            _ _).
  - destruct H as (H1 & H2 & H3 & _ & H4 & _ & H6 & H7 & H8 & H9 & _).
    repeat (split; [assumption|]).
    destruct (Aria.statistics v1), (Aria.statistics v2).
    cbn in H6, H7, H8, H9. congruence.
  - reflexivity.
  - vm_compute. reflexivity.
Defined.
